(** * warrant: the SRP authentication engine, embedded and verified

    A shallow embedding of [warrant/aws_srp.py] and of the authentication
    part of [warrant/__init__.py].  Python integers are [Z], [str] values
    are [string] (read as their UTF-8 bytes), [bytes] and [bytearray]
    values are [list byte], dictionaries are [gmap string _], and a raised
    exception is the [Raise] branch of [result]. *)

From Stdlib Require Import ZArith String Ascii List Lia Znumtheory Zpow_facts.
From Stdlib.Strings Require Import Byte.
From stdpp Require Import base option list gmap strings.

Local Open Scope string_scope.
Local Open Scope Z_scope.

(** ** Python prelude: exceptions, [str] and [int] builtins *)

Module Py.

(** The exception classes the two modules raise or let through. *)
Inductive exn : Type :=
| ValueError (msg : string)
| KeyError (key : string)
| IndexError
| TypeError
| AttributeError (msg : string)
| NotImplementedError (msg : string)
| JWTError
| ClientError (msg : string)
| ForceChangePasswordException (msg : string)
| MFATokenRequiredException (msg : string)
| TokenVerificationException (msg : string).

Inductive result (A : Type) : Type :=
| Ok (a : A)
| Raise (e : exn).
Arguments Ok {A} a.
Arguments Raise {A} e.

Definition bind {A B} (c : result A) (k : A -> result B) : result B :=
  match c with
  | Ok a => k a
  | Raise e => Raise e
  end.

Definition is_ok {A} (c : result A) : bool :=
  match c with Ok _ => true | Raise _ => false end.

(** [d[key]] on a dictionary: [KeyError] when the key is absent. *)
Definition getitem {V} (d : gmap string V) (key : string) : result V :=
  match d !! key with
  | Some v => Ok v
  | None => Raise (KeyError key)
  end.

(** [s.split(sep)] for a one-character separator. *)
Fixpoint split (sep : ascii) (s : string) : list string :=
  match s with
  | EmptyString => [EmptyString]
  | String c s' =>
      if Ascii.eqb c sep then EmptyString :: split sep s'
      else match split sep s' with
           | h :: t => String c h :: t
           | [] => [String c EmptyString]
           end
  end.

(** [l[i]] on a list: [IndexError] when out of range. *)
Definition index {A} (l : list A) (i : nat) : result A :=
  match l !! i with
  | Some x => Ok x
  | None => Raise IndexError
  end.

(** [len(s)] *)
Definition len (s : string) : Z := Z.of_nat (String.length s).

(** [n * '0'] : the empty string when [n <= 0]. *)
Definition zeros (n : Z) : string :=
  string_of_list_ascii (repeat "0"%char (Z.to_nat n)).

(** ['%s' % v] for a value that is a [str] or [None]. *)
Definition fmt_s (v : option string) : string :=
  match v with
  | Some s => s
  | None => "None"
  end.

(** [s.encode('utf-8')] and [b.decode('utf-8')]: a [str] is kept as its
    UTF-8 bytes, so both are the change of representation. *)
Definition encode (s : string) : list byte := list_byte_of_string s.
Definition decode (b : list byte) : string := string_of_list_byte b.

(** A [str] operand that may be [None]: [None + str] is a [TypeError]. *)
Definition str_operand (v : option string) : result string :=
  match v with
  | Some s => Ok s
  | None => Raise TypeError
  end.

(** [bytearray(v, 'utf-8')]: [TypeError] on [None]. *)
Definition bytearray_of (v : option string) : result (list byte) :=
  match v with
  | Some s => Ok (encode s)
  | None => Raise TypeError
  end.

(** Square-and-multiply, the three-argument [pow] on a positive exponent. *)
Fixpoint powmod_pos (b : Z) (e : positive) (m : Z) : Z :=
  match e with
  | xH => b mod m
  | xO e' => let r := powmod_pos b e' m in (r * r) mod m
  | xI e' => let r := powmod_pos b e' m in (((r * r) mod m) * b) mod m
  end.

(** [pow(b, e, m)] for [e >= 0] and [m <> 0]; the result has the sign of
    [m], as [Z.modulo] does.  Every call in the module has [e >= 0] and
    [m = N]; the branch for a negative exponent is never taken there. *)
Definition pow (b e m : Z) : Z :=
  match e with
  | Z0 => 1 mod m
  | Zpos p => powmod_pos b p m
  | Zneg _ => 0
  end.

End Py.

Import Py.

Notation "'let*' x ':=' c 'in' k" := (Py.bind c (fun x => k))
  (at level 10, x name, c at level 100, k at level 200).

(** ** aws_srp.py: module-level functions *)

Module aws_srp.

Definition n_hex : string :=
  "FFFFFFFFFFFFFFFFC90FDAA22168C234C4C6628B80DC1CD1" ++ "29024E088A67CC74020BBEA63B139B22514A08798E3404DD" ++
  "EF9519B3CD3A431B302B0A6DF25F14374FE1356D6D51C245" ++ "E485B576625E7EC6F44C42E9A637ED6B0BFF5CB6F406B7ED" ++
  "EE386BFB5A899FA5AE9F24117C4B1FE649286651ECE45B3D" ++ "C2007CB8A163BF0598DA48361C55D39A69163FA8FD24CF5F" ++
  "83655D23DCA3AD961C62F356208552BB9ED529077096966D" ++ "670C354E4ABC9804F1746C08CA18217C32905E462E36CE3B" ++
  "E39E772C180E86039B2783A2EC07A28FB5C55DF06F4C52C9" ++ "DE2BCBF6955817183995497CEA956AE515D2261898FA0510" ++
  "15728E5A8AAAC42DAD33170D04507A33A85521ABDF1CBA64" ++ "ECFB850458DBEF0A8AEA71575D060C7DB3970F85A6E1E4C7" ++
  "ABF5AE8CDB0933D71E8C94E04A25619DCEE3D2261AD2EE6B" ++ "F12FFA06D98A0864D87602733EC86A64521F2B18177B200C" ++
  "BBE117577A615D6C770988C0BAD946E208E24FA074E5AB31" ++ "43DB5BFCE0FD108E4B82D120A93AD2CAFFFFFFFFFFFFFFFF".

Definition g_hex : string := "2".

Definition info_bits : list byte := encode "Caldera Derived Key".

(** Value of one hexadecimal digit, either case, from its character code. *)
Definition hex_val (c : ascii) : option Z :=
  let code := Z.of_N (N_of_ascii c) in
  if (48 <=? code) && (code <=? 57) then Some (code - 48)
  else if (97 <=? code) && (code <=? 102) then Some (code - 87)
  else if (65 <=? code) && (code <=? 70) then Some (code - 55)
  else None.

(** The lowercase digit of a value below sixteen. *)
Definition hex_digit (d : Z) : ascii :=
  match d with
  | 0 => "0" | 1 => "1" | 2 => "2" | 3 => "3" | 4 => "4" | 5 => "5"
  | 6 => "6" | 7 => "7" | 8 => "8" | 9 => "9" | 10 => "a" | 11 => "b"
  | 12 => "c" | 13 => "d" | 14 => "e" | _ => "f"
  end%char.

Fixpoint hex_to_long_acc (s : string) (acc : Z) : option Z :=
  match s with
  | EmptyString => Some acc
  | String c s' =>
      match hex_val c with
      | Some v => hex_to_long_acc s' (16 * acc + v)
      | None => None
      end
  end.

(** [int(hex_string, 16)] on a non-empty run of hexadecimal digits, the
    form the module produces and the service sends.  The other spellings
    [int] accepts (a sign, a [0x] prefix, underscores, blanks around) are
    outside the model, which raises on them as [int] does on any other
    text. *)
Definition hex_to_long (hex_string : string) : result Z :=
  match hex_string with
  | EmptyString => Raise (ValueError "invalid literal for int() with base 16")
  | _ =>
      match hex_to_long_acc hex_string 0 with
      | Some n => Ok n
      | None => Raise (ValueError "invalid literal for int() with base 16")
      end
  end.

(** Digits of [n > 0], most significant first, pushed in front of [acc];
    [fuel] bounds the number of digits. *)
Fixpoint to_hex_fuel (fuel : nat) (n : Z) (acc : string) : string :=
  match fuel with
  | O => acc
  | S fuel' =>
      let acc' := String (hex_digit (n mod 16)) acc in
      if n / 16 =? 0 then acc' else to_hex_fuel fuel' (n / 16) acc'
  end.

Definition hex_of_nonneg (n : Z) : string :=
  to_hex_fuel (S (Z.to_nat (Z.log2 n))) n EmptyString.

(** ['%x' % long_num] *)
Definition long_to_hex (long_num : Z) : string :=
  if long_num <? 0 then String "-"%char (hex_of_nonneg (- long_num))
  else hex_of_nonneg long_num.

Definition byte_of_nibbles (hi lo : Z) : byte :=
  match Byte.of_N (Z.to_N (16 * hi + lo)) with
  | Some b => b
  | None => x00
  end.

Definition is_space (c : ascii) : bool :=
  existsb (Ascii.eqb c) [" "; "009"; "010"; "011"; "012"; "013"]%char.

(** [bytearray.fromhex(s)]: pairs of digits, white space allowed between
    the pairs; [None] is its [ValueError]. *)
Fixpoint fromhex_opt (s : string) : option (list byte) :=
  match s with
  | EmptyString => Some []
  | String c rest =>
      if is_space c then fromhex_opt rest
      else match rest with
           | EmptyString => None
           | String d rest' =>
               match hex_val c, hex_val d, fromhex_opt rest' with
               | Some hi, Some lo, Some bs => Some (byte_of_nibbles hi lo :: bs)
               | _, _, _ => None
               end
           end
  end.

Definition fromhex (s : string) : result (list byte) :=
  match fromhex_opt s with
  | Some bs => Ok bs
  | None => Raise (ValueError "non-hexadecimal number found in fromhex() arg")
  end.

Definition hex_of_byte (b : byte) : string :=
  let n := Z.of_N (Byte.to_N b) in
  String (hex_digit (n / 16)) (String (hex_digit (n mod 16)) EmptyString).

(** [binascii.hexlify(data)] and [digest.hex()] *)
Fixpoint hexlify (data : list byte) : string :=
  match data with
  | [] => EmptyString
  | b :: data' => hex_of_byte b ++ hexlify data'
  end.

(** The argument of [pad_hex]: a long integer or a hex string. *)
Inductive int_or_str : Type :=
| PyInt (n : Z)
| PyStr (s : string).

Definition in_str (c : ascii) (s : string) : bool :=
  existsb (Ascii.eqb c) (list_ascii_of_string s).

Definition pad_hex (long_int : int_or_str) : result string :=
  let hash_str :=
    match long_int with
    | PyInt n => long_to_hex n
    | PyStr s => s
    end in
  if len hash_str mod 2 =? 1 then Ok ("0" ++ hash_str)
  else
    match hash_str with
    | EmptyString => Raise IndexError
    | String c0 _ =>
        if in_str c0 "89ABCDEFabcdef" then Ok ("00" ++ hash_str)
        else Ok hash_str
    end.


(** *** The service and the clock *)

(** A response of [initiate_auth] or [respond_to_auth_challenge]; a
    missing key of the response dictionary is [None]. *)
Record new_device_metadata : Type := {
  DeviceKey : option string;
  DeviceGroupKey : option string
}.

Record authentication_result : Type := {
  IdToken : option string;
  AccessToken : option string;
  RefreshToken : option string;
  TokenType : option string;
  NewDeviceMetadata : option new_device_metadata
}.

Record boto_response : Type := {
  ChallengeName : option string;
  ChallengeParameters : option (gmap string string);
  Session : option string;
  AuthenticationResult : option authentication_result
}.

(** The calls made on the boto3 client, with their keyword arguments; an
    omitted [Session] is [None]. *)
Inductive request : Type :=
| initiate_auth (AuthFlow : string) (AuthParameters : gmap string string)
    (ClientId : string)
| respond_to_auth_challenge (ClientId ChallengeName : string)
    (Session : option string) (ChallengeResponses : gmap string string)
| admin_initiate_auth (UserPoolId ClientId AuthFlow : string)
    (AuthParameters : gmap string string)
| confirm_device (AccessToken DeviceKey : option string)
    (DeviceSecretVerifierConfig : gmap string string) (DeviceName : string)
| update_device_status (AccessToken DeviceKey : option string)
    (DeviceRememberedStatus : string).

(** [ICognitoClient]: the service answers a call knowing the calls made
    before it, with a response or an exception. *)
Definition ICognitoClient : Type :=
  list request -> request -> result boto_response.

(** Code with a state [S], kept when an exception is raised. *)
Definition st (S A : Type) : Type := S -> result A * S.

Definition st_ret {S A} (a : A) : st S A := fun s => (Ok a, s).

Definition st_raise {S A} (e : exn) : st S A := fun s => (Raise e, s).

Definition st_bind {S A B} (c : st S A) (k : A -> st S B) : st S B :=
  fun s =>
    match c s with
    | (Ok a, s') => k a s'
    | (Raise e, s') => (Raise e, s')
    end.

Definition st_lift {S A} (c : result A) : st S A := fun s => (c, s).

(** Code that talks to the service: the state is the list of calls made so
    far. *)
Definition io (A : Type) : Type := st (list request) A.

Definition call (client : ICognitoClient) (req : request) : io boto_response :=
  fun log => (client log req, (log ++ [req])%list).

(** [d['key']] on a response dictionary. *)
Definition item {A} (key : string) (v : option A) : result A :=
  match v with
  | Some a => Ok a
  | None => Raise (KeyError key)
  end.

(** [d.get('key') == s] *)
Definition get_is (v : option string) (s : string) : bool :=
  match v with
  | Some x => String.eqb x s
  | None => false
  end.

Definition is_digit (c : ascii) : bool := in_str c "0123456789".

(** [re.sub(r" 0(\d) ", r" \1 ", s)]: leftmost matches, not overlapping. *)
Fixpoint strip_day_zero (s : string) : string :=
  match s with
  | EmptyString => EmptyString
  | String c s' =>
      match s' with
      | String z (String d (String sp rest)) =>
          if Ascii.eqb c " " && Ascii.eqb z "0" && is_digit d && Ascii.eqb sp " "
          then String " " (String d (String " " (strip_day_zero rest)))
          else String c (strip_day_zero s')
      | _ => String c (strip_day_zero s')
      end
  end.

(** The libraries the module calls: [hashlib], [hmac], [base64], and the
    clock behind [datetime.datetime.utcnow()]. *)
Class Platform : Type := {
  (** [hashlib.sha256(buf).digest()] *)
  sha256 : list byte -> list byte;
  (** [hmac.new(key, msg, hashlib.sha256).digest()] *)
  hmac_sha256 : list byte -> list byte -> list byte;
  (** [base64.standard_b64encode(b)] *)
  standard_b64encode : list byte -> list byte;
  (** [base64.standard_b64decode(s)] *)
  standard_b64decode : string -> result (list byte);
  (** [utcnow().strftime("%a %b %d %H:%M:%S UTC %Y")], read after the
      given calls to the service *)
  utcnow_strftime : list request -> string;
  (** [boto3.client('cognito-idp', region_name=r)] *)
  boto3_client : option string -> ICognitoClient
}.

Section with_platform.
Context {platform : Platform}.

Definition hash_sha256 (buf : list byte) : string :=
  let a := hexlify (sha256 buf) in
  zeros (64 - len a) ++ a.

Definition hex_hash (hex_string : string) : result string :=
  let* b := fromhex hex_string in
  Ok (hash_sha256 b).

(** [get_random(nbytes)], given the [nbytes] bytes [os.urandom] returned. *)
Definition get_random (urandom : list byte) : result Z :=
  let random_hex := hexlify urandom in
  hex_to_long random_hex.

Definition compute_hkdf (ikm salt : list byte) : list byte :=
  let prk := hmac_sha256 salt ikm in
  let info_bits_update := (info_bits ++ [x01])%list in
  let hmac_hash := hmac_sha256 prk info_bits_update in
  take 16 hmac_hash.

Definition calculate_u (big_a big_b : Z) : result Z :=
  let* pa := pad_hex (PyInt big_a) in
  let* pb := pad_hex (PyInt big_b) in
  let* u_hex_hash := hex_hash (pa ++ pb) in
  hex_to_long u_hex_hash.

End with_platform.


Notation "'let!' x ':=' c 'in' k" := (st_bind c (fun x => k))
  (at level 10, x name, c at level 100, k at level 200).

(** *** class AWSSRP *)

Module AWSSRP.

Definition NEW_PASSWORD_REQUIRED_CHALLENGE : string := "NEW_PASSWORD_REQUIRED".
Definition PASSWORD_VERIFIER_CHALLENGE : string := "PASSWORD_VERIFIER".
Definition DEVICE_SRP_AUTH : string := "DEVICE_SRP_AUTH".
Definition SOFTWARE_TOKEN_MFA_CHALLENGE : string := "SOFTWARE_TOKEN_MFA".

(** The attributes [__init__] sets on the object. *)
Record t : Type := {
  username : string;
  password : string;
  pool_id : string;
  client_id : string;
  client_secret : option string;
  device_key : option string;
  device_group_key : option string;
  device_password : option string;
  client : ICognitoClient;
  big_n : Z;
  g : Z;
  k : Z;
  small_a_value : Z;
  large_a_value : Z
}.

Section methods.
Context {platform : Platform}.

(** [generate_random_small_a], given the 128 bytes drawn from the system. *)
Definition generate_random_small_a (big_n : Z) (urandom : list byte) : result Z :=
  let* random_long_int := get_random urandom in
  Ok (random_long_int mod big_n).

Definition calculate_a (g small_a_value big_n : Z) : result Z :=
  let big_a := Py.pow g small_a_value big_n in
  if big_a mod big_n =? 0 then Raise (ValueError "Safety check for A failed")
  else Ok big_a.

(** [AWSSRP.__init__]; [urandom] is the draw of [os.urandom(128)]. *)
Definition init (username password pool_id client_id : string)
    (pool_region : option string) (client : option ICognitoClient)
    (client_secret device_key device_password device_group_key : option string)
    (urandom : list byte) : result t :=
  match pool_region, client with
  | Some _, Some _ =>
      Raise (ValueError ("pool_region and client should not both be specified " ++
                         "(region should be passed to the boto3 client instead)"))
  | _, _ =>
      let client' :=
        match client with
        | Some c => c
        | None => boto3_client pool_region
        end in
      let* big_n := hex_to_long n_hex in
      let* g := hex_to_long g_hex in
      let* k_hex := hex_hash ("00" ++ n_hex ++ "0" ++ g_hex) in
      let* k := hex_to_long k_hex in
      let* small_a_value := generate_random_small_a big_n urandom in
      let* large_a_value := calculate_a g small_a_value big_n in
      Ok {| username := username; password := password; pool_id := pool_id;
            client_id := client_id; client_secret := client_secret;
            device_key := device_key; device_group_key := device_group_key;
            device_password := device_password; client := client';
            big_n := big_n; g := g; k := k;
            small_a_value := small_a_value; large_a_value := large_a_value |}
  end.

(** The local [username_password] of [get_password_authentication_key]. *)
Definition username_password (self : t) (username password : string) : result string :=
  let* pool_name := index (split "_" (pool_id self)) 1 in
  Ok (pool_name ++ username ++ ":" ++ password).

(** The local [s_value] of the two key derivations. *)
Definition s_value (self : t) (server_b_value u_value x_value : Z) : Z :=
  let g_mod_pow_xn := Py.pow (g self) x_value (big_n self) in
  let int_value2 := server_b_value - k self * g_mod_pow_xn in
  Py.pow int_value2 (small_a_value self + u_value * x_value) (big_n self).

(** The last statement of the two key derivations. *)
Definition hkdf_of (s_value u_value : Z) : result (list byte) :=
  let* s_hex := pad_hex (PyInt s_value) in
  let* ikm := fromhex s_hex in
  let* u_hex := pad_hex (PyStr (long_to_hex u_value)) in
  let* salt := fromhex u_hex in
  Ok (compute_hkdf ikm salt).

(** The local [x_value] of the two key derivations. *)
Definition x_value_of (salt username_password : string) : result Z :=
  let username_password_hash := hash_sha256 (encode username_password) in
  let* salt_hex := pad_hex (PyStr salt) in
  let* x_hex := hex_hash (salt_hex ++ username_password_hash) in
  hex_to_long x_hex.

Definition get_password_authentication_key (self : t) (username password : string)
    (server_b_value : Z) (salt : string) : result (list byte) :=
  let* u_value := calculate_u (large_a_value self) server_b_value in
  if u_value =? 0 then Raise (ValueError "U cannot be zero.")
  else
    let* username_password := username_password self username password in
    let* x_value := x_value_of salt username_password in
    hkdf_of (s_value self server_b_value u_value x_value) u_value.

Definition get_secret_hash (username client_id client_secret : string) : string :=
  let message := encode (username ++ client_id) in
  let digest := hmac_sha256 (encode client_secret) message in
  decode (standard_b64encode digest).

Definition get_auth_params (self : t) : gmap string string :=
  let auth_params : gmap string string :=
    <["SRP_A" := long_to_hex (large_a_value self)]>
      (<["USERNAME" := AWSSRP.username self]> ∅) in
  let auth_params :=
    match client_secret self with
    | Some secret =>
        <["SECRET_HASH" :=
            get_secret_hash (AWSSRP.username self) (client_id self) secret]> auth_params
    | None => auth_params
    end in
  match device_key self with
  | Some dk => <["DEVICE_KEY" := dk]> auth_params
  | None => auth_params
  end.

(** The time stamp both challenge handlers sign. *)
Definition timestamp_now : io string :=
  fun log => (Ok (strip_day_zero (utcnow_strftime log)), log).

Definition process_challenge (self : t) (challenge_parameters : gmap string string)
    : io (gmap string string) :=
  let! user_id_for_srp := st_lift (getitem challenge_parameters "USER_ID_FOR_SRP") in
  let! salt_hex := st_lift (getitem challenge_parameters "SALT") in
  let! srp_b_hex := st_lift (getitem challenge_parameters "SRP_B") in
  let! secret_block_b64 := st_lift (getitem challenge_parameters "SECRET_BLOCK") in
  let! timestamp := timestamp_now in
  let! srp_b := st_lift (hex_to_long srp_b_hex) in
  let! hkdf := st_lift (get_password_authentication_key self user_id_for_srp
                          (AWSSRP.password self) srp_b salt_hex) in
  let! secret_block_bytes := st_lift (standard_b64decode secret_block_b64) in
  let! pool_name := st_lift (index (split "_" (pool_id self)) 1) in
  let msg := (encode pool_name ++ encode user_id_for_srp ++
              secret_block_bytes ++ encode timestamp)%list in
  let signature_string := standard_b64encode (hmac_sha256 hkdf msg) in
  let response : gmap string string :=
    <["PASSWORD_CLAIM_SIGNATURE" := decode signature_string]>
      (<["PASSWORD_CLAIM_SECRET_BLOCK" := secret_block_b64]>
         (<["USERNAME" := user_id_for_srp]>
            (<["TIMESTAMP" := timestamp]> ∅))) in
  let response :=
    match client_secret self with
    | Some secret =>
        <["SECRET_HASH" :=
            get_secret_hash (AWSSRP.username self) (client_id self) secret]> response
    | None => response
    end in
  let response :=
    match device_key self with
    | Some dk => <["DEVICE_KEY" := dk]> response
    | None => response
    end in
  st_ret response.

Definition get_device_authentication_key (self : t)
    (device_group_key device_key device_password : option string)
    (server_b_value : Z) (salt : string) : result (list byte) :=
  let* u_value := calculate_u (large_a_value self) server_b_value in
  if u_value =? 0 then Raise (ValueError "U cannot be zero.")
  else
    let username_password :=
      fmt_s device_group_key ++ fmt_s device_key ++ ":" ++ fmt_s device_password in
    let* x_value := x_value_of salt username_password in
    hkdf_of (s_value self server_b_value u_value x_value) u_value.

Definition process_device_challenge (self : t) (challenge_parameters : gmap string string)
    : io (gmap string string) :=
  let! username := st_lift (getitem challenge_parameters "USERNAME") in
  let! salt_hex := st_lift (getitem challenge_parameters "SALT") in
  let! srp_b_hex := st_lift (getitem challenge_parameters "SRP_B") in
  let! secret_block_b64 := st_lift (getitem challenge_parameters "SECRET_BLOCK") in
  let! timestamp := timestamp_now in
  let! srp_b := st_lift (hex_to_long srp_b_hex) in
  let! hkdf := st_lift (get_device_authentication_key self
                          (AWSSRP.device_group_key self) (AWSSRP.device_key self)
                          (AWSSRP.device_password self) srp_b salt_hex) in
  let! secret_block_bytes := st_lift (standard_b64decode secret_block_b64) in
  let! group_bytes := st_lift (bytearray_of (AWSSRP.device_group_key self)) in
  match AWSSRP.device_key self with
  | None => st_raise TypeError
  | Some device_key =>
      let msg := (group_bytes ++ encode device_key ++
                  secret_block_bytes ++ encode timestamp)%list in
      let signature_string := standard_b64encode (hmac_sha256 hkdf msg) in
      let response : gmap string string :=
        <["DEVICE_KEY" := device_key]>
          (<["PASSWORD_CLAIM_SIGNATURE" := decode signature_string]>
             (<["PASSWORD_CLAIM_SECRET_BLOCK" := secret_block_b64]>
                (<["USERNAME" := username]>
                   (<["TIMESTAMP" := timestamp]> ∅)))) in
      let response :=
        match client_secret self with
        | Some secret =>
            <["SECRET_HASH" := get_secret_hash username (client_id self) secret]> response
        | None => response
        end in
      st_ret response
  end.

(** [boto_client] below is [self.client or client]: the attribute is always
    set by [__init__], so the optional argument is never used. *)
Definition _authenticate_device (self : t) (boto_client : ICognitoClient)
    (response : boto_response) : io boto_response :=
  let auth_params := get_auth_params self in
  let! response_auth :=
    call boto_client
      (respond_to_auth_challenge (client_id self) "DEVICE_SRP_AUTH" None auth_params) in
  let! params := st_lift (item "ChallengeParameters" (ChallengeParameters response_auth)) in
  let! cr := process_device_challenge self params in
  let! response_verifier :=
    call boto_client
      (respond_to_auth_challenge (client_id self) "DEVICE_PASSWORD_VERIFIER" None cr) in
  st_ret response_verifier.

Definition not_supported (challenge : string) : exn :=
  NotImplementedError ("The " ++ challenge ++ " challenge is not supported").

Definition authenticate_user (self : t) : io boto_response :=
  let boto_client := client self in
  let auth_params := get_auth_params self in
  let! response :=
    call boto_client (initiate_auth "USER_SRP_AUTH" auth_params (client_id self)) in
  let! challenge := st_lift (item "ChallengeName" (ChallengeName response)) in
  if String.eqb challenge PASSWORD_VERIFIER_CHALLENGE then
    let! params := st_lift (item "ChallengeParameters" (ChallengeParameters response)) in
    let! challenge_response := process_challenge self params in
    let! tokens :=
      call boto_client
        (respond_to_auth_challenge (client_id self) PASSWORD_VERIFIER_CHALLENGE
           None challenge_response) in
    if get_is (ChallengeName tokens) DEVICE_SRP_AUTH then
      _authenticate_device self boto_client tokens
    else if get_is (ChallengeName tokens) NEW_PASSWORD_REQUIRED_CHALLENGE then
      st_raise (ForceChangePasswordException "Change password before authenticating")
    else if get_is (ChallengeName tokens) SOFTWARE_TOKEN_MFA_CHALLENGE then
      st_raise (MFATokenRequiredException "Software MFA Token required to authenticate")
    else st_ret tokens
  else st_raise (not_supported challenge).

Definition authenticate_user_with_mfa_token (self : t) (mfaToken : string)
    : io boto_response :=
  let boto_client := client self in
  let auth_params := get_auth_params self in
  let! response :=
    call boto_client (initiate_auth "USER_SRP_AUTH" auth_params (client_id self)) in
  let! params := st_lift (item "ChallengeParameters" (ChallengeParameters response)) in
  let! userSub := st_lift (getitem params "USERNAME") in
  let! challenge := st_lift (item "ChallengeName" (ChallengeName response)) in
  if String.eqb challenge PASSWORD_VERIFIER_CHALLENGE then
    let! challenge_response := process_challenge self params in
    let! tokens :=
      call boto_client
        (respond_to_auth_challenge (client_id self) PASSWORD_VERIFIER_CHALLENGE
           None challenge_response) in
    if get_is (ChallengeName tokens) SOFTWARE_TOKEN_MFA_CHALLENGE then
      let challenge_response : gmap string string :=
        <["SOFTWARE_TOKEN_MFA_CODE" := mfaToken]> (<["USERNAME" := userSub]> ∅) in
      let! session := st_lift (item "Session" (Session tokens)) in
      let! mfa_response :=
        call boto_client
          (respond_to_auth_challenge (client_id self) SOFTWARE_TOKEN_MFA_CHALLENGE
             (Some session) challenge_response) in
      st_ret mfa_response
    else st_ret tokens
  else st_raise (not_supported challenge).

Definition set_new_password_challenge (self : t) (new_password : string)
    : io boto_response :=
  let boto_client := client self in
  let auth_params := get_auth_params self in
  let! response :=
    call boto_client (initiate_auth "USER_SRP_AUTH" auth_params (client_id self)) in
  let! challenge := st_lift (item "ChallengeName" (ChallengeName response)) in
  if String.eqb challenge PASSWORD_VERIFIER_CHALLENGE then
    let! params := st_lift (item "ChallengeParameters" (ChallengeParameters response)) in
    let! challenge_response := process_challenge self params in
    let! tokens :=
      call boto_client
        (respond_to_auth_challenge (client_id self) PASSWORD_VERIFIER_CHALLENGE
           None challenge_response) in
    let! next := st_lift (item "ChallengeName" (ChallengeName tokens)) in
    if String.eqb next NEW_PASSWORD_REQUIRED_CHALLENGE then
      let! user := st_lift (getitem auth_params "USERNAME") in
      let challenge_response : gmap string string :=
        <["NEW_PASSWORD" := new_password]> (<["USERNAME" := user]> ∅) in
      let! session := st_lift (item "Session" (Session tokens)) in
      let! new_password_response :=
        call boto_client
          (respond_to_auth_challenge (client_id self) NEW_PASSWORD_REQUIRED_CHALLENGE
             (Some session) challenge_response) in
      st_ret new_password_response
    else st_ret tokens
  else st_raise (not_supported challenge).

(** [generate_hash_device]; [urandom40] and [urandom16] are the draws of
    [os.urandom(40)] and of [get_random(16)]. *)
Definition generate_hash_device (device_group_key device_key : option string)
    (urandom40 urandom16 : list byte) : result (string * gmap string string) :=
  let device_password := decode (standard_b64encode urandom40) in
  let combined_string :=
    fmt_s device_group_key ++ fmt_s device_key ++ ":" ++ device_password in
  let combined_string_hash := hash_sha256 (encode combined_string) in
  let* random := get_random urandom16 in
  let* salt := pad_hex (PyInt random) in
  let* x_hex := hex_hash (salt ++ combined_string_hash) in
  let* x_value := hex_to_long x_hex in
  let* g := hex_to_long g_hex in
  let* big_n := hex_to_long n_hex in
  let verifier_device_not_padded := Py.pow g x_value big_n in
  let* verifier := pad_hex (PyInt verifier_device_not_padded) in
  let* verifier_bytes := fromhex verifier in
  let* salt_bytes := fromhex salt in
  let device_secret_verifier_config : gmap string string :=
    <["Salt" := decode (standard_b64encode salt_bytes)]>
      (<["PasswordVerifier" := decode (standard_b64encode verifier_bytes)]> ∅) in
  Ok (device_password, device_secret_verifier_config).

End methods.

End AWSSRP.

End aws_srp.

(** ** warrant/__init__.py: class Cognito *)

Module warrant.

Import aws_srp.

(** A JWKS document: a dictionary whose ['keys'] entry is a list of keys. *)
Definition jwks : Type := gmap string (list (gmap string string)).

(** The libraries behind token verification: [jose.jwt], [envs.env] and
    [requests]. *)
Class TokenPlatform : Type := {
  (** [jwt.get_unverified_header(token)] *)
  get_unverified_header : string -> result (gmap string string);
  (** [jwt.get_unverified_claims(token)] *)
  get_unverified_claims : string -> result (gmap string string);
  (** [jwt.decode(token, key, algorithms=['RS256'], audience=a, issuer=i)] *)
  jwt_decode : string -> gmap string string -> option string -> option string ->
               result (gmap string string);
  (** [env('COGNITO_JWKS', {}, var_type='dict')] *)
  env_COGNITO_JWKS : jwks;
  (** [requests.get(url).json()] *)
  requests_get_json : string -> result jwks
}.

Module Cognito.

(** The attributes of a session that authentication reads or writes;
    [other_attrs] holds what [setattr] stores under any other name. *)
Record t : Type := {
  user_pool_id : string;
  client_id : string;
  user_pool_region : string;
  username : option string;
  id_token : option string;
  access_token : option string;
  refresh_token : option string;
  client_secret : option string;
  token_type : option string;
  pool_jwk : option jwks;
  device_key : option string;
  device_group_key : option string;
  device_password : option string;
  client : ICognitoClient;
  other_attrs : gmap string string
}.

Definition set_user_pool_id (v : string) (self : t) : t :=
  {| user_pool_id := v; client_id := client_id self;
     user_pool_region := user_pool_region self; username := username self;
     id_token := id_token self; access_token := access_token self;
     refresh_token := refresh_token self; client_secret := client_secret self;
     token_type := token_type self; pool_jwk := pool_jwk self;
     device_key := device_key self; device_group_key := device_group_key self;
     device_password := device_password self; client := client self;
     other_attrs := other_attrs self |}.

Definition set_client_id (v : string) (self : t) : t :=
  {| user_pool_id := user_pool_id self; client_id := v;
     user_pool_region := user_pool_region self; username := username self;
     id_token := id_token self; access_token := access_token self;
     refresh_token := refresh_token self; client_secret := client_secret self;
     token_type := token_type self; pool_jwk := pool_jwk self;
     device_key := device_key self; device_group_key := device_group_key self;
     device_password := device_password self; client := client self;
     other_attrs := other_attrs self |}.

Definition set_user_pool_region (v : string) (self : t) : t :=
  {| user_pool_id := user_pool_id self; client_id := client_id self;
     user_pool_region := v; username := username self; id_token := id_token self;
     access_token := access_token self; refresh_token := refresh_token self;
     client_secret := client_secret self; token_type := token_type self;
     pool_jwk := pool_jwk self; device_key := device_key self;
     device_group_key := device_group_key self;
     device_password := device_password self; client := client self;
     other_attrs := other_attrs self |}.

Definition set_username (v : option string) (self : t) : t :=
  {| user_pool_id := user_pool_id self; client_id := client_id self;
     user_pool_region := user_pool_region self; username := v;
     id_token := id_token self; access_token := access_token self;
     refresh_token := refresh_token self; client_secret := client_secret self;
     token_type := token_type self; pool_jwk := pool_jwk self;
     device_key := device_key self; device_group_key := device_group_key self;
     device_password := device_password self; client := client self;
     other_attrs := other_attrs self |}.

Definition set_id_token (v : option string) (self : t) : t :=
  {| user_pool_id := user_pool_id self; client_id := client_id self;
     user_pool_region := user_pool_region self; username := username self;
     id_token := v; access_token := access_token self;
     refresh_token := refresh_token self; client_secret := client_secret self;
     token_type := token_type self; pool_jwk := pool_jwk self;
     device_key := device_key self; device_group_key := device_group_key self;
     device_password := device_password self; client := client self;
     other_attrs := other_attrs self |}.

Definition set_access_token (v : option string) (self : t) : t :=
  {| user_pool_id := user_pool_id self; client_id := client_id self;
     user_pool_region := user_pool_region self; username := username self;
     id_token := id_token self; access_token := v; refresh_token := refresh_token self;
     client_secret := client_secret self; token_type := token_type self;
     pool_jwk := pool_jwk self; device_key := device_key self;
     device_group_key := device_group_key self;
     device_password := device_password self; client := client self;
     other_attrs := other_attrs self |}.

Definition set_refresh_token (v : option string) (self : t) : t :=
  {| user_pool_id := user_pool_id self; client_id := client_id self;
     user_pool_region := user_pool_region self; username := username self;
     id_token := id_token self; access_token := access_token self; refresh_token := v;
     client_secret := client_secret self; token_type := token_type self;
     pool_jwk := pool_jwk self; device_key := device_key self;
     device_group_key := device_group_key self;
     device_password := device_password self; client := client self;
     other_attrs := other_attrs self |}.

Definition set_client_secret (v : option string) (self : t) : t :=
  {| user_pool_id := user_pool_id self; client_id := client_id self;
     user_pool_region := user_pool_region self; username := username self;
     id_token := id_token self; access_token := access_token self;
     refresh_token := refresh_token self; client_secret := v;
     token_type := token_type self; pool_jwk := pool_jwk self;
     device_key := device_key self; device_group_key := device_group_key self;
     device_password := device_password self; client := client self;
     other_attrs := other_attrs self |}.

Definition set_token_type (v : option string) (self : t) : t :=
  {| user_pool_id := user_pool_id self; client_id := client_id self;
     user_pool_region := user_pool_region self; username := username self;
     id_token := id_token self; access_token := access_token self;
     refresh_token := refresh_token self; client_secret := client_secret self;
     token_type := v; pool_jwk := pool_jwk self; device_key := device_key self;
     device_group_key := device_group_key self;
     device_password := device_password self; client := client self;
     other_attrs := other_attrs self |}.

Definition set_pool_jwk (v : option jwks) (self : t) : t :=
  {| user_pool_id := user_pool_id self; client_id := client_id self;
     user_pool_region := user_pool_region self; username := username self;
     id_token := id_token self; access_token := access_token self;
     refresh_token := refresh_token self; client_secret := client_secret self;
     token_type := token_type self; pool_jwk := v; device_key := device_key self;
     device_group_key := device_group_key self;
     device_password := device_password self; client := client self;
     other_attrs := other_attrs self |}.

Definition set_device_key (v : option string) (self : t) : t :=
  {| user_pool_id := user_pool_id self; client_id := client_id self;
     user_pool_region := user_pool_region self; username := username self;
     id_token := id_token self; access_token := access_token self;
     refresh_token := refresh_token self; client_secret := client_secret self;
     token_type := token_type self; pool_jwk := pool_jwk self; device_key := v;
     device_group_key := device_group_key self;
     device_password := device_password self; client := client self;
     other_attrs := other_attrs self |}.

Definition set_device_group_key (v : option string) (self : t) : t :=
  {| user_pool_id := user_pool_id self; client_id := client_id self;
     user_pool_region := user_pool_region self; username := username self;
     id_token := id_token self; access_token := access_token self;
     refresh_token := refresh_token self; client_secret := client_secret self;
     token_type := token_type self; pool_jwk := pool_jwk self;
     device_key := device_key self; device_group_key := v;
     device_password := device_password self; client := client self;
     other_attrs := other_attrs self |}.

Definition set_device_password (v : option string) (self : t) : t :=
  {| user_pool_id := user_pool_id self; client_id := client_id self;
     user_pool_region := user_pool_region self; username := username self;
     id_token := id_token self; access_token := access_token self;
     refresh_token := refresh_token self; client_secret := client_secret self;
     token_type := token_type self; pool_jwk := pool_jwk self;
     device_key := device_key self; device_group_key := device_group_key self;
     device_password := v; client := client self; other_attrs := other_attrs self |}.

Definition set_other_attrs (v : gmap string string) (self : t) : t :=
  {| user_pool_id := user_pool_id self; client_id := client_id self;
     user_pool_region := user_pool_region self; username := username self;
     id_token := id_token self; access_token := access_token self;
     refresh_token := refresh_token self; client_secret := client_secret self;
     token_type := token_type self; pool_jwk := pool_jwk self;
     device_key := device_key self; device_group_key := device_group_key self;
     device_password := device_password self; client := client self;
     other_attrs := v |}.

(** [setattr(self, name, value)] for a [str] value. *)
Definition setattr (name value : string) (self : t) : t :=
  if String.eqb name "user_pool_id" then set_user_pool_id value self
  else if String.eqb name "client_id" then set_client_id value self
  else if String.eqb name "user_pool_region" then set_user_pool_region value self
  else if String.eqb name "username" then set_username (Some value) self
  else if String.eqb name "id_token" then set_id_token (Some value) self
  else if String.eqb name "access_token" then set_access_token (Some value) self
  else if String.eqb name "refresh_token" then set_refresh_token (Some value) self
  else if String.eqb name "client_secret" then set_client_secret (Some value) self
  else if String.eqb name "token_type" then set_token_type (Some value) self
  else if String.eqb name "device_key" then set_device_key (Some value) self
  else if String.eqb name "device_group_key" then set_device_group_key (Some value) self
  else if String.eqb name "device_password" then set_device_password (Some value) self
  else set_other_attrs (<[name := value]> (other_attrs self)) self.

(** [getattr(self, name)] on the attributes that hold a [str] or [None]. *)
Definition getattr (self : t) (name : string) : option string :=
  if String.eqb name "user_pool_id" then Some (user_pool_id self)
  else if String.eqb name "client_id" then Some (client_id self)
  else if String.eqb name "user_pool_region" then Some (user_pool_region self)
  else if String.eqb name "username" then username self
  else if String.eqb name "id_token" then id_token self
  else if String.eqb name "access_token" then access_token self
  else if String.eqb name "refresh_token" then refresh_token self
  else if String.eqb name "client_secret" then client_secret self
  else if String.eqb name "token_type" then token_type self
  else if String.eqb name "device_key" then device_key self
  else if String.eqb name "device_group_key" then device_group_key self
  else if String.eqb name "device_password" then device_password self
  else other_attrs self !! name.

(** A method of the session: the state is the object and the calls made
    on the service so far. *)
Definition method (A : Type) : Type := st (t * list request) A.

Definition get_self : method t := fun s => (Ok (fst s), s).

Definition update (f : t -> t) : method unit := fun s => (Ok tt, (f (fst s), snd s)).

Definition run_io {A} (c : io A) : method A :=
  fun s => let (r, log') := c (snd s) in (r, (fst s, log')).

Definition opt_eqb (a b : option string) : bool :=
  match a, b with
  | Some x, Some y => String.eqb x y
  | None, None => true
  | _, _ => false
  end.

Section methods.
Context {platform : Platform} {token_platform : TokenPlatform}.

Definition jwks_url (region pool : string) : string :=
  "https://cognito-idp." ++ region ++ ".amazonaws.com/" ++ pool ++ "/.well-known/jwks.json".

Definition get_keys : method jwks :=
  let! self := get_self in
  let cached :=
    match pool_jwk self with
    | Some j => if bool_decide (j = ∅) then None else Some j
    | None => None
    end in
  match cached with
  | Some j => st_ret j
  | None =>
      let pool_jwk_env := env_COGNITO_JWKS in
      if bool_decide (pool_jwk_env = ∅) then
        let! fetched :=
          st_lift (requests_get_json (jwks_url (user_pool_region self) (user_pool_id self))) in
        let! _ := update (set_pool_jwk (Some fetched)) in
        st_ret fetched
      else
        let! _ := update (set_pool_jwk (Some pool_jwk_env)) in
        st_ret pool_jwk_env
  end.

Definition get_key (kid : option string) : method (gmap string string) :=
  let! all := get_keys in
  match all !! "keys" with
  | None => st_raise TypeError
  | Some keys =>
      let key := List.filter (fun x : gmap string string => opt_eqb (x !! "kid") kid) keys in
      st_lift (index key 0)
  end.

Definition verify_token (token id_name token_use : string) : method (gmap string string) :=
  let! header := st_lift (get_unverified_header token) in
  let kid := header !! "kid" in
  let! unverified_claims := st_lift (get_unverified_claims token) in
  let token_use_verified := opt_eqb (unverified_claims !! "token_use") (Some token_use) in
  if negb token_use_verified then
    st_raise (TokenVerificationException "Your {} token use could not be verified.")
  else
    let! hmac_key := get_key kid in
    match jwt_decode token hmac_key (unverified_claims !! "aud") (unverified_claims !! "iss") with
    | Raise JWTError =>
        st_raise (TokenVerificationException "Your {} token could not be verified.")
    | Raise e => st_raise e
    | Ok verified =>
        let! _ := update (setattr id_name token) in
        st_ret verified
    end.

Definition _add_secret_hash (parameters : gmap string string) (key : string)
    : method (gmap string string) :=
  let! self := get_self in
  match client_secret self with
  | Some secret =>
      let! user := st_lift (str_operand (username self)) in
      let secret_hash := AWSSRP.get_secret_hash user (client_id self) secret in
      st_ret (<[key := secret_hash]> parameters)
  | None => st_ret parameters
  end.

(** The statements that follow the exchange in [authenticate],
    [authenticate_with_mfa_token] and [admin_authenticate]. *)
Definition retrieve_login_tokens (result : authentication_result) : method unit :=
  let! id := st_lift (item "IdToken" (IdToken result)) in
  let! _ := verify_token id "id_token" "id" in
  let! refresh := st_lift (item "RefreshToken" (RefreshToken result)) in
  let! _ := update (set_refresh_token (Some refresh)) in
  let! access := st_lift (item "AccessToken" (AccessToken result)) in
  let! _ := verify_token access "access_token" "access" in
  let! type := st_lift (item "TokenType" (TokenType result)) in
  update (set_token_type (Some type)).

(** [if "NewDeviceMetadata" in ...: self.device_key = ...] *)
Definition save_device_information (result : authentication_result) : method unit :=
  match NewDeviceMetadata result with
  | Some meta =>
      let! dk := st_lift (item "DeviceKey" (DeviceKey meta)) in
      let! _ := update (set_device_key (Some dk)) in
      let! dgk := st_lift (item "DeviceGroupKey" (DeviceGroupKey meta)) in
      update (set_device_group_key (Some dgk))
  | None => st_ret tt
  end.

(** [AWSSRP(username=self.username, ..., client=self.client, ...)].  A
    session whose [username] is [None] cannot complete an exchange (the
    secret hash or the client rejects it); the model raises [TypeError]
    where the user name is first passed on. *)
Definition new_AWSSRP (self : t) (password : string)
    (device_key device_group_key device_password : option string)
    (urandom : list byte) : result AWSSRP.t :=
  let* user := str_operand (username self) in
  AWSSRP.init user password (user_pool_id self) (client_id self) None
    (Some (client self)) (client_secret self)
    device_key device_password device_group_key urandom.

Definition admin_authenticate (password : string) : method unit :=
  let! self := get_self in
  let! user := st_lift (str_operand (username self)) in
  let auth_params : gmap string string :=
    <["PASSWORD" := password]> (<["USERNAME" := user]> ∅) in
  let! auth_params := _add_secret_hash auth_params "SECRET_HASH" in
  let! tokens :=
    run_io (call (client self)
              (admin_initiate_auth (user_pool_id self) (client_id self)
                 "ADMIN_NO_SRP_AUTH" auth_params)) in
  let! result := st_lift (item "AuthenticationResult" (AuthenticationResult tokens)) in
  retrieve_login_tokens result.

(** [authenticate]; [urandom] is the draw made by the [AWSSRP] constructor. *)
Definition authenticate (password : string) (urandom : list byte) : method unit :=
  let! self := get_self in
  let! aws := st_lift (new_AWSSRP self password (device_key self)
                         (device_group_key self) (device_password self) urandom) in
  let! user_tokens := run_io (AWSSRP.authenticate_user aws) in
  let! result := st_lift (item "AuthenticationResult" (AuthenticationResult user_tokens)) in
  let! _ := retrieve_login_tokens result in
  save_device_information result.

Definition authenticate_with_mfa_token (password mfaToken : string)
    (urandom : list byte) : method unit :=
  let! self := get_self in
  let! aws := st_lift (new_AWSSRP self password (device_key self)
                         (device_group_key self) (device_password self) urandom) in
  let! user_tokens := run_io (AWSSRP.authenticate_user_with_mfa_token aws mfaToken) in
  let! result := st_lift (item "AuthenticationResult" (AuthenticationResult user_tokens)) in
  let! _ := retrieve_login_tokens result in
  save_device_information result.

Definition new_password_challenge (password new_password : string)
    (urandom : list byte) : method unit :=
  let! self := get_self in
  let! aws := st_lift (new_AWSSRP self password None None None urandom) in
  let! tokens := run_io (AWSSRP.set_new_password_challenge aws new_password) in
  let! result := st_lift (item "AuthenticationResult" (AuthenticationResult tokens)) in
  let! id := st_lift (item "IdToken" (IdToken result)) in
  let! _ := update (set_id_token (Some id)) in
  let! refresh := st_lift (item "RefreshToken" (RefreshToken result)) in
  let! _ := update (set_refresh_token (Some refresh)) in
  let! access := st_lift (item "AccessToken" (AccessToken result)) in
  let! _ := update (set_access_token (Some access)) in
  let! type := st_lift (item "TokenType" (TokenType result)) in
  let! _ := update (set_token_type (Some type)) in
  save_device_information result.

Definition can_register_device (self : t) : bool :=
  match device_group_key self, device_password self with
  | Some _, None => true
  | _, _ => false
  end.

(** [register_device]; [urandom40] and [urandom16] are the two draws made
    by [generate_hash_device]. *)
Definition register_device (device_name : string) (remember_device : bool)
    (urandom40 urandom16 : list byte) : method string :=
  let! self := get_self in
  if negb (can_register_device self) then
    st_raise (ValueError "Device cannot be registered. This is not enabled in Cognito")
  else
    let! generated :=
      st_lift (AWSSRP.generate_hash_device (device_group_key self) (device_key self)
                 urandom40 urandom16) in
    let device_password := fst generated in
    let device_secret_verifier_config := snd generated in
    let! _ := update (set_device_password (Some device_password)) in
    let! _ :=
      run_io (call (client self)
                (confirm_device (access_token self) (device_key self)
                   device_secret_verifier_config device_name)) in
    let! _ :=
      run_io (call (client self)
                (update_device_status (access_token self) (device_key self)
                   (if remember_device then "remembered" else "not_remembered"))) in
    st_ret device_password.

End methods.

End Cognito.

End warrant.

Import aws_srp warrant.

(** ** Predicates and reference definitions used by the statements *)

(** Strings made of hexadecimal digits, of either case or lowercase only. *)
Definition is_hex_char (c : ascii) : bool :=
  match hex_val c with Some _ => true | None => false end.

Fixpoint is_hex_string (s : string) : bool :=
  match s with
  | EmptyString => true
  | String c s' => is_hex_char c && is_hex_string s'
  end.

Fixpoint is_lower_hex (s : string) : bool :=
  match s with
  | EmptyString => true
  | String c s' => in_str c "0123456789abcdef" && is_lower_hex s'
  end.

(** A byte as a number below 256. *)
Definition byte_val (b : byte) : Z := Z.of_N (Byte.to_N b).

(** The first character is a digit of value eight or more. *)
Definition starts_high (s : string) : bool :=
  match s with
  | String c _ => in_str c "89ABCDEFabcdef"
  | EmptyString => false
  end.

(** The shared secret in the words of the specification: the difference is
    taken in signed integers and [N] is added when it is negative. *)
Definition spec_S (N g k a B U x : Z) : Z :=
  let t := B - k * (g ^ x mod N) in
  let base := if t <? 0 then t + N else t in
  (base ^ (a + U * x)) mod N.

(** The same with [N] added until the difference is non-negative. *)
Definition spec_S_reduced (N g k a B U x : Z) : Z :=
  let t := B - k * (g ^ x mod N) in
  ((t mod N) ^ (a + U * x)) mod N.

(** The substring after the first [sep], when there is one. *)
Fixpoint after_first (sep : ascii) (s : string) : option string :=
  match s with
  | EmptyString => None
  | String c s' => if Ascii.eqb c sep then Some s' else after_first sep s'
  end.

(** The part of [s] before its first [sep], or all of [s]. *)
Fixpoint up_to (sep : ascii) (s : string) : string :=
  match s with
  | EmptyString => EmptyString
  | String c s' => if Ascii.eqb c sep then EmptyString else String c (up_to sep s')
  end.

(** The group prime as a number. *)
Definition N : Z :=
  match hex_to_long n_hex with
  | Ok n => n
  | Raise _ => 0
  end.

(** The error [register_device] raises when enrolment is not allowed. *)
Definition disallowed : exn :=
  ValueError "Device cannot be registered. This is not enabled in Cognito".

(** ** A test double of the platform and of the service *)

Module Mock.

(** The digest is the number one, the MAC is the key followed by the
    message, base 64 is the identity: every input stays visible in the
    output. *)
Definition platform : Platform := {|
  sha256 := fun _ => (repeat x00 31 ++ [x01])%list;
  hmac_sha256 := fun key msg => (key ++ msg)%list;
  standard_b64encode := fun b => b;
  standard_b64decode := fun s => Ok (encode s);
  utcnow_strftime := fun _ => "Fri Jan 05 09:07:02 UTC 2024";
  boto3_client := fun _ _ _ => Raise (ClientError "no network")
|}.

Definition challenge_parameters : gmap string string :=
  <["USERNAME" := "u-123"]>
    (<["USER_ID_FOR_SRP" := "u-123"]>
       (<["SALT" := "ab"]>
          (<["SRP_B" := "5"]>
             (<["SECRET_BLOCK" := "block"]> ∅)))).

Definition no_result : boto_response := {|
  ChallengeName := None; ChallengeParameters := None;
  Session := None; AuthenticationResult := None
|}.

Definition challenge (name : string) (params : gmap string string) : boto_response := {|
  ChallengeName := Some name; ChallengeParameters := Some params;
  Session := Some "S1"; AuthenticationResult := None
|}.

Definition tokens (id access : string) : boto_response := {|
  ChallengeName := None; ChallengeParameters := None; Session := None;
  AuthenticationResult := Some {|
    IdToken := Some id; AccessToken := Some access;
    RefreshToken := Some "refresh"; TokenType := Some "Bearer";
    NewDeviceMetadata := None |}
|}.

(** A service that opens with [first], answers the password verifier with
    [second] and everything else with [final]. *)
Definition service (first second final : boto_response) : ICognitoClient :=
  fun log req =>
    match req with
    | initiate_auth _ _ _ => Ok first
    | respond_to_auth_challenge _ name _ _ =>
        if String.eqb name "PASSWORD_VERIFIER" then Ok second else Ok final
    | _ => Ok final
    end.

Definition srp (pool_id : string) (client_secret device_key : option string)
    (client : ICognitoClient) : AWSSRP.t := {|
  AWSSRP.username := "alice"; AWSSRP.password := "pw";
  AWSSRP.pool_id := pool_id; AWSSRP.client_id := "abc";
  AWSSRP.client_secret := client_secret; AWSSRP.device_key := device_key;
  AWSSRP.device_group_key := None; AWSSRP.device_password := None;
  AWSSRP.client := client;
  AWSSRP.big_n := N; AWSSRP.g := 2; AWSSRP.k := 1;
  AWSSRP.small_a_value := 3; AWSSRP.large_a_value := 8
|}.

(** A session that has a remembered device. *)
Definition device_srp (client_secret : option string) (client : ICognitoClient)
    : AWSSRP.t := {|
  AWSSRP.username := "alice"; AWSSRP.password := "pw";
  AWSSRP.pool_id := "us-east-1_abc"; AWSSRP.client_id := "abc";
  AWSSRP.client_secret := client_secret; AWSSRP.device_key := Some "dev-1";
  AWSSRP.device_group_key := Some "grp-1"; AWSSRP.device_password := Some "dpw";
  AWSSRP.client := client;
  AWSSRP.big_n := N; AWSSRP.g := 2; AWSSRP.k := 1;
  AWSSRP.small_a_value := 3; AWSSRP.large_a_value := 8
|}.

Definition silent : ICognitoClient := service no_result no_result no_result.

End Mock.

(** ** The calls of the exchange, by name *)

(** The opening [initiate_auth] call. *)
Definition first_request {platform : Platform} (self : AWSSRP.t) : request :=
  initiate_auth "USER_SRP_AUTH" (AWSSRP.get_auth_params self) (AWSSRP.client_id self).

(** The answer to the [PASSWORD_VERIFIER] challenge. *)
Definition verifier_request (self : AWSSRP.t) (challenge_response : gmap string string)
    : request :=
  respond_to_auth_challenge (AWSSRP.client_id self) "PASSWORD_VERIFIER" None
    challenge_response.

(** The answer to the [SOFTWARE_TOKEN_MFA] challenge. *)
Definition mfa_request (self : AWSSRP.t) (session user code : string) : request :=
  respond_to_auth_challenge (AWSSRP.client_id self) "SOFTWARE_TOKEN_MFA" (Some session)
    (<["SOFTWARE_TOKEN_MFA_CODE" := code]> (<["USERNAME" := user]> ∅)).

Module Scenario.

(** The services of the dispatch scenarios: the first challenge is
    [PASSWORD_VERIFIER] and the verifier step answers [second]. *)
Definition after_verifier (second : boto_response) : AWSSRP.t :=
  Mock.srp "us-east-1_abc" None None
    (Mock.service (Mock.challenge "PASSWORD_VERIFIER" Mock.challenge_parameters)
       second (Mock.tokens "id" "access")).

Definition custom_first : AWSSRP.t :=
  Mock.srp "us-east-1_abc" None None
    (Mock.service (Mock.challenge "CUSTOM_CHALLENGE" ∅) Mock.no_result Mock.no_result).

(** A session with a client secret. *)
Definition with_secret : AWSSRP.t :=
  Mock.srp "us-east-1_abc" (Some "s3cret") None Mock.silent.

End Scenario.

Module MockTokens.

(** A token library that rejects every signature: the header names key
    [k1], the [token_use] claim is the token text itself. *)
Definition rejecting : TokenPlatform := {|
  get_unverified_header := fun _ => Ok (<["kid" := "k1"]> ∅);
  get_unverified_claims := fun token => Ok (<["token_use" := token]> ∅);
  jwt_decode := fun _ _ _ _ => Raise JWTError;
  env_COGNITO_JWKS := <["keys" := [(<["kid" := "k1"]> ∅ : gmap string string)]%list]> ∅;
  requests_get_json := fun _ => Raise (ClientError "no network")
|}.

(** The same library with signatures that verify. *)
Definition accepting : TokenPlatform := {|
  get_unverified_header := fun _ => Ok (<["kid" := "k1"]> ∅);
  get_unverified_claims := fun token => Ok (<["token_use" := token]> ∅);
  jwt_decode := fun token _ _ _ => Ok (<["token_use" := token]> ∅);
  env_COGNITO_JWKS := <["keys" := [(<["kid" := "k1"]> ∅ : gmap string string)]%list]> ∅;
  requests_get_json := fun _ => Raise (ClientError "no network")
|}.

(** A fresh session for user [alice]. *)
Definition session (device_group_key device_password : option string)
    (client : ICognitoClient) : Cognito.t := {|
  Cognito.user_pool_id := "us-east-1_abc"; Cognito.client_id := "abc";
  Cognito.user_pool_region := "us-east-1"; Cognito.username := Some "alice";
  Cognito.id_token := None; Cognito.access_token := None;
  Cognito.refresh_token := None; Cognito.client_secret := None;
  Cognito.token_type := None; Cognito.pool_jwk := None;
  Cognito.device_key := Some "dev-1"; Cognito.device_group_key := device_group_key;
  Cognito.device_password := device_password; Cognito.client := client;
  Cognito.other_attrs := ∅
|}.

(** The service of the forced password change: verifier, then
    [NEW_PASSWORD_REQUIRED], then tokens whose [token_use] is wrong. *)
Definition forced_change : ICognitoClient :=
  Mock.service (Mock.challenge "PASSWORD_VERIFIER" Mock.challenge_parameters)
    (Mock.challenge "NEW_PASSWORD_REQUIRED" ∅) (Mock.tokens "forged" "forged").

(** The service that returns the same tokens to a plain sign-in. *)
Definition plain_sign_in : ICognitoClient :=
  Mock.service (Mock.challenge "PASSWORD_VERIFIER" Mock.challenge_parameters)
    (Mock.tokens "forged" "forged") Mock.no_result.

End MockTokens.

(** ** Reference definitions for the further properties *)

(** The number a byte string denotes, most significant byte first. *)
Definition be_value (data : list byte) : Z :=
  fold_left (fun acc b => 256 * acc + byte_val b) data 0.

(** The first of [keys] that the dictionary does not have. *)
Fixpoint first_missing (keys : list string) (d : gmap string string) : option string :=
  match keys with
  | [] => None
  | key :: keys' =>
      match d !! key with
      | Some _ => first_missing keys' d
      | None => Some key
      end
  end.

(** The two calls of the device exchange and the answer to the
    [NEW_PASSWORD_REQUIRED] challenge. *)
Definition device_srp_request {platform : Platform} (self : AWSSRP.t) : request :=
  respond_to_auth_challenge (AWSSRP.client_id self) "DEVICE_SRP_AUTH" None
    (AWSSRP.get_auth_params self).

Definition device_verifier_request (self : AWSSRP.t)
    (challenge_response : gmap string string) : request :=
  respond_to_auth_challenge (AWSSRP.client_id self) "DEVICE_PASSWORD_VERIFIER" None
    challenge_response.

Definition new_password_request (self : AWSSRP.t) (session new_password : string)
    : request :=
  respond_to_auth_challenge (AWSSRP.client_id self) "NEW_PASSWORD_REQUIRED" (Some session)
    (<["NEW_PASSWORD" := new_password]> (<["USERNAME" := AWSSRP.username self]> ∅)).

(** The challenges [authenticate_user] acts on after the verifier step. *)
Definition handled_after_verifier (challenge : string) : bool :=
  existsb (String.eqb challenge)
    ["DEVICE_SRP_AUTH"; "NEW_PASSWORD_REQUIRED"; "SOFTWARE_TOKEN_MFA"].

Module Services.

(** A session with a remembered device, on a service that asks for the
    device exchange after the password verifier. *)
Definition device_service : ICognitoClient :=
  Mock.service (Mock.challenge "PASSWORD_VERIFIER" Mock.challenge_parameters)
    (Mock.challenge "DEVICE_SRP_AUTH" ∅)
    (Mock.challenge "DEVICE_PASSWORD_VERIFIER" Mock.challenge_parameters).

Definition with_device : AWSSRP.t := Mock.device_srp None device_service.

(** A service that fails on every call. *)
Definition failing : ICognitoClient := fun _ _ => Raise (ClientError "throttled").

(** A service that answers the password verifier with the given tokens,
    and one that answers it with an [SMS_MFA] challenge. *)
Definition sign_in (id access : string) : ICognitoClient :=
  Mock.service (Mock.challenge "PASSWORD_VERIFIER" Mock.challenge_parameters)
    (Mock.tokens id access) Mock.no_result.

Definition sms_mfa : ICognitoClient :=
  Mock.service (Mock.challenge "PASSWORD_VERIFIER" Mock.challenge_parameters)
    (Mock.challenge "SMS_MFA" ∅) Mock.no_result.

(** A fresh session on the given service, with no call made yet. *)
Definition fresh (client : ICognitoClient) : Cognito.t * list request :=
  (MockTokens.session None None client, []%list).

End Services.

(** ** warrant/__init__.py: the attribute converters *)

Module converters.

(** A Python [dict] with its insertion order: a list of items with
    distinct keys.  Assigning to a key that is present keeps its place;
    a new key goes to the end. *)
Definition pydict (K V : Type) : Type := list (K * V).

Section pydict.
Context {K V : Type} `{EqDecision K}.

(** [d.get(k)] *)
Fixpoint get (k : K) (d : pydict K V) : option V :=
  match d with
  | [] => None
  | (k', v) :: d' => if decide (k = k') then Some v else get k d'
  end.

(** [d[k] = v] *)
Fixpoint set (k : K) (v : V) (d : pydict K V) : pydict K V :=
  match d with
  | [] => [(k, v)]
  | (k', v') :: d' => if decide (k = k') then (k', v) :: d' else (k', v') :: set k v d'
  end.

(** [del d[k]], the dictionary left by [d.pop(k)] *)
Fixpoint remove (k : K) (d : pydict K V) : pydict K V :=
  match d with
  | [] => []
  | (k', v') :: d' => if decide (k = k') then d' else (k', v') :: remove k d'
  end.

End pydict.

(** The values met in attribute dictionaries: [None], a [bool] or a
    [str]. *)
Inductive value : Type :=
| VNone
| VBool (b : bool)
| VStr (s : string).

(** An item of an attribute list, read with [a.get('Name')] and
    [a.get('Value')]: a missing entry reads as [None]. *)
Record attribute : Type := {
  Name : option string;
  Value : value
}.

(** [ast.literal_eval(value.capitalize())] where [value in ['true',
    'false']], the value itself otherwise. *)
Definition literal (v : value) : value :=
  match v with
  | VStr s =>
      if String.eqb s "true" then VBool true
      else if String.eqb s "false" then VBool false
      else v
  | _ => v
  end.

(** [attr_map.get(name, name)] for a map with [str] keys. *)
Definition mapped (attr_map : pydict string string) (name : option string)
    : option string :=
  match name with
  | Some n =>
      match get n attr_map with
      | Some display => Some display
      | None => name
      end
  | None => None
  end.

Definition cognito_to_dict (attr_list : list attribute)
    (attr_map : option (pydict string string)) : pydict (option string) value :=
  let attr_map := match attr_map with Some m => m | None => [] end in
  fold_left
    (fun attr_dict a =>
       let name := Name a in
       let value := literal (Value a) in
       let name := mapped attr_map name in
       set name value attr_dict)
    attr_list [].

(** [dict_to_cognito] changes the dictionary it is given; the model
    returns the list and the dictionary as the call leaves it. *)
Definition dict_to_cognito (attributes : pydict (option string) value)
    (attr_map : option (pydict string string))
    : list attribute * pydict (option string) value :=
  let attr_map := match attr_map with Some m => m | None => [] end in
  let attributes :=
    fold_left
      (fun attributes (kv : string * string) =>
         let (k, v) := kv in
         match get (Some v) attributes with
         | Some popped => set (Some k) popped (remove (Some v) attributes)
         | None => attributes
         end)
      attr_map attributes in
  (List.map (fun item : option string * value =>
               {| Name := fst item; Value := snd item |}) attributes,
   attributes).

(** The keys of a dictionary, in order. *)
Definition keys {K V} (d : pydict K V) : list K := List.map fst d.

(** The list comprehension [dict_to_cognito] returns, for a dictionary. *)
Definition as_attributes (d : pydict (option string) value) : list attribute :=
  List.map (fun item : option string * value =>
              {| Name := fst item; Value := snd item |}) d.

(** The loop of [cognito_to_dict], from any dictionary built so far. *)
Definition to_dict_loop (attr_map : pydict string string) (attr_list : list attribute)
    (attr_dict : pydict (option string) value) : pydict (option string) value :=
  fold_left
    (fun attr_dict a => set (mapped attr_map (Name a)) (literal (Value a)) attr_dict)
    attr_list attr_dict.

(** One turn of the loop of [dict_to_cognito]. *)
Definition rename_step (attributes : pydict (option string) value)
    (kv : string * string) : pydict (option string) value :=
  let (k, v) := kv in
  match get (Some v) attributes with
  | Some popped => set (Some k) popped (remove (Some v) attributes)
  | None => attributes
  end.

(** What a dictionary holds under a name once the display names of the
    map have been renamed: a name of the map holds what its display name
    held, a display name holds nothing, any other name is untouched. *)
Definition after_renaming (attr_map : pydict string string)
    (attributes : pydict (option string) value) (name : option string) : option value :=
  match name with
  | Some n =>
      match get n attr_map with
      | Some display => get (Some display) attributes
      | None =>
          if bool_decide (n ∈ List.map snd attr_map) then None
          else get (Some n) attributes
      end
  | None => get None attributes
  end.

(** A map that can be undone on a dictionary: its names are distinct and
    new to the dictionary, its display names are distinct, and no name is
    also a display name. *)
Definition undoable (attr_map : pydict string string)
    (attributes : pydict (option string) value) : Prop :=
  NoDup (keys attr_map) /\ NoDup (List.map snd attr_map) /\
  (forall k, k ∈ keys attr_map -> Some k ∉ keys attributes) /\
  (forall k, k ∈ keys attr_map -> k ∉ List.map snd attr_map).

End converters.

(** ** The time stamp of a challenge response *)

(** A field of the time stamp: no blank inside. *)
Definition no_space (s : string) : bool :=
  forallb (fun c => negb (Ascii.eqb c " ")) (list_ascii_of_string s).

Definition leading_zero (s : string) : bool :=
  match s with
  | String c _ => Ascii.eqb c "0"
  | EmptyString => false
  end.

(** The text [strftime("%a %b %d %H:%M:%S UTC %Y")] gives for a weekday
    name, a month name, the two digits of the day, the time and the
    year. *)
Definition strftime_text (weekday month : string) (d1 d2 : ascii) (time year : string)
    : string :=
  weekday ++ " " ++ month ++ " " ++ String d1 (String d2 (" " ++ time ++ " UTC " ++ year)).

(** ** Hexadecimal strings *)
Lemma hex_digit_cases d : 0 <= d < 16 ->
  d = 0 \/ d = 1 \/ d = 2 \/ d = 3 \/ d = 4 \/ d = 5 \/ d = 6 \/ d = 7 \/
  d = 8 \/ d = 9 \/ d = 10 \/ d = 11 \/ d = 12 \/ d = 13 \/ d = 14 \/ d = 15.
Proof. lia. Qed.

Ltac each_digit d H :=
  let C := fresh in
  pose proof (hex_digit_cases d H) as C;
  repeat (destruct C as [C | C]; [subst d | ]); [.. | subst d].

Lemma hex_val_hex_digit d : 0 <= d < 16 -> hex_val (hex_digit d) = Some d.
Proof. intros H. each_digit d H; reflexivity. Qed.

Lemma hex_digit_lower d : 0 <= d < 16 -> in_str (hex_digit d) "0123456789abcdef" = true.
Proof. intros H. each_digit d H; reflexivity. Qed.

Lemma hex_val_range c v : hex_val c = Some v -> 0 <= v < 16.
Proof.
  destruct c as [[] [] [] [] [] [] [] []]; cbn; intros [= <-]; lia.
Qed.

Lemma hex_val_not_space c v : hex_val c = Some v -> is_space c = false.
Proof.
  destruct c as [[] [] [] [] [] [] [] []]; cbn; intros [= <-]; reflexivity.
Qed.

Lemma hex_val_high c v :
  hex_val c = Some v -> in_str c "89ABCDEFabcdef" = false -> v < 8.
Proof.
  destruct c as [[] [] [] [] [] [] [] []]; cbn; intros [= <-]; intros; try lia; discriminate.
Qed.

Lemma append_cons c (s1 s2 : string) : String c s1 ++ s2 = String c (s1 ++ s2).
Proof. reflexivity. Qed.

Lemma append_nil (s : string) : EmptyString ++ s = s.
Proof. reflexivity. Qed.

Lemma append_assoc (s1 s2 s3 : string) : (s1 ++ s2) ++ s3 = s1 ++ s2 ++ s3.
Proof.
  induction s1 as [|c s1 IH]; [reflexivity|].
  rewrite !append_cons, IH. reflexivity.
Qed.

Lemma length_append (s1 s2 : string) :
  String.length (s1 ++ s2) = (String.length s1 + String.length s2)%nat.
Proof.
  induction s1 as [|c s1 IH]; [reflexivity|].
  rewrite append_cons. cbn [String.length]. rewrite IH. reflexivity.
Qed.

Lemma to_hex_fuel_value fuel : forall n acc,
  0 <= n < 16 ^ Z.of_nat fuel ->
  hex_to_long_acc (to_hex_fuel fuel n acc) 0 = hex_to_long_acc acc n.
Proof.
  induction fuel as [|fuel IH]; intros n acc Hn.
  - cbn in *. replace n with 0 by lia. reflexivity.
  - cbn [to_hex_fuel].
    assert (Hd : 0 <= n mod 16 < 16) by (apply Z.mod_pos_bound; lia).
    assert (Hq : n = 16 * (n / 16) + n mod 16) by (apply Z.div_mod; lia).
    destruct (Z.eqb_spec (n / 16) 0) as [E|E].
    + cbn [hex_to_long_acc]. rewrite hex_val_hex_digit by exact Hd.
      f_equal. lia.
    + rewrite IH.
      * cbn [hex_to_long_acc]. rewrite hex_val_hex_digit by exact Hd.
        f_equal. lia.
      * rewrite Nat2Z.inj_succ, Z.pow_succ_r in Hn by lia.
        split; [apply Z.div_pos; lia | apply Z.div_lt_upper_bound; lia].
Qed.

Lemma to_hex_fuel_lower fuel : forall n acc,
  is_lower_hex acc = true -> is_lower_hex (to_hex_fuel fuel n acc) = true.
Proof.
  induction fuel as [|fuel IH]; intros n acc Hacc; cbn [to_hex_fuel]; [exact Hacc|].
  assert (Hd : 0 <= n mod 16 < 16) by (apply Z.mod_pos_bound; lia).
  assert (is_lower_hex (String (hex_digit (n mod 16)) acc) = true) as H.
  { cbn [is_lower_hex]. rewrite hex_digit_lower by exact Hd. exact Hacc. }
  destruct (n / 16 =? 0); [exact H | apply IH, H].
Qed.

Lemma to_hex_fuel_head fuel : forall n acc,
  (0 < fuel)%nat -> 0 <= n ->
  exists d rest,
    to_hex_fuel fuel n acc = String (hex_digit d) rest /\ 0 <= d < 16 /\
    (0 < n < 16 ^ Z.of_nat fuel -> d <> 0).
Proof.
  induction fuel as [|fuel IH]; intros n acc Hf Hn; [lia|].
  cbn [to_hex_fuel].
  assert (Hd : 0 <= n mod 16 < 16) by (apply Z.mod_pos_bound; lia).
  assert (Hq : n = 16 * (n / 16) + n mod 16) by (apply Z.div_mod; lia).
  destruct (Z.eqb_spec (n / 16) 0) as [E|E].
  - exists (n mod 16), acc. repeat split; try lia.
  - assert (0 < n / 16) by (pose proof (Z.div_pos n 16); lia).
    destruct fuel as [|fuel'].
    + exists (n mod 16), acc. cbn [to_hex_fuel]. repeat split; try lia.
    + destruct (IH (n / 16) (String (hex_digit (n mod 16)) acc)) as (d & rest & E1 & E2 & E3);
        [lia | lia |].
      exists d, rest. repeat split; try tauto; try lia.
      intros Hb. apply E3. split; [lia|].
      rewrite (Nat2Z.inj_succ (S fuel')), Z.pow_succ_r in Hb by lia.
      apply Z.div_lt_upper_bound; lia.
Qed.

Lemma hex_fuel_enough n : 0 <= n -> 0 <= n < 16 ^ Z.of_nat (S (Z.to_nat (Z.log2 n))).
Proof.
  intros Hn. split; [exact Hn|].
  rewrite Nat2Z.inj_succ, Z2Nat.id by apply Z.log2_nonneg.
  destruct (Z.eq_dec n 0) as [->|Hne].
  - cbn. lia.
  - assert (n < 2 ^ Z.succ (Z.log2 n)) by (apply Z.log2_spec; lia).
    assert (2 ^ Z.succ (Z.log2 n) <= 16 ^ Z.succ (Z.log2 n)).
    { apply Z.pow_le_mono_l. lia. }
    lia.
Qed.

Lemma hex_of_nonneg_value n : 0 <= n -> hex_to_long (hex_of_nonneg n) = Ok n.
Proof.
  intros Hn. unfold hex_to_long, hex_of_nonneg.
  destruct (to_hex_fuel_head (S (Z.to_nat (Z.log2 n))) n EmptyString) as (d & rest & E & _);
    [lia | exact Hn |].
  rewrite to_hex_fuel_value by (apply hex_fuel_enough, Hn).
  rewrite E. reflexivity.
Qed.

Lemma long_to_hex_nonneg n : 0 <= n -> long_to_hex n = hex_of_nonneg n.
Proof. intros Hn. unfold long_to_hex. destruct (Z.ltb_spec n 0); [lia | reflexivity]. Qed.

Lemma is_lower_hex_is_hex s : is_lower_hex s = true -> is_hex_string s = true.
Proof.
  induction s as [|c s IH]; cbn; [reflexivity|].
  intros [Hc Hs]%andb_prop. rewrite (IH Hs), andb_true_r.
  revert Hc. unfold is_hex_char.
  destruct c as [[] [] [] [] [] [] [] []]; cbn; intros; try reflexivity; discriminate.
Qed.

Lemma is_hex_string_app s1 s2 :
  is_hex_string (s1 ++ s2) = is_hex_string s1 && is_hex_string s2.
Proof.
  induction s1 as [|c s1 IH]; [reflexivity|].
  rewrite append_cons. cbn [is_hex_string]. rewrite IH. apply andb_assoc.
Qed.

(** Pairs of digits decode, two characters to a byte. *)
Lemma fromhex_opt_pairs n : forall s,
  String.length s = (2 * n)%nat -> is_hex_string s = true ->
  exists bs, fromhex_opt s = Some bs /\ List.length bs = n.
Proof.
  induction n as [|n IH]; intros s Hl Hs.
  - destruct s; [exists []; split; reflexivity | discriminate].
  - destruct s as [|c [|d s]]; try (cbn in Hl; lia).
    cbn in Hs. apply andb_prop in Hs as [Hc Hs]. apply andb_prop in Hs as [Hd Hs].
    unfold is_hex_char in Hc, Hd.
    destruct (hex_val c) as [hi|] eqn:Ec; [|discriminate].
    destruct (hex_val d) as [lo|] eqn:Ed; [|discriminate].
    destruct (IH s) as (bs & Ebs & Lbs); [cbn in Hl; lia | exact Hs |].
    exists (byte_of_nibbles hi lo :: bs).
    cbn [fromhex_opt]. rewrite (hex_val_not_space _ _ Ec), Ec, Ed, Ebs.
    split; [reflexivity | cbn; lia].
Qed.

Lemma byte_of_nibbles_val hi lo :
  0 <= hi < 16 -> 0 <= lo < 16 -> byte_val (byte_of_nibbles hi lo) = 16 * hi + lo.
Proof.
  intros Hh Hl. each_digit hi Hh; each_digit lo Hl; reflexivity.
Qed.

(** ** [pad_hex] *)

Lemma len_cons c s : len (String c s) = len s + 1.
Proof. unfold len. cbn [String.length]. lia. Qed.

Lemma len_even_half s : Z.even (len s) = true -> exists n, String.length s = (2 * n)%nat.
Proof.
  intros H. apply Z.even_spec in H as [m Hm]. exists (Z.to_nat m). unfold len in Hm. lia.
Qed.

Lemma fromhex_opt_head c d s hi :
  hex_val c = Some hi -> is_hex_string (String c (String d s)) = true ->
  Z.even (len (String c (String d s))) = true ->
  exists lo bs, hex_val d = Some lo /\
    fromhex_opt (String c (String d s)) = Some (byte_of_nibbles hi lo :: bs).
Proof.
  intros Ec Hs He.
  cbn [is_hex_string] in Hs. apply andb_prop in Hs as [_ Hs]. apply andb_prop in Hs as [Hd Hs].
  unfold is_hex_char in Hd. destruct (hex_val d) as [lo|] eqn:Ed; [|discriminate].
  destruct (len_even_half s) as [n Hn].
  { rewrite !len_cons in He. replace (len s + 1 + 1) with (Z.succ (Z.succ (len s))) in He by lia.
    now rewrite Z.even_succ_succ in He. }
  destruct (fromhex_opt_pairs n s Hn Hs) as (bs & Ebs & _).
  exists lo, bs. split; [reflexivity|].
  cbn [fromhex_opt]. rewrite (hex_val_not_space _ _ Ec), Ec, Ed, Ebs. reflexivity.
Qed.

Lemma byte_val_low_bit7 hi lo :
  0 <= hi < 8 -> 0 <= lo < 16 -> Z.testbit (byte_val (byte_of_nibbles hi lo)) 7 = false.
Proof.
  intros Hh Hl. rewrite byte_of_nibbles_val by lia.
  destruct (Z.eq_dec (16 * hi + lo) 0) as [->|Hne]; [reflexivity|].
  apply Z.bits_above_log2; [lia|].
  apply Z.log2_lt_pow2; [lia|]. change (2 ^ 7) with 128. lia.
Qed.

Lemma pad_hex_rule (s : string) :
  pad_hex (PyStr s) =
  if Z.odd (len s) then Ok ("0" ++ s)
  else match s with
       | EmptyString => Raise IndexError
       | String _ _ => Ok (if starts_high s then "00" ++ s else s)
       end.
Proof.
  unfold pad_hex. rewrite <- Zodd_mod.
  destruct (Z.odd (len s)); [reflexivity|].
  destruct s as [|c s]; [reflexivity|]. cbn [starts_high].
  destruct (in_str c _); reflexivity.
Qed.

(** A well-formed hex string of even length whose first digit is below
    eight decodes to bytes whose first has its high bit clear. *)
Lemma fromhex_sign_clear c s hi :
  hex_val c = Some hi -> hi < 8 -> is_hex_string (String c s) = true ->
  Z.even (len (String c s)) = true ->
  exists b rest, fromhex (String c s) = Ok (b :: rest) /\ Z.testbit (byte_val b) 7 = false.
Proof.
  intros Ec Hhi Hs He.
  destruct s as [|d s]; [discriminate He|].
  destruct (fromhex_opt_head c d s hi Ec Hs He) as (lo & bs & Ed & E).
  exists (byte_of_nibbles hi lo), bs. unfold fromhex. rewrite E. split; [reflexivity|].
  apply byte_val_low_bit7; [pose proof (hex_val_range _ _ Ec); lia | eapply hex_val_range, Ed].
Qed.

Lemma pad_hex_even_sign_clear (h : string) :
  h <> EmptyString -> is_hex_string h = true ->
  exists s b rest,
    pad_hex (PyStr h) = Ok s /\ Z.even (len s) = true /\
    fromhex s = Ok (b :: rest) /\ Z.testbit (byte_val b) 7 = false.
Proof.
  intros Hne Hh. rewrite pad_hex_rule.
  destruct (Z.odd (len h)) eqn:Eodd.
  - assert (He : Z.even (len (String "0" h)) = true).
    { rewrite len_cons, Z.add_1_r, Z.even_succ. exact Eodd. }
    destruct (fromhex_sign_clear "0" h 0) as (b & rest & E1 & E2);
      [reflexivity | lia | cbn [is_hex_string]; now rewrite Hh | exact He |].
    exists (String "0" h), b, rest. repeat split; assumption.
  - assert (He : Z.even (len h) = true) by (rewrite <- Z.negb_odd, Eodd; reflexivity).
    destruct h as [|c h']; [contradiction|].
    cbn [starts_high]. destruct (in_str c "89ABCDEFabcdef") eqn:Ehigh.
    + assert (He' : Z.even (len (String "0" (String "0" (String c h')))) = true).
      { rewrite (len_cons "0"), (len_cons "0").
        replace (len (String c h') + 1 + 1) with (Z.succ (Z.succ (len (String c h')))) by lia.
        now rewrite Z.even_succ_succ. }
      destruct (fromhex_sign_clear "0" (String "0" (String c h')) 0) as (b & rest & E1 & E2);
        [reflexivity | lia | cbn [is_hex_string] in *; now rewrite Hh | exact He' |].
      exists (String "0" (String "0" (String c h'))), b, rest. repeat split; assumption.
    + pose proof Hh as Hc. cbn [is_hex_string] in Hc. apply andb_prop in Hc as [Hc _].
      unfold is_hex_char in Hc. destruct (hex_val c) as [hi|] eqn:Ec; [|discriminate].
      destruct (fromhex_sign_clear c h' hi) as (b & rest & E1 & E2);
        [exact Ec | eapply hex_val_high; eassumption | exact Hh | exact He |].
      exists (String c h'), b, rest. repeat split; assumption.
Qed.

Lemma long_to_hex_head x :
  0 <= x ->
  exists d rest, long_to_hex x = String (hex_digit d) rest /\ 0 <= d < 16 /\
                 (x <> 0 -> d <> 0).
Proof.
  intros Hx. rewrite long_to_hex_nonneg by exact Hx.
  destruct (to_hex_fuel_head (S (Z.to_nat (Z.log2 x))) x EmptyString)
    as (d & rest & E & Hd & Hnz); [lia | exact Hx |].
  exists d, rest. split; [exact E|]. split; [exact Hd|].
  intros Hne. apply Hnz. pose proof (hex_fuel_enough x Hx). lia.
Qed.

Lemma long_to_hex_lower x : 0 <= x -> is_lower_hex (long_to_hex x) = true.
Proof.
  intros Hx. rewrite long_to_hex_nonneg by exact Hx.
  apply to_hex_fuel_lower. reflexivity.
Qed.

Lemma long_to_hex_value x : 0 <= x -> hex_to_long (long_to_hex x) = Ok x.
Proof.
  intros Hx. rewrite long_to_hex_nonneg by exact Hx. apply hex_of_nonneg_value, Hx.
Qed.

Lemma pad_hex_int_rule x :
  0 <= x ->
  let h := long_to_hex x in
  pad_hex (PyInt x) =
    Ok (if Z.odd (len h) then "0" ++ h else if starts_high h then "00" ++ h else h).
Proof.
  intros Hx h. destruct (long_to_hex_head x Hx) as (d & rest & E & _).
  change (pad_hex (PyInt x)) with (pad_hex (PyStr h)).
  rewrite pad_hex_rule. fold h in E. rewrite E. destruct (Z.odd _); reflexivity.
Qed.

Lemma pad_hex_int_sign_clear x :
  0 <= x ->
  exists s b rest,
    pad_hex (PyInt x) = Ok s /\ Z.even (len s) = true /\
    fromhex s = Ok (b :: rest) /\ Z.testbit (byte_val b) 7 = false.
Proof.
  intros Hx. destruct (long_to_hex_head x Hx) as (d & rest & E & _).
  change (pad_hex (PyInt x)) with (pad_hex (PyStr (long_to_hex x))).
  apply pad_hex_even_sign_clear.
  - rewrite E. discriminate.
  - apply is_lower_hex_is_hex, long_to_hex_lower, Hx.
Qed.

(** C1: for every non-negative [x], [pad_hex x] takes the lowercase hex
    digits of [x] without a leading zero, puts one ['0'] in front when
    their number is odd, and otherwise ["00"] when the first digit is one
    of [89ABCDEFabcdef]; so [pad_hex 0x8A = "008a"], [pad_hex 0x7F = "7f"],
    [pad_hex 0xA = "0a"], and the result always has even length and
    decodes to bytes whose first has its high bit clear. *)
Theorem pad_hex_sign_safe (x : Z) (Hx : 0 <= x) :
  let h := long_to_hex x in
  (is_lower_hex h = true /\ hex_to_long h = Ok x /\
   (x <> 0 -> exists c rest, h = String c rest /\ c <> "0"%char)) /\
  pad_hex (PyInt x) =
    Ok (if Z.odd (len h) then "0" ++ h else if starts_high h then "00" ++ h else h) /\
  (pad_hex (PyInt 0x8A) = Ok "008a" /\ pad_hex (PyInt 0x7F) = Ok "7f" /\
   pad_hex (PyInt 0xA) = Ok "0a") /\
  exists s b rest,
    pad_hex (PyInt x) = Ok s /\ Z.even (len s) = true /\
    fromhex s = Ok (b :: rest) /\ Z.testbit (byte_val b) 7 = false.
Proof.
  intros h. split; [|split; [|split]].
  - split; [apply long_to_hex_lower, Hx|]. split; [apply long_to_hex_value, Hx|].
    intros Hne. destruct (long_to_hex_head x Hx) as (d & rest & E & Hd & Hnz).
    exists (hex_digit d), rest. split; [exact E|].
    specialize (Hnz Hne). each_digit d Hd; try discriminate; congruence.
  - apply pad_hex_int_rule, Hx.
  - repeat split; reflexivity.
  - apply pad_hex_int_sign_clear, Hx.
Qed.

Lemma pad_hex_sign_safe_witness :
  pad_hex (PyInt 0x8A) = Ok "008a" /\
  exists s b rest,
    pad_hex (PyInt 0x8A) = Ok s /\ Z.even (len s) = true /\
    fromhex s = Ok (b :: rest) /\ Z.testbit (byte_val b) 7 = false.
Proof.
  destruct (pad_hex_sign_safe 0x8A ltac:(lia)) as (_ & _ & (E & _) & H).
  split; [exact E | exact H].
Defined.

(** ** The three-argument [pow] *)

Lemma powmod_pos_spec b m : forall e, powmod_pos b e m = (b ^ Zpos e) mod m.
Proof.
  induction e as [e IH | e IH |]; cbn [powmod_pos].
  - rewrite IH, Pos2Z.inj_xI.
    rewrite Z.pow_add_r, Z.pow_twice_r, Z.pow_1_r by lia.
    rewrite <- (Zmult_mod_idemp_l (b ^ Zpos e * b ^ Zpos e) b m).
    rewrite (Zmult_mod (b ^ Zpos e) (b ^ Zpos e) m). reflexivity.
  - rewrite IH, Pos2Z.inj_xO, Z.pow_twice_r.
    rewrite (Zmult_mod (b ^ Zpos e) (b ^ Zpos e) m). reflexivity.
  - rewrite Z.pow_1_r. reflexivity.
Qed.

Lemma pow_spec b e m : 0 <= e -> Py.pow b e m = (b ^ e) mod m.
Proof.
  intros He. destruct e as [|p|p]; [reflexivity | apply powmod_pos_spec | lia].
Qed.

Lemma pow_range b e m : 0 <= e -> 0 < m -> 0 <= Py.pow b e m < m.
Proof. intros He Hm. rewrite pow_spec by exact He. apply Z.mod_pos_bound, Hm. Qed.

Lemma pow_shift_base t e n : 0 < n -> ((t + n) ^ e) mod n = (t ^ e) mod n.
Proof.
  intros Hn. rewrite (Zpower_mod (t + n)), (Zpower_mod t) by exact Hn.
  replace ((t + n) mod n) with (t mod n); [reflexivity|].
  rewrite <- (Z_mod_plus_full t 1 n). f_equal. lia.
Qed.

(** ** The shared secret *)

Lemma hex_to_long_acc_nonneg s : forall acc n,
  0 <= acc -> hex_to_long_acc s acc = Some n -> 0 <= n.
Proof.
  induction s as [|c s IH]; intros acc n Hacc; cbn [hex_to_long_acc].
  - intros [= <-]. exact Hacc.
  - destruct (hex_val c) as [v|] eqn:Ev; [|discriminate].
    apply IH. pose proof (hex_val_range _ _ Ev). lia.
Qed.

Lemma hex_to_long_nonneg s n : hex_to_long s = Ok n -> 0 <= n.
Proof.
  unfold hex_to_long. destruct s as [|c s]; [discriminate|].
  destruct (hex_to_long_acc _ 0) as [m|] eqn:E; [|discriminate].
  intros [= <-]. eapply hex_to_long_acc_nonneg; [|exact E]. lia.
Qed.

Section shared_secret.
Context {platform : Platform}.

Lemma calculate_u_nonneg big_a big_b u : calculate_u big_a big_b = Ok u -> 0 <= u.
Proof.
  unfold calculate_u.
  destruct (pad_hex (PyInt big_a)); [|discriminate].
  destruct (pad_hex (PyInt big_b)); [|discriminate].
  cbn [Py.bind]. destruct (hex_hash _); [|discriminate].
  apply hex_to_long_nonneg.
Qed.

Lemma x_value_of_nonneg salt up x : AWSSRP.x_value_of salt up = Ok x -> 0 <= x.
Proof.
  unfold AWSSRP.x_value_of.
  destruct (pad_hex (PyStr salt)); [|discriminate].
  cbn [Py.bind]. destruct (hex_hash _); [|discriminate].
  apply hex_to_long_nonneg.
Qed.

Lemma s_value_spec (self : AWSSRP.t) (B U x : Z) :
  0 < AWSSRP.big_n self -> 0 <= x -> 0 <= AWSSRP.small_a_value self -> 0 <= U ->
  AWSSRP.s_value self B U x =
  spec_S (AWSSRP.big_n self) (AWSSRP.g self) (AWSSRP.k self)
         (AWSSRP.small_a_value self) B U x.
Proof.
  intros HN Hx Ha HU. unfold AWSSRP.s_value, spec_S.
  rewrite !pow_spec by nia.
  set (t := B - AWSSRP.k self * (AWSSRP.g self ^ x mod AWSSRP.big_n self)).
  destruct (t <? 0); [|reflexivity].
  rewrite pow_shift_base by exact HN. reflexivity.
Qed.

(** C2: the secret both key derivations feed to HKDF is the [S] of the
    specification.  For every server value [B] and all non-negative [x],
    [a] and [U], the three-argument [pow] applied to the signed, possibly
    negative difference [B - k * g^x] gives the value obtained by first
    adding [N] to a negative difference (once, or until it is
    non-negative); [get_password_authentication_key] and
    [get_device_authentication_key] hand exactly that value to [hkdf_of]. *)
Theorem shared_secret_matches_spec (self : AWSSRP.t) (B U x : Z) :
  0 < AWSSRP.big_n self -> 0 <= x -> 0 <= AWSSRP.small_a_value self -> 0 <= U ->
  let S := spec_S (AWSSRP.big_n self) (AWSSRP.g self) (AWSSRP.k self)
                  (AWSSRP.small_a_value self) B in
  AWSSRP.s_value self B U x = S U x /\
  S U x = spec_S_reduced (AWSSRP.big_n self) (AWSSRP.g self) (AWSSRP.k self)
                         (AWSSRP.small_a_value self) B U x /\
  (forall username password salt,
     AWSSRP.get_password_authentication_key self username password B salt =
     let* u := calculate_u (AWSSRP.large_a_value self) B in
     if u =? 0 then Raise (ValueError "U cannot be zero.")
     else
       let* full := AWSSRP.username_password self username password in
       let* x' := AWSSRP.x_value_of salt full in
       AWSSRP.hkdf_of (S u x') u) /\
  (forall device_group_key device_key device_password salt,
     AWSSRP.get_device_authentication_key self device_group_key device_key
       device_password B salt =
     let* u := calculate_u (AWSSRP.large_a_value self) B in
     if u =? 0 then Raise (ValueError "U cannot be zero.")
     else
       let full := fmt_s device_group_key ++ fmt_s device_key ++ ":" ++
                   fmt_s device_password in
       let* x' := AWSSRP.x_value_of salt full in
       AWSSRP.hkdf_of (S u x') u).
Proof.
  intros HN Hx Ha HU S. repeat split.
  - apply s_value_spec; assumption.
  - unfold S, spec_S, spec_S_reduced.
    set (t := B - AWSSRP.k self * (AWSSRP.g self ^ x mod AWSSRP.big_n self)).
    destruct (t <? 0).
    + rewrite pow_shift_base by exact HN. apply Zpower_mod, HN.
    + apply Zpower_mod, HN.
  - intros username password salt. unfold AWSSRP.get_password_authentication_key.
    destruct (calculate_u _ B) as [u|e] eqn:Eu; [|reflexivity]. cbn [Py.bind].
    destruct (u =? 0); [reflexivity|].
    destruct (AWSSRP.username_password _ _ _) as [full|e]; [|reflexivity]. cbn [Py.bind].
    destruct (AWSSRP.x_value_of salt full) as [x'|e] eqn:Ex; [|reflexivity]. cbn [Py.bind].
    unfold S. rewrite s_value_spec; try assumption; [reflexivity | |].
    + eapply x_value_of_nonneg, Ex.
    + eapply calculate_u_nonneg, Eu.
  - intros dgk dk dp salt. unfold AWSSRP.get_device_authentication_key.
    destruct (calculate_u _ B) as [u|e] eqn:Eu; [|reflexivity]. cbn [Py.bind].
    destruct (u =? 0); [reflexivity|]. cbn zeta.
    destruct (AWSSRP.x_value_of salt _) as [x'|e] eqn:Ex; [|reflexivity]. cbn [Py.bind].
    unfold S. rewrite s_value_spec; try assumption; [reflexivity | |].
    + eapply x_value_of_nonneg, Ex.
    + eapply calculate_u_nonneg, Eu.
Qed.

End shared_secret.

Lemma N_positive : 0 < N.
Proof. reflexivity. Qed.

Lemma shared_secret_matches_spec_witness :
  let self := Mock.srp "us-east-1_abc" None None (Mock.service Mock.no_result Mock.no_result Mock.no_result) in
  @AWSSRP.s_value self 0 1 1 = spec_S N 2 1 3 0 1 1.
Proof.
  intros self.
  exact (proj1 (@shared_secret_matches_spec Mock.platform self 0 1 1
                  N_positive ltac:(lia) ltac:(cbn; lia) ltac:(lia))).
Defined.

(** ** The pool name inside the hashed password *)

Lemma split_shape sep s :
  split sep s =
  (up_to sep s :: match after_first sep s with
                  | Some rest => split sep rest
                  | None => []
                  end)%list.
Proof.
  induction s as [|c s IH]; [reflexivity|].
  cbn [split up_to after_first]. destruct (Ascii.eqb c sep); [reflexivity|].
  rewrite IH. reflexivity.
Qed.

Lemma split_second sep s :
  index (split sep s) 1 =
  match after_first sep s with
  | Some rest => Ok (up_to sep rest)
  | None => Raise IndexError
  end.
Proof.
  rewrite split_shape. destruct (after_first sep s) as [rest|]; [|reflexivity].
  rewrite split_shape. reflexivity.
Qed.

Lemma up_to_all sep s : after_first sep s = None -> up_to sep s = s.
Proof.
  induction s as [|c s IH]; [reflexivity|].
  cbn [after_first up_to]. destruct (Ascii.eqb c sep); [discriminate|].
  intros H. rewrite (IH H). reflexivity.
Qed.

Section full_password.
Context {platform : Platform}.

(** C3, as amended: for a pool id with an underscore the hashed password
    is the pool name, the user id, a colon and the password, where the
    pool name is what lies between the first underscore and the second
    (or the end); with exactly one underscore that is everything after
    it. *)
Theorem full_password_pool_name (self : AWSSRP.t) (username password rest : string) :
  after_first "_" (AWSSRP.pool_id self) = Some rest ->
  let full := up_to "_" rest ++ username ++ ":" ++ password in
  AWSSRP.username_password self username password = Ok full /\
  (after_first "_" rest = None -> full = rest ++ username ++ ":" ++ password) /\
  (forall B salt,
     AWSSRP.get_password_authentication_key self username password B salt =
     let* u := calculate_u (AWSSRP.large_a_value self) B in
     if u =? 0 then Raise (ValueError "U cannot be zero.")
     else
       let* x := AWSSRP.x_value_of salt full in
       AWSSRP.hkdf_of (AWSSRP.s_value self B u x) u).
Proof.
  intros Hrest full.
  assert (E : AWSSRP.username_password self username password = Ok full).
  { unfold AWSSRP.username_password. rewrite split_second, Hrest. reflexivity. }
  split; [exact E|]. split.
  - intros Hone. unfold full. rewrite (up_to_all _ _ Hone). reflexivity.
  - intros B salt. unfold AWSSRP.get_password_authentication_key. rewrite E. reflexivity.
Qed.

End full_password.

Lemma full_password_pool_name_witness :
  @AWSSRP.username_password
    (Mock.srp "us-east-1_abc" None None (Mock.service Mock.no_result Mock.no_result Mock.no_result))
    "u-123" "pw" = Ok "abcu-123:pw".
Proof.
  exact (proj1 (@full_password_pool_name Mock.platform
                  (Mock.srp "us-east-1_abc" None None
                     (Mock.service Mock.no_result Mock.no_result Mock.no_result))
                  "u-123" "pw" "abc" eq_refl)).
Defined.

(** C3 as stated fails: with two underscores the hashed password does not
    contain everything after the first one. *)
Lemma full_password_counterexample :
  ~ (forall (self : AWSSRP.t) (username password rest : string),
       after_first "_" (AWSSRP.pool_id self) = Some rest ->
       AWSSRP.username_password self username password =
       Ok (rest ++ username ++ ":" ++ password)).
Proof.
  intros H.
  specialize (H (Mock.srp "us-east-1_abc_def" None None
                   (Mock.service Mock.no_result Mock.no_result Mock.no_result))
                "u-123" "pw" "abc_def" eq_refl).
  vm_compute in H. discriminate H.
Qed.

(** ** The public value [A] *)

Lemma n_hex_value : hex_to_long n_hex = Ok N.
Proof. vm_compute. reflexivity. Qed.

Lemma g_hex_value : hex_to_long g_hex = Ok 2.
Proof. reflexivity. Qed.

Lemma N_odd : Z.odd N = true.
Proof. vm_compute. reflexivity. Qed.

Lemma N_large : 1 < N.
Proof. reflexivity. Qed.

Lemma odd_divides_double n m : Z.odd n = true -> (n | 2 * m) -> (n | m).
Proof.
  intros Hodd [c Hc].
  assert (Hev : Z.even (c * n) = true) by (rewrite <- Hc, Z.even_mul; reflexivity).
  rewrite Z.even_mul, <- (Z.negb_odd n), Hodd, orb_false_r in Hev.
  apply Z.even_spec in Hev as [c' ->]. exists c'. lia.
Qed.

Lemma odd_divides_pow2 n a : 0 <= a -> Z.odd n = true -> (n | 2 ^ a) -> (n | 1).
Proof.
  intros Ha Hodd. revert a Ha.
  apply (natlike_ind (fun a => (n | 2 ^ a) -> (n | 1))); [trivial|].
  intros a Ha IH. rewrite Z.pow_succ_r by exact Ha.
  intros H. apply IH, odd_divides_double; assumption.
Qed.

Lemma pow2_mod_N_nonzero a : 0 <= a -> 2 ^ a mod N <> 0.
Proof.
  intros Ha H. apply Z.mod_divide in H; [|pose proof N_large; lia].
  apply (odd_divides_pow2 N a Ha N_odd) in H.
  apply Z.divide_1_r in H. pose proof N_large. lia.
Qed.

(** ** Strings that always parse *)

Lemma hex_to_long_acc_total s : forall acc,
  is_hex_string s = true -> exists n, hex_to_long_acc s acc = Some n.
Proof.
  induction s as [|c s IH]; intros acc Hs; cbn [hex_to_long_acc].
  - now exists acc.
  - cbn [is_hex_string] in Hs. apply andb_prop in Hs as [Hc Hs].
    unfold is_hex_char in Hc. destruct (hex_val c); [|discriminate].
    apply IH, Hs.
Qed.

Lemma hex_to_long_total s :
  s <> EmptyString -> is_hex_string s = true ->
  exists n, hex_to_long s = Ok n /\ 0 <= n.
Proof.
  intros Hne Hs. destruct (hex_to_long_acc_total s 0 Hs) as [n Hn].
  exists n. assert (E : hex_to_long s = Ok n).
  { unfold hex_to_long. destruct s; [contradiction|]. now rewrite Hn. }
  split; [exact E | eapply hex_to_long_nonneg, E].
Qed.

Lemma byte_val_range b : 0 <= byte_val b < 256.
Proof.
  unfold byte_val. pose proof (Byte.to_N_bounded b). lia.
Qed.

Lemma is_hex_char_digit d : 0 <= d < 16 -> is_hex_char (hex_digit d) = true.
Proof. intros H. unfold is_hex_char. now rewrite hex_val_hex_digit. Qed.

Lemma hex_of_byte_hex b s : is_hex_string (hex_of_byte b ++ s) = is_hex_string s.
Proof.
  unfold hex_of_byte. fold (byte_val b). pose proof (byte_val_range b) as Hb.
  rewrite !append_cons, append_nil. cbn [is_hex_string].
  rewrite !is_hex_char_digit; [reflexivity | |].
  - apply Z.mod_pos_bound. lia.
  - split; [apply Z.div_pos; lia | apply Z.div_lt_upper_bound; lia].
Qed.

Lemma hexlify_hex data : is_hex_string (hexlify data) = true.
Proof.
  induction data as [|b data IH]; [reflexivity|].
  cbn [hexlify]. now rewrite hex_of_byte_hex.
Qed.

Lemma len_append s1 s2 : len (s1 ++ s2) = len s1 + len s2.
Proof. unfold len. rewrite length_append. lia. Qed.

Lemma hexlify_len data : len (hexlify data) = 2 * Z.of_nat (List.length data).
Proof.
  induction data as [|b data IH]; [reflexivity|].
  cbn [hexlify List.length]. rewrite len_append, IH.
  change (len (hex_of_byte b)) with 2. lia.
Qed.

Lemma len_nonempty s : 0 < len s -> s <> EmptyString.
Proof. intros H ->. discriminate H. Qed.

Lemma zeros_hex n : is_hex_string (zeros n) = true.
Proof.
  unfold zeros. induction (Z.to_nat n) as [|k IH]; [reflexivity|].
  cbn [repeat string_of_list_ascii is_hex_string]. exact IH.
Qed.

Lemma zeros_len n : len (zeros n) = Z.max 0 n.
Proof.
  unfold zeros, len.
  assert (H : forall k, String.length (string_of_list_ascii (repeat "0"%char k)) = k).
  { induction k as [|k IH]; [reflexivity|]. cbn. now rewrite IH. }
  rewrite H. lia.
Qed.

Lemma get_random_total urandom :
  urandom <> []%list -> exists r, get_random urandom = Ok r /\ 0 <= r.
Proof.
  intros Hne. unfold get_random. apply hex_to_long_total; [|apply hexlify_hex].
  apply len_nonempty. rewrite hexlify_len. destruct urandom; [contradiction|]. cbn. lia.
Qed.

Section digests.
Context {platform : Platform}.

Lemma hash_sha256_hex buf : is_hex_string (hash_sha256 buf) = true.
Proof.
  unfold hash_sha256. now rewrite is_hex_string_app, zeros_hex, hexlify_hex.
Qed.

Lemma hash_sha256_len buf :
  len (hash_sha256 buf) = Z.max 64 (2 * Z.of_nat (List.length (sha256 buf))).
Proof.
  unfold hash_sha256. rewrite len_append, zeros_len, hexlify_len. lia.
Qed.

Lemma hash_sha256_parses buf : exists n, hex_to_long (hash_sha256 buf) = Ok n /\ 0 <= n.
Proof.
  apply hex_to_long_total; [|apply hash_sha256_hex].
  apply len_nonempty. rewrite hash_sha256_len. lia.
Qed.

End digests.

(** ** The public value [A] never fails its safety check *)

Lemma k_input_decodes : is_ok (fromhex ("00" ++ n_hex ++ "0" ++ g_hex)) = true.
Proof. vm_compute. reflexivity. Qed.

Lemma calculate_a_ok a : 0 <= a -> AWSSRP.calculate_a 2 a N = Ok (2 ^ a mod N).
Proof.
  intros Ha. unfold AWSSRP.calculate_a. rewrite pow_spec by exact Ha.
  rewrite Zmod_mod.
  destruct (Z.eqb_spec (2 ^ a mod N) 0) as [E|E]; [|reflexivity].
  now apply pow2_mod_N_nonzero in E.
Qed.

Lemma generate_random_small_a_ok urandom :
  urandom <> []%list ->
  exists a, AWSSRP.generate_random_small_a N urandom = Ok a /\ 0 <= a < N.
Proof.
  intros Hne. destruct (get_random_total urandom Hne) as (r & Er & Hr).
  exists (r mod N). unfold AWSSRP.generate_random_small_a. rewrite Er.
  split; [reflexivity | apply Z.mod_pos_bound, N_positive].
Qed.

Section initialization.
Context {platform : Platform}.

Lemma init_ok username password pool_id client_id pool_region client
    client_secret device_key device_password device_group_key urandom :
  urandom <> []%list -> pool_region = None \/ client = None ->
  exists self,
    AWSSRP.init username password pool_id client_id pool_region client
      client_secret device_key device_password device_group_key urandom = Ok self /\
    AWSSRP.big_n self = N /\ AWSSRP.g self = 2 /\
    0 <= AWSSRP.small_a_value self < N /\
    AWSSRP.large_a_value self = 2 ^ AWSSRP.small_a_value self mod N.
Proof.
  intros Hne Hargs.
  destruct (generate_random_small_a_ok urandom Hne) as (a & Ea & Ha).
  assert (Ek : exists kv, (let* k_hex := hex_hash ("00" ++ n_hex ++ "0" ++ g_hex) in
                           hex_to_long k_hex) = Ok kv).
  { unfold hex_hash. pose proof k_input_decodes as Hd.
    destruct (fromhex _) as [bs|]; [|discriminate]. cbn [Py.bind].
    destruct (hash_sha256_parses bs) as (kv & Ekv & _). now exists kv. }
  destruct Ek as [kv Ekv].
  assert (Hbody : forall client',
    (let* big_n := hex_to_long n_hex in
     let* g := hex_to_long g_hex in
     let* k_hex := hex_hash ("00" ++ n_hex ++ "0" ++ g_hex) in
     let* k := hex_to_long k_hex in
     let* small_a_value := AWSSRP.generate_random_small_a big_n urandom in
     let* large_a_value := AWSSRP.calculate_a g small_a_value big_n in
     Ok {| AWSSRP.username := username; AWSSRP.password := password;
           AWSSRP.pool_id := pool_id; AWSSRP.client_id := client_id;
           AWSSRP.client_secret := client_secret; AWSSRP.device_key := device_key;
           AWSSRP.device_group_key := device_group_key;
           AWSSRP.device_password := device_password; AWSSRP.client := client';
           AWSSRP.big_n := big_n; AWSSRP.g := g; AWSSRP.k := k;
           AWSSRP.small_a_value := small_a_value;
           AWSSRP.large_a_value := large_a_value |}) =
    Ok {| AWSSRP.username := username; AWSSRP.password := password;
          AWSSRP.pool_id := pool_id; AWSSRP.client_id := client_id;
          AWSSRP.client_secret := client_secret; AWSSRP.device_key := device_key;
          AWSSRP.device_group_key := device_group_key;
          AWSSRP.device_password := device_password; AWSSRP.client := client';
          AWSSRP.big_n := N; AWSSRP.g := 2; AWSSRP.k := kv;
          AWSSRP.small_a_value := a; AWSSRP.large_a_value := 2 ^ a mod N |}).
  { intros client'. rewrite n_hex_value, g_hex_value. cbn [Py.bind].
    destruct (hex_hash _) as [k_hex|]; [|discriminate]. cbn [Py.bind] in Ekv |- *.
    rewrite Ekv. cbn [Py.bind]. rewrite Ea. cbn [Py.bind].
    rewrite calculate_a_ok by lia. reflexivity. }
  eexists. split.
  - unfold AWSSRP.init.
    destruct Hargs as [-> | ->]; [|destruct pool_region]; apply Hbody.
  - cbn. repeat split; try lia.
Qed.

(** C4: for every secret [0 <= a < N], as [generate_random_small_a] makes
    from a draw of 128 bytes, [A = g^a mod N] is not zero modulo [N]; so
    [calculate_a] never raises its safety error, the constructor never
    raises it either, and once past the check of its [pool_region] and
    [client] arguments the constructor always returns the session. *)
Theorem safety_check_never_fails (a : Z) :
  0 <= a < N ->
  let A := Py.pow 2 a N in
  A = 2 ^ a mod N /\
  (A mod N <> 0) /\
  AWSSRP.calculate_a 2 a N = Ok A /\
  (forall urandom, List.length urandom = 128%nat ->
     exists a', AWSSRP.generate_random_small_a N urandom = Ok a' /\ 0 <= a' < N) /\
  (forall username password pool_id client_id pool_region client
          client_secret device_key device_password device_group_key urandom,
     List.length urandom = 128%nat -> pool_region = None \/ client = None ->
     exists self,
       AWSSRP.init username password pool_id client_id pool_region client
         client_secret device_key device_password device_group_key urandom = Ok self /\
       AWSSRP.big_n self = N /\ AWSSRP.g self = 2 /\
       0 <= AWSSRP.small_a_value self < N /\
       AWSSRP.large_a_value self = 2 ^ AWSSRP.small_a_value self mod N /\
       (AWSSRP.large_a_value self mod N <> 0)) /\
  (forall username password pool_id client_id pool_region client
          client_secret device_key device_password device_group_key urandom,
     List.length urandom = 128%nat ->
     AWSSRP.init username password pool_id client_id pool_region client
       client_secret device_key device_password device_group_key urandom <>
     Raise (ValueError "Safety check for A failed")).
Proof.
  intros Ha A.
  assert (EA : A = 2 ^ a mod N) by (apply pow_spec; lia).
  assert (Hdraw : forall urandom : list byte,
            List.length urandom = 128%nat -> urandom <> []%list).
  { intros urandom Hl ->. discriminate Hl. }
  split; [exact EA|]. split; [|split; [|split; [|split]]].
  - rewrite EA, Zmod_mod. apply pow2_mod_N_nonzero. lia.
  - rewrite EA. apply calculate_a_ok. lia.
  - intros urandom Hl. apply generate_random_small_a_ok, Hdraw, Hl.
  - intros username password pool_id client_id pool_region client
      client_secret device_key device_password device_group_key urandom Hl Hargs.
    destruct (init_ok username password pool_id client_id pool_region client
                client_secret device_key device_password device_group_key urandom
                (Hdraw _ Hl) Hargs) as (self & E & EN & Eg & Hsmall & Elarge).
    exists self. repeat split; try assumption; try lia.
    rewrite Elarge, Zmod_mod. apply pow2_mod_N_nonzero. lia.
  - intros username password pool_id client_id pool_region client
      client_secret device_key device_password device_group_key urandom Hl.
    assert (Hok : pool_region = None \/ client = None ->
                  AWSSRP.init username password pool_id client_id pool_region client
                    client_secret device_key device_password device_group_key urandom <>
                  Raise (ValueError "Safety check for A failed")).
    { intros Hargs.
      destruct (init_ok username password pool_id client_id pool_region client
                  client_secret device_key device_password device_group_key
                  urandom (Hdraw _ Hl) Hargs) as (self & E & _).
      rewrite E. discriminate. }
    destruct pool_region as [region|]; [|apply Hok; left; reflexivity].
    destruct client as [c|]; [|apply Hok; right; reflexivity].
    cbn. discriminate.
Qed.

End initialization.

Lemma safety_check_never_fails_witness :
  (Py.pow 2 5 N mod N <> 0) /\ AWSSRP.calculate_a 2 5 N = Ok (Py.pow 2 5 N).
Proof.
  pose proof (@safety_check_never_fails Mock.platform 5
                (conj (proj1 (Z.leb_le 0 5) eq_refl) (eq_refl : (5 ?= N) = Lt)))
    as (_ & H1 & H2 & _).
  exact (conj H1 H2).
Defined.

(** ** Running code that raises *)

Lemma bind_lift {S A B} (r : result A) (k : A -> st S B) (s : S) :
  st_bind (st_lift r) k s =
  match r with
  | Ok a => k a s
  | Raise e => (Raise e, s)
  end.
Proof. unfold st_bind, st_lift. destruct r; reflexivity. Qed.

Lemma bind_run {S A B} (c : st S A) (k : A -> st S B) (s s' : S) (a : A) :
  c s = (Ok a, s') -> st_bind c k s = k a s'.
Proof. intros H. unfold st_bind. rewrite H. reflexivity. Qed.

Lemma bind_call {B} client req (k : boto_response -> io B) (log : list request) :
  st_bind (call client req) k log =
  match client log req with
  | Ok a => k a (log ++ [req])%list
  | Raise e => (Raise e, (log ++ [req])%list)
  end.
Proof. unfold st_bind, call. destruct (client log req); reflexivity. Qed.

Lemma getitem_ok {V} (d : gmap string V) key v : getitem d key = Ok v -> d !! key = Some v.
Proof. unfold getitem. destruct (d !! key); [intros [= <-]; reflexivity | discriminate]. Qed.

(** Take the next statement of a run that is known to return. *)
Ltac next_ok :=
  rewrite ?bind_lift;
  lazymatch goal with
  | |- (match ?r with Ok _ => _ | Raise _ => _ end) = (Ok _, _) -> _ =>
      let E := fresh "E" in
      destruct r eqn:E; [|discriminate]
  end.

Section challenge_responses.
Context {platform : Platform}.

Lemma bind_timestamp {B} (k : string -> io B) (log : list request) :
  st_bind AWSSRP.timestamp_now k log = k (strip_day_zero (utcnow_strftime log)) log.
Proof. reflexivity. Qed.

(** What a returned password-verifier response is made of. *)
Lemma process_challenge_inv (self : AWSSRP.t) params log resp log' :
  AWSSRP.process_challenge self params log = (Ok resp, log') ->
  exists user_id_for_srp secret_block_b64 timestamp signature,
    params !! "USER_ID_FOR_SRP" = Some user_id_for_srp /\
    params !! "SECRET_BLOCK" = Some secret_block_b64 /\
    log' = log /\
    let base : gmap string string :=
      <["PASSWORD_CLAIM_SIGNATURE" := signature]>
        (<["PASSWORD_CLAIM_SECRET_BLOCK" := secret_block_b64]>
           (<["USERNAME" := user_id_for_srp]> (<["TIMESTAMP" := timestamp]> ∅))) in
    let with_hash :=
      match AWSSRP.client_secret self with
      | Some secret =>
          <["SECRET_HASH" := AWSSRP.get_secret_hash (AWSSRP.username self)
                               (AWSSRP.client_id self) secret]> base
      | None => base
      end in
    resp = match AWSSRP.device_key self with
           | Some dk => <["DEVICE_KEY" := dk]> with_hash
           | None => with_hash
           end.
Proof.
  unfold AWSSRP.process_challenge.
  next_ok. next_ok. next_ok. next_ok. rewrite bind_timestamp.
  next_ok. next_ok. next_ok. next_ok.
  unfold st_ret. intros [= <- <-].
  do 4 eexists. repeat split; eauto using getitem_ok.
Qed.

Lemma process_device_challenge_inv (self : AWSSRP.t) params log resp log' :
  AWSSRP.process_device_challenge self params log = (Ok resp, log') ->
  exists username secret_block_b64 timestamp signature device_key,
    params !! "USERNAME" = Some username /\
    AWSSRP.device_key self = Some device_key /\
    log' = log /\
    let base : gmap string string :=
      <["DEVICE_KEY" := device_key]>
        (<["PASSWORD_CLAIM_SIGNATURE" := signature]>
           (<["PASSWORD_CLAIM_SECRET_BLOCK" := secret_block_b64]>
              (<["USERNAME" := username]> (<["TIMESTAMP" := timestamp]> ∅)))) in
    resp = match AWSSRP.client_secret self with
           | Some secret =>
               <["SECRET_HASH" := AWSSRP.get_secret_hash username
                                    (AWSSRP.client_id self) secret]> base
           | None => base
           end.
Proof.
  unfold AWSSRP.process_device_challenge.
  next_ok. next_ok. next_ok. next_ok. rewrite bind_timestamp.
  next_ok. next_ok. next_ok. next_ok.
  destruct (AWSSRP.device_key self) as [dk|] eqn:Edk; [|discriminate].
  unfold st_ret. intros [= <- <-].
  do 5 eexists. repeat split; eauto using getitem_ok.
Qed.

(** When every step of [process_challenge] goes through, it returns the
    response, and the log is untouched. *)
Lemma process_challenge_returns (self : AWSSRP.t) params log
    user_id_for_srp salt_hex srp_b_hex secret_block_b64 srp_b hkdf
    secret_block_bytes pool_name :
  params !! "USER_ID_FOR_SRP" = Some user_id_for_srp ->
  params !! "SALT" = Some salt_hex ->
  params !! "SRP_B" = Some srp_b_hex ->
  params !! "SECRET_BLOCK" = Some secret_block_b64 ->
  hex_to_long srp_b_hex = Ok srp_b ->
  AWSSRP.get_password_authentication_key self user_id_for_srp (AWSSRP.password self)
    srp_b salt_hex = Ok hkdf ->
  standard_b64decode secret_block_b64 = Ok secret_block_bytes ->
  index (split "_" (AWSSRP.pool_id self)) 1 = Ok pool_name ->
  exists resp, AWSSRP.process_challenge self params log = (Ok resp, log).
Proof.
  intros Huid Hsalt Hb Hblk HB Hkey Hdec Hpool.
  unfold AWSSRP.process_challenge, getitem.
  rewrite bind_lift, Huid, bind_lift, Hsalt, bind_lift, Hb, bind_lift, Hblk.
  rewrite bind_timestamp, bind_lift, HB, bind_lift, Hkey, bind_lift, Hdec.
  rewrite bind_lift, Hpool. eexists. reflexivity.
Qed.

Lemma process_device_challenge_returns (self : AWSSRP.t) params log
    username salt_hex srp_b_hex secret_block_b64 srp_b hkdf
    secret_block_bytes group_key device_key :
  params !! "USERNAME" = Some username ->
  params !! "SALT" = Some salt_hex ->
  params !! "SRP_B" = Some srp_b_hex ->
  params !! "SECRET_BLOCK" = Some secret_block_b64 ->
  hex_to_long srp_b_hex = Ok srp_b ->
  AWSSRP.get_device_authentication_key self (AWSSRP.device_group_key self)
    (AWSSRP.device_key self) (AWSSRP.device_password self) srp_b salt_hex = Ok hkdf ->
  standard_b64decode secret_block_b64 = Ok secret_block_bytes ->
  AWSSRP.device_group_key self = Some group_key ->
  AWSSRP.device_key self = Some device_key ->
  exists resp, AWSSRP.process_device_challenge self params log = (Ok resp, log).
Proof.
  intros Huser Hsalt Hb Hblk HB Hkey Hdec Hgroup Hdev.
  unfold AWSSRP.process_device_challenge, getitem.
  rewrite bind_lift, Huser, bind_lift, Hsalt, bind_lift, Hb, bind_lift, Hblk.
  rewrite bind_timestamp, bind_lift, HB, bind_lift, Hkey, bind_lift, Hdec.
  rewrite bind_lift, Hgroup. cbn [bytearray_of]. rewrite Hdev. eexists. reflexivity.
Qed.

(** C5: a password-verifier response carries the challenge's
    [USER_ID_FOR_SRP] as [USERNAME] (whatever user name the session was
    built with) and the challenge's [SECRET_BLOCK] unchanged; it has a
    [SECRET_HASH] exactly when a client secret is configured and a
    [DEVICE_KEY] exactly when the session has a device key. *)
Theorem password_verifier_response (self : AWSSRP.t) params log resp log' :
  AWSSRP.process_challenge self params log = (Ok resp, log') ->
  is_Some (params !! "USER_ID_FOR_SRP") /\
  resp !! "USERNAME" = params !! "USER_ID_FOR_SRP" /\
  is_Some (params !! "SECRET_BLOCK") /\
  resp !! "PASSWORD_CLAIM_SECRET_BLOCK" = params !! "SECRET_BLOCK" /\
  (is_Some (resp !! "SECRET_HASH") <-> is_Some (AWSSRP.client_secret self)) /\
  (is_Some (resp !! "DEVICE_KEY") <-> is_Some (AWSSRP.device_key self)) /\
  resp !! "DEVICE_KEY" = AWSSRP.device_key self /\
  is_Some (resp !! "TIMESTAMP") /\
  is_Some (resp !! "PASSWORD_CLAIM_SIGNATURE").
Proof.
  intros H. apply process_challenge_inv in H
    as (uid & blk & ts & sig & Euid & Eblk & _ & ->).
  rewrite Euid, Eblk.
  destruct (AWSSRP.client_secret self) as [secret|];
    destruct (AWSSRP.device_key self) as [dk|]; cbn zeta;
    simplify_map_eq; repeat split; eauto; try (intros [? [=]]).
Qed.

(** C10: with a client secret, the [SECRET_HASH] of the password-verifier
    response is computed from the user name the session was built with,
    while its [USERNAME] is the challenge's [USER_ID_FOR_SRP]; the device
    response computes it from the [USERNAME] of the device challenge. *)
Theorem secret_hash_user_name (self : AWSSRP.t) (secret : string) :
  AWSSRP.client_secret self = Some secret ->
  (forall params log resp log',
     AWSSRP.process_challenge self params log = (Ok resp, log') ->
     resp !! "SECRET_HASH" =
       Some (AWSSRP.get_secret_hash (AWSSRP.username self) (AWSSRP.client_id self) secret) /\
     resp !! "USERNAME" = params !! "USER_ID_FOR_SRP") /\
  (forall params log resp log',
     AWSSRP.process_device_challenge self params log = (Ok resp, log') ->
     exists username,
       params !! "USERNAME" = Some username /\
       resp !! "USERNAME" = Some username /\
       resp !! "SECRET_HASH" =
         Some (AWSSRP.get_secret_hash username (AWSSRP.client_id self) secret)).
Proof.
  intros Hsecret. split.
  - intros params log resp log' H. apply process_challenge_inv in H
      as (uid & blk & ts & sig & Euid & Eblk & _ & ->).
    rewrite Hsecret, Euid.
    destruct (AWSSRP.device_key self) as [dk|]; cbn zeta; simplify_map_eq; split; reflexivity.
  - intros params log resp log' H. apply process_device_challenge_inv in H
      as (user & blk & ts & sig & dk & Euser & Edk & _ & ->).
    exists user. rewrite Hsecret. cbn zeta. simplify_map_eq. repeat split; reflexivity.
Qed.

End challenge_responses.

(** The mock session answers the mock challenge, whatever its client. *)
Lemma mock_challenge_answered pool_id client_secret device_key client log :
  after_first "_" pool_id = Some "abc" ->
  exists resp,
    AWSSRP.process_challenge (platform := Mock.platform)
      (Mock.srp pool_id client_secret device_key client)
      Mock.challenge_parameters log = (Ok resp, log).
Proof.
  intros Hpool.
  apply (process_challenge_returns (platform := Mock.platform) _ _ _
           "u-123" "ab" "5" "block" 5 (x01 :: encode "QCaldera Derive")
           (encode "block") "abc");
    try (vm_compute; reflexivity).
  - unfold AWSSRP.get_password_authentication_key, AWSSRP.username_password.
    rewrite split_second. cbn [AWSSRP.pool_id Mock.srp]. rewrite Hpool.
    vm_compute. reflexivity.
  - rewrite split_second. cbn [AWSSRP.pool_id Mock.srp]. rewrite Hpool. reflexivity.
Qed.

Lemma mock_device_challenge_answered log :
  exists resp,
    AWSSRP.process_device_challenge (platform := Mock.platform)
      (Mock.device_srp (Some "s3cret") Mock.silent)
      Mock.challenge_parameters log = (Ok resp, log).
Proof.
  apply (process_device_challenge_returns (platform := Mock.platform) _ _ _
           "u-123" "ab" "5" "block" 5 (x01 :: encode "QCaldera Derive")
           (encode "block") "grp-1" "dev-1");
    vm_compute; reflexivity.
Qed.

Lemma password_verifier_response_witness :
  AWSSRP.username Scenario.with_secret = "alice" /\
  exists resp,
    AWSSRP.process_challenge (platform := Mock.platform) Scenario.with_secret
      Mock.challenge_parameters []%list = (Ok resp, []%list) /\
    resp !! "USERNAME" = Some "u-123" /\
    resp !! "PASSWORD_CLAIM_SECRET_BLOCK" = Some "block" /\
    is_Some (resp !! "SECRET_HASH") /\
    resp !! "DEVICE_KEY" = None.
Proof.
  split; [reflexivity|].
  destruct (mock_challenge_answered "us-east-1_abc" (Some "s3cret") None Mock.silent
              []%list eq_refl) as [resp E].
  exists resp. split; [exact E|].
  destruct (password_verifier_response (platform := Mock.platform) _ _ _ _ _ E)
    as (_ & Hu & _ & Hb & Hh & _ & Hd & _).
  split; [|split; [|split]].
  - rewrite Hu. vm_compute. reflexivity.
  - rewrite Hb. vm_compute. reflexivity.
  - apply Hh. exists "s3cret". reflexivity.
  - rewrite Hd. reflexivity.
Defined.

Lemma secret_hash_user_name_witness :
  AWSSRP.username Scenario.with_secret = "alice" /\
  (exists resp,
     AWSSRP.process_challenge (platform := Mock.platform) Scenario.with_secret
       Mock.challenge_parameters []%list = (Ok resp, []%list) /\
     resp !! "USERNAME" = Some "u-123" /\
     resp !! "SECRET_HASH" = Some "s3cretaliceabc") /\
  (exists resp,
     AWSSRP.process_device_challenge (platform := Mock.platform)
       (Mock.device_srp (Some "s3cret") Mock.silent)
       Mock.challenge_parameters []%list = (Ok resp, []%list) /\
     resp !! "SECRET_HASH" = Some "s3cretu-123abc").
Proof.
  destruct (secret_hash_user_name (platform := Mock.platform)
              Scenario.with_secret "s3cret" eq_refl) as [Hpw _].
  destruct (secret_hash_user_name (platform := Mock.platform)
              (Mock.device_srp (Some "s3cret") Mock.silent) "s3cret" eq_refl)
    as [_ Hdev].
  split; [reflexivity|]. split.
  - destruct (mock_challenge_answered "us-east-1_abc" (Some "s3cret") None Mock.silent
                []%list eq_refl) as [resp E].
    exists resp. split; [exact E|].
    destruct (Hpw _ _ _ _ E) as [Hh Hu]. split.
    + rewrite Hu. vm_compute. reflexivity.
    + rewrite Hh. vm_compute. reflexivity.
  - destruct (mock_device_challenge_answered []%list) as [resp E].
    exists resp. split; [exact E|].
    destruct (Hdev _ _ _ _ E) as (user & Eu & _ & Hd).
    assert (Some user = Some "u-123") as [= ->].
    { rewrite <- Eu. vm_compute. reflexivity. }
    rewrite Hd. vm_compute. reflexivity.
Defined.

(** ** The challenge dispatch *)

Section dispatch.
Context {platform : Platform}.

(** C6: on the password-only entry point, a first challenge other than
    [PASSWORD_VERIFIER] raises the unsupported-challenge error; after the
    verifier is answered, [SOFTWARE_TOKEN_MFA] raises
    [MFATokenRequiredException], [NEW_PASSWORD_REQUIRED] raises
    [ForceChangePasswordException], and a response without a further
    challenge is returned as the tokens. *)
Theorem authenticate_user_dispatch (self : AWSSRP.t) log response challenge :
  AWSSRP.client self log (first_request self) = Ok response ->
  ChallengeName response = Some challenge ->
  let log1 := (log ++ [first_request self])%list in
  (challenge <> "PASSWORD_VERIFIER" ->
   AWSSRP.authenticate_user self log =
   (Raise (NotImplementedError ("The " ++ challenge ++ " challenge is not supported")),
    log1)) /\
  (challenge = "PASSWORD_VERIFIER" ->
   forall params cr tokens,
     ChallengeParameters response = Some params ->
     AWSSRP.process_challenge self params log1 = (Ok cr, log1) ->
     AWSSRP.client self log1 (verifier_request self cr) = Ok tokens ->
     let log2 := (log1 ++ [verifier_request self cr])%list in
     (ChallengeName tokens = Some "SOFTWARE_TOKEN_MFA" ->
      AWSSRP.authenticate_user self log =
      (Raise (MFATokenRequiredException "Software MFA Token required to authenticate"),
       log2)) /\
     (ChallengeName tokens = Some "NEW_PASSWORD_REQUIRED" ->
      AWSSRP.authenticate_user self log =
      (Raise (ForceChangePasswordException "Change password before authenticating"),
       log2)) /\
     (ChallengeName tokens = None ->
      AWSSRP.authenticate_user self log = (Ok tokens, log2))).
Proof.
  intros Hfirst Hname log1.
  assert (Hstart : forall k : boto_response -> string -> io boto_response,
    st_bind (call (AWSSRP.client self) (first_request self))
      (fun response => st_bind (st_lift (item "ChallengeName" (ChallengeName response)))
                         (k response)) log = k response challenge log1).
  { intros k. rewrite bind_call, Hfirst, bind_lift, Hname. reflexivity. }
  unfold AWSSRP.authenticate_user, AWSSRP.PASSWORD_VERIFIER_CHALLENGE.
  fold (first_request self). rewrite Hstart. split.
  - intros Hne. apply String.eqb_neq in Hne. rewrite Hne. reflexivity.
  - intros -> params cr tokens Hparams Hcr Htokens.
    rewrite String.eqb_refl, bind_lift, Hparams. cbn [item].
    rewrite (bind_run _ _ _ _ _ Hcr).
    fold (verifier_request self cr). rewrite bind_call, Htokens.
    repeat split; intros ->; reflexivity.
Qed.

(** C7: on the MFA entry point, when the verifier step answers
    [SOFTWARE_TOKEN_MFA], the next call answers that challenge with the
    [USERNAME] of the first challenge's [ChallengeParameters] (not the
    session's own user name), the supplied code, and the [Session] of the
    verifier step's response; its outcome is the outcome of the entry
    point. *)
Theorem mfa_response_fields (self : AWSSRP.t) (mfaToken : string) log
    response params userSub cr tokens session :
  AWSSRP.client self log (first_request self) = Ok response ->
  ChallengeName response = Some "PASSWORD_VERIFIER" ->
  ChallengeParameters response = Some params ->
  params !! "USERNAME" = Some userSub ->
  let log1 := (log ++ [first_request self])%list in
  AWSSRP.process_challenge self params log1 = (Ok cr, log1) ->
  AWSSRP.client self log1 (verifier_request self cr) = Ok tokens ->
  ChallengeName tokens = Some "SOFTWARE_TOKEN_MFA" ->
  Session tokens = Some session ->
  let log2 := (log1 ++ [verifier_request self cr])%list in
  let answer := mfa_request self session userSub mfaToken in
  AWSSRP.authenticate_user_with_mfa_token self mfaToken log =
  (AWSSRP.client self log2 answer, (log2 ++ [answer])%list).
Proof.
  intros Hfirst Hname Hparams Huser log1 Hcr Htokens Hmfa Hsession log2 answer.
  unfold AWSSRP.authenticate_user_with_mfa_token.
  fold (first_request self). rewrite bind_call, Hfirst, bind_lift, Hparams.
  cbn [item]. fold log1.
  rewrite bind_lift. unfold getitem. rewrite Huser.
  rewrite bind_lift, Hname. cbn [item].
  unfold AWSSRP.PASSWORD_VERIFIER_CHALLENGE. rewrite String.eqb_refl.
  rewrite (bind_run _ _ _ _ _ Hcr).
  fold (verifier_request self cr). rewrite bind_call, Htokens. fold log2.
  rewrite Hmfa. cbn [get_is]. unfold AWSSRP.SOFTWARE_TOKEN_MFA_CHALLENGE.
  rewrite String.eqb_refl, bind_lift, Hsession. cbn [item].
  fold (mfa_request self session userSub mfaToken). fold answer.
  rewrite bind_call. destruct (AWSSRP.client self log2 answer); reflexivity.
Qed.

End dispatch.

Lemma scenario_verifier_response second :
  exists cr,
    AWSSRP.process_challenge (platform := Mock.platform) (Scenario.after_verifier second)
      Mock.challenge_parameters
      [first_request (platform := Mock.platform) (Scenario.after_verifier second)]%list =
    (Ok cr,
     [first_request (platform := Mock.platform) (Scenario.after_verifier second)]%list).
Proof. apply mock_challenge_answered. reflexivity. Qed.

Lemma authenticate_user_dispatch_witness :
  AWSSRP.authenticate_user (platform := Mock.platform) Scenario.custom_first []%list =
    (Raise (NotImplementedError "The CUSTOM_CHALLENGE challenge is not supported"),
     [first_request (platform := Mock.platform) Scenario.custom_first]%list) /\
  fst (AWSSRP.authenticate_user (platform := Mock.platform)
         (Scenario.after_verifier (Mock.challenge "SOFTWARE_TOKEN_MFA" ∅)) []%list) =
    Raise (MFATokenRequiredException "Software MFA Token required to authenticate") /\
  fst (AWSSRP.authenticate_user (platform := Mock.platform)
         (Scenario.after_verifier (Mock.challenge "NEW_PASSWORD_REQUIRED" ∅)) []%list) =
    Raise (ForceChangePasswordException "Change password before authenticating") /\
  fst (AWSSRP.authenticate_user (platform := Mock.platform)
         (Scenario.after_verifier (Mock.tokens "id" "access")) []%list) =
    Ok (Mock.tokens "id" "access").
Proof.
  split; [|split; [|split]].
  - refine (proj1 (authenticate_user_dispatch (platform := Mock.platform)
                     Scenario.custom_first []%list _ "CUSTOM_CHALLENGE" eq_refl eq_refl) _).
    discriminate.
  - destruct (scenario_verifier_response (Mock.challenge "SOFTWARE_TOKEN_MFA" ∅)) as [cr Hcr].
    destruct (proj2 (authenticate_user_dispatch (platform := Mock.platform)
                       (Scenario.after_verifier (Mock.challenge "SOFTWARE_TOKEN_MFA" ∅))
                       []%list _ "PASSWORD_VERIFIER" eq_refl eq_refl)
                eq_refl _ cr _ eq_refl Hcr eq_refl) as (H & _ & _).
    rewrite (H eq_refl). reflexivity.
  - destruct (scenario_verifier_response (Mock.challenge "NEW_PASSWORD_REQUIRED" ∅)) as [cr Hcr].
    destruct (proj2 (authenticate_user_dispatch (platform := Mock.platform)
                       (Scenario.after_verifier (Mock.challenge "NEW_PASSWORD_REQUIRED" ∅))
                       []%list _ "PASSWORD_VERIFIER" eq_refl eq_refl)
                eq_refl _ cr _ eq_refl Hcr eq_refl) as (_ & H & _).
    rewrite (H eq_refl). reflexivity.
  - destruct (scenario_verifier_response (Mock.tokens "id" "access")) as [cr Hcr].
    destruct (proj2 (authenticate_user_dispatch (platform := Mock.platform)
                       (Scenario.after_verifier (Mock.tokens "id" "access"))
                       []%list _ "PASSWORD_VERIFIER" eq_refl eq_refl)
                eq_refl _ cr _ eq_refl Hcr eq_refl) as (_ & _ & H).
    rewrite (H eq_refl). reflexivity.
Defined.

Lemma mfa_response_fields_witness :
  let self := Scenario.after_verifier (Mock.challenge "SOFTWARE_TOKEN_MFA" ∅) in
  exists first second,
    AWSSRP.authenticate_user_with_mfa_token (platform := Mock.platform) self "654321" []%list =
    (Ok (Mock.tokens "id" "access"),
     [first; second; mfa_request self "S1" "u-123" "654321"]%list) /\
    AWSSRP.username self = "alice".
Proof.
  intros self.
  destruct (scenario_verifier_response (Mock.challenge "SOFTWARE_TOKEN_MFA" ∅)) as [cr Hcr].
  exists (first_request (platform := Mock.platform) self), (verifier_request self cr).
  split; [|reflexivity].
  exact (mfa_response_fields (platform := Mock.platform) self "654321" []%list
           _ Mock.challenge_parameters "u-123" cr _ "S1"
           eq_refl eq_refl eq_refl
           ltac:(vm_compute; reflexivity)
           Hcr eq_refl eq_refl eq_refl).
Defined.

(** ** Session methods *)

Lemma bind_get_self {B} (k : Cognito.t -> Cognito.method B) s :
  st_bind Cognito.get_self k s = k (fst s) s.
Proof. reflexivity. Qed.

Lemma bind_update {B} f (k : unit -> Cognito.method B) s :
  st_bind (Cognito.update f) k s = k tt (f (fst s), snd s).
Proof. reflexivity. Qed.

Lemma bind_run_io {A B} (c : io A) (k : A -> Cognito.method B) s :
  st_bind (Cognito.run_io c) k s =
  match c (snd s) with
  | (Ok a, log') => k a (fst s, log')
  | (Raise e, log') => (Raise e, (fst s, log'))
  end.
Proof.
  unfold st_bind, Cognito.run_io. destruct (c (snd s)) as [[a|e] log']; reflexivity.
Qed.

Lemma getattr_setattr self name value :
  Cognito.getattr (Cognito.setattr name value self) name = Some value.
Proof.
  unfold Cognito.setattr, Cognito.getattr.
  repeat match goal with
         | |- context [String.eqb name ?attr] =>
             destruct (String.eqb name attr); [reflexivity|]
         end.
  cbn. apply lookup_insert_eq.
Qed.

Section tokens.
Context {platform : Platform} {token_platform : TokenPlatform}.

(** Looking a key up changes nothing but the key cache. *)
Lemma get_keys_frame s r s' :
  Cognito.get_keys s = (r, s') ->
  snd s' = snd s /\ forall name, Cognito.getattr (fst s') name = Cognito.getattr (fst s) name.
Proof.
  unfold Cognito.get_keys. rewrite bind_get_self.
  destruct (match Cognito.pool_jwk (fst s) with
            | Some j => if bool_decide (j = ∅) then None else Some j
            | None => None
            end) as [j|].
  - intros [= <- <-]. split; reflexivity.
  - destruct (bool_decide (env_COGNITO_JWKS = ∅)).
    + rewrite bind_lift. destruct (requests_get_json _).
      * rewrite bind_update. unfold st_ret. intros [= <- <-]. split; reflexivity.
      * intros [= <- <-]. split; reflexivity.
    + rewrite bind_update. unfold st_ret. intros [= <- <-]. split; reflexivity.
Qed.

Lemma get_key_frame kid s r s' :
  Cognito.get_key kid s = (r, s') ->
  snd s' = snd s /\ forall name, Cognito.getattr (fst s') name = Cognito.getattr (fst s) name.
Proof.
  unfold Cognito.get_key, st_bind.
  destruct (Cognito.get_keys s) as [[all|e] s1] eqn:E.
  - apply get_keys_frame in E. destruct (all !! "keys").
    + intros [= <- <-]. exact E.
    + intros [= <- <-]. exact E.
  - apply get_keys_frame in E. intros [= <- <-]. exact E.
Qed.

(** [verify_token] refuses a token whose [token_use] is not the expected
    one, and leaves the session as it was. *)
Lemma verify_token_wrong_use token id_name token_use header claims s :
  get_unverified_header token = Ok header ->
  get_unverified_claims token = Ok claims ->
  claims !! "token_use" <> Some token_use ->
  Cognito.verify_token token id_name token_use s =
  (Raise (TokenVerificationException "Your {} token use could not be verified."), s).
Proof.
  intros Hh Hc Huse. unfold Cognito.verify_token.
  rewrite bind_lift, Hh, bind_lift, Hc.
  assert (Cognito.opt_eqb (claims !! "token_use") (Some token_use) = false) as ->.
  { destruct (claims !! "token_use") as [u|]; [|reflexivity].
    cbn. apply String.eqb_neq. congruence. }
  reflexivity.
Qed.

(** [verify_token] refuses a token whose signature does not verify, and
    no attribute of the session changes. *)
Lemma verify_token_bad_signature token id_name token_use header claims key s s' :
  get_unverified_header token = Ok header ->
  get_unverified_claims token = Ok claims ->
  claims !! "token_use" = Some token_use ->
  Cognito.get_key (header !! "kid") s = (Ok key, s') ->
  jwt_decode token key (claims !! "aud") (claims !! "iss") = Raise JWTError ->
  Cognito.verify_token token id_name token_use s =
  (Raise (TokenVerificationException "Your {} token could not be verified."), s') /\
  forall name, Cognito.getattr (fst s') name = Cognito.getattr (fst s) name.
Proof.
  intros Hh Hc Huse Hkey Hdec. split; [|eapply get_key_frame, Hkey].
  unfold Cognito.verify_token.
  rewrite bind_lift, Hh, bind_lift, Hc, Huse.
  cbn [Cognito.opt_eqb]. rewrite String.eqb_refl. cbn [negb].
  rewrite (bind_run _ _ _ _ _ Hkey), Hdec. reflexivity.
Qed.

(** [verify_token] stores a token that verifies under the given name and
    returns its claims. *)
Lemma verify_token_binds token id_name token_use header claims key verified s s' :
  get_unverified_header token = Ok header ->
  get_unverified_claims token = Ok claims ->
  claims !! "token_use" = Some token_use ->
  Cognito.get_key (header !! "kid") s = (Ok key, s') ->
  jwt_decode token key (claims !! "aud") (claims !! "iss") = Ok verified ->
  Cognito.verify_token token id_name token_use s =
  (Ok verified, (Cognito.setattr id_name token (fst s'), snd s')) /\
  Cognito.getattr (Cognito.setattr id_name token (fst s')) id_name = Some token.
Proof.
  intros Hh Hc Huse Hkey Hdec. split; [|apply getattr_setattr].
  unfold Cognito.verify_token.
  rewrite bind_lift, Hh, bind_lift, Hc, Huse.
  cbn [Cognito.opt_eqb]. rewrite String.eqb_refl. cbn [negb].
  rewrite (bind_run _ _ _ _ _ Hkey), Hdec. reflexivity.
Qed.

End tokens.

(** [new_password_challenge] stores whatever tokens the exchange returns:
    no token library is consulted. *)
Lemma new_password_challenge_stores {platform : Platform} password new_password urandom
    self log aws tokens log' result id refresh access type :
  Cognito.new_AWSSRP self password None None None urandom = Ok aws ->
  AWSSRP.set_new_password_challenge aws new_password log = (Ok tokens, log') ->
  AuthenticationResult tokens = Some result ->
  IdToken result = Some id -> RefreshToken result = Some refresh ->
  AccessToken result = Some access -> TokenType result = Some type ->
  let s' := snd (Cognito.new_password_challenge password new_password urandom (self, log)) in
  Cognito.id_token (fst s') = Some id /\ Cognito.access_token (fst s') = Some access.
Proof.
  intros Haws Hrun Hres Hid Hrefresh Haccess Htype.
  unfold Cognito.new_password_challenge.
  rewrite bind_get_self, bind_lift. cbn [fst]. rewrite Haws.
  rewrite bind_run_io. cbn [snd fst]. rewrite Hrun.
  rewrite bind_lift, Hres. cbn [item].
  rewrite bind_lift, Hid. cbn [item]. rewrite bind_update.
  rewrite bind_lift, Hrefresh. cbn [item]. rewrite bind_update.
  rewrite bind_lift, Haccess. cbn [item]. rewrite bind_update.
  rewrite bind_lift, Htype. cbn [item]. rewrite bind_update. cbn [fst snd].
  unfold Cognito.save_device_information.
  destruct (NewDeviceMetadata result) as [meta|]; [|split; reflexivity].
  rewrite bind_lift. destruct (item "DeviceKey" _); [|split; reflexivity].
  rewrite bind_update, bind_lift. destruct (item "DeviceGroupKey" _); split; reflexivity.
Qed.

(** C8, the failing step: after a forced password change the service
    returns tokens whose [token_use] claim is neither ["id"] nor
    ["access"] and whose signature does not verify.  [verify_token]
    refuses them and the sign-in path [authenticate] leaves the session
    without tokens, but [new_password_challenge] stores both. *)
Theorem new_password_challenge_skips_verification :
  let fresh := MockTokens.session None None MockTokens.forced_change in
  let after :=
    Cognito.new_password_challenge (platform := Mock.platform)
      "pw" "new" [x03]%list (fresh, []%list) in
  fst after = Ok tt /\
  Cognito.id_token (fst (snd after)) = Some "forged" /\
  Cognito.access_token (fst (snd after)) = Some "forged" /\
  fst (Cognito.verify_token (token_platform := MockTokens.rejecting)
         "forged" "id_token" "id" (fresh, []%list)) =
    Raise (TokenVerificationException "Your {} token use could not be verified.") /\
  (let sign_in :=
     Cognito.authenticate (platform := Mock.platform) (token_platform := MockTokens.rejecting)
       "pw" [x03]%list (MockTokens.session None None MockTokens.plain_sign_in, []%list) in
   fst sign_in =
     Raise (TokenVerificationException "Your {} token use could not be verified.") /\
   Cognito.id_token (fst (snd sign_in)) = None /\
   Cognito.access_token (fst (snd sign_in)) = None).
Proof. vm_compute. repeat split; reflexivity. Qed.

(** ** Device enrolment *)

Lemma fromhex_total s :
  is_hex_string s = true -> Z.even (len s) = true -> exists bs, fromhex s = Ok bs.
Proof.
  intros Hs He. destruct (len_even_half s He) as [n Hn].
  destruct (fromhex_opt_pairs n s Hn Hs) as (bs & E & _).
  exists bs. unfold fromhex. now rewrite E.
Qed.

Lemma pad_hex_int_total r :
  0 <= r ->
  exists s bs, pad_hex (PyInt r) = Ok s /\ is_hex_string s = true /\
               Z.even (len s) = true /\ fromhex s = Ok bs.
Proof.
  intros Hr.
  destruct (pad_hex_int_sign_clear r Hr) as (s & b & rest & Es & He & Eb & _).
  exists s, (b :: rest)%list. repeat split; try assumption.
  rewrite (pad_hex_int_rule r Hr) in Es. injection Es as <-.
  pose proof (is_lower_hex_is_hex _ (long_to_hex_lower r Hr)) as Hlow.
  destruct (Z.odd _); [|destruct (starts_high _)];
    rewrite ?append_cons, ?append_nil; cbn [is_hex_string]; rewrite ?Hlow; reflexivity.
Qed.

Lemma even_add a b : Z.even a = true -> Z.even b = true -> Z.even (a + b) = true.
Proof. intros Ha Hb. rewrite Z.even_add, Ha, Hb. reflexivity. Qed.

Section enrolment.
Context {platform : Platform}.

Lemma hash_sha256_even buf : Z.even (len (hash_sha256 buf)) = true.
Proof.
  rewrite hash_sha256_len. apply Z.even_spec.
  destruct (Z.max_spec 64 (2 * Z.of_nat (List.length (sha256 buf)))) as [[_ ->] | [_ ->]].
  - eexists. reflexivity.
  - exists 32. reflexivity.
Qed.

(** With sixteen random bytes the verifier generator always returns, and
    the device password is the base-64 text of the forty random bytes. *)
Lemma generate_hash_device_total device_group_key device_key urandom40 urandom16 :
  urandom16 <> []%list ->
  exists config,
    AWSSRP.generate_hash_device device_group_key device_key urandom40 urandom16 =
    Ok (decode (standard_b64encode urandom40), config).
Proof.
  intros Hne. unfold AWSSRP.generate_hash_device.
  destruct (get_random_total urandom16 Hne) as (r & -> & Hr). cbn [Py.bind].
  destruct (pad_hex_int_total r Hr) as (salt & salt_bytes & -> & Hsalt & Esalt & Hsb).
  cbn [Py.bind]. unfold hex_hash at 1.
  match goal with
  | |- context [fromhex (salt ++ ?h)] =>
      destruct (fromhex_total (salt ++ h)) as [xb ->];
        [rewrite is_hex_string_app, Hsalt, hash_sha256_hex; reflexivity
        |rewrite len_append; apply even_add; [exact Esalt | apply hash_sha256_even] |]
  end.
  cbn [Py.bind].
  destruct (hash_sha256_parses xb) as (x & -> & Hx). cbn [Py.bind].
  rewrite g_hex_value, n_hex_value. cbn [Py.bind].
  destruct (pad_hex_int_total (Py.pow 2 x N)) as (v & vb & Ev & _ & _ & Evb).
  { apply pow_range; [exact Hx | exact N_positive]. }
  rewrite Ev. cbn [Py.bind]. rewrite Evb. cbn [Py.bind].
  rewrite Hsb. cbn [Py.bind]. eexists. reflexivity.
Qed.

(** C9: [register_device] raises its own error, before any call and
    without touching the session, exactly when the device group key is
    unset or the device password is set.  Otherwise it generates the
    device password, stores it, calls the service, and returns the
    password when both calls succeed; a second call then raises the
    error. *)
Theorem register_device_guard (self : Cognito.t) log device_name remember_device
    urandom40 urandom16 :
  List.length urandom16 = 16%nat ->
  let run := Cognito.register_device device_name remember_device urandom40 urandom16
               (self, log) in
  (Cognito.can_register_device self = false <->
   Cognito.device_group_key self = None \/ is_Some (Cognito.device_password self)) /\
  (Cognito.can_register_device self = false -> run = (Raise disallowed, (self, log))) /\
  (Cognito.can_register_device self = true ->
   let device_password := decode (standard_b64encode urandom40) in
   exists config,
     AWSSRP.generate_hash_device (Cognito.device_group_key self) (Cognito.device_key self)
       urandom40 urandom16 = Ok (device_password, config) /\
     let self' := Cognito.set_device_password (Some device_password) self in
     let confirm := confirm_device (Cognito.access_token self) (Cognito.device_key self)
                      config device_name in
     let remember := update_device_status (Cognito.access_token self)
                       (Cognito.device_key self)
                       (if remember_device then "remembered" else "not_remembered") in
     fst (snd run) = self' /\
     Cognito.device_password self' = Some device_password /\
     (exists rest, snd (snd run) = (log ++ confirm :: rest)%list) /\
     (is_ok (Cognito.client self log confirm) = true ->
      is_ok (Cognito.client self (log ++ [confirm])%list remember) = true ->
      run = (Ok device_password, (self', (log ++ [confirm; remember])%list))) /\
     (forall name' remember' urandom40' urandom16',
        Cognito.register_device name' remember' urandom40' urandom16' (snd run) =
        (Raise disallowed, snd run))).
Proof.
  intros Hlen run.
  assert (Hguard : forall name remember u40 u16 s,
            Cognito.can_register_device (fst s) = false ->
            Cognito.register_device name remember u40 u16 s = (Raise disallowed, s)).
  { intros name remember u40 u16 s Hno. unfold Cognito.register_device.
    rewrite bind_get_self, Hno. reflexivity. }
  split; [|split].
  - unfold Cognito.can_register_device.
    destruct (Cognito.device_group_key self), (Cognito.device_password self);
      split; intros H;
      first [ reflexivity | discriminate H | left; reflexivity
            | right; eexists; reflexivity
            | destruct H as [H | [? H]]; discriminate H ].
  - intros Hno. apply (Hguard _ _ _ _ (self, log) Hno).
  - intros Hyes device_password.
    destruct (generate_hash_device_total (Cognito.device_group_key self)
                (Cognito.device_key self) urandom40 urandom16) as [config Egen].
    { intros ->. discriminate Hlen. }
    exists config. split; [exact Egen|]. intros self' confirm remember.
    assert (Erun : run =
      match Cognito.client self log confirm with
      | Ok _ =>
          match Cognito.client self (log ++ [confirm])%list remember with
          | Ok _ => (Ok device_password, (self', ((log ++ [confirm]) ++ [remember])%list))
          | Raise e => (Raise e, (self', ((log ++ [confirm]) ++ [remember])%list))
          end
      | Raise e => (Raise e, (self', (log ++ [confirm])%list))
      end).
    { unfold run, Cognito.register_device.
      rewrite bind_get_self. cbn [fst]. rewrite Hyes. cbn [negb].
      rewrite bind_lift, Egen. cbn [fst snd]. rewrite bind_update, bind_run_io.
      cbn [fst snd]. unfold call at 1. fold confirm.
      destruct (Cognito.client self log confirm); [|reflexivity].
      rewrite bind_run_io. cbn [fst snd]. unfold call. fold remember.
      destruct (Cognito.client self (log ++ [confirm])%list remember); reflexivity. }
    assert (Hself : fst (snd run) = self').
    { rewrite Erun. destruct (Cognito.client self log confirm); [|reflexivity].
      destruct (Cognito.client self _ remember); reflexivity. }
    split; [exact Hself|]. split; [reflexivity|]. split; [|split].
    + rewrite Erun. destruct (Cognito.client self log confirm).
      * exists [remember]%list. rewrite <- app_assoc.
        destruct (Cognito.client self _ remember); reflexivity.
      * exists []%list. reflexivity.
    + intros H1 H2. rewrite Erun.
      destruct (Cognito.client self log confirm); [|discriminate].
      destruct (Cognito.client self _ remember); [|discriminate].
      rewrite <- app_assoc. reflexivity.
    + intros name' remember' u40 u16. apply Hguard. rewrite Hself.
      unfold self', Cognito.can_register_device. cbn.
      destruct (Cognito.device_group_key self); reflexivity.
Qed.

End enrolment.

Lemma register_device_guard_witness :
  let enrolled_never := (MockTokens.session None None Mock.silent, []%list) in
  let ready := (MockTokens.session (Some "grp-1") None Mock.silent, []%list) in
  let run :=
    Cognito.register_device (platform := Mock.platform) "phone" true
      (encode "forty random bytes") (repeat x07 16) ready in
  fst (Cognito.register_device (platform := Mock.platform) "phone" true
         (encode "forty random bytes") (repeat x07 16) enrolled_never) = Raise disallowed /\
  fst run = Ok "forty random bytes" /\
  Cognito.device_password (fst (snd run)) = Some "forty random bytes" /\
  fst (Cognito.register_device (platform := Mock.platform) "phone" true
         (encode "other random bytes") (repeat x08 16) (snd run)) = Raise disallowed.
Proof.
  intros enrolled_never ready run.
  destruct (register_device_guard (platform := Mock.platform)
              (MockTokens.session None None Mock.silent) []%list "phone" true
              (encode "forty random bytes") (repeat x07 16) eq_refl) as (_ & Hno & _).
  destruct (register_device_guard (platform := Mock.platform)
              (MockTokens.session (Some "grp-1") None Mock.silent) []%list "phone" true
              (encode "forty random bytes") (repeat x07 16) eq_refl) as (_ & _ & Hyes).
  destruct (Hyes eq_refl) as (config & _ & Hself & Hpw & _ & Hok & Hsecond).
  split; [|split; [|split]].
  - unfold enrolled_never. rewrite (Hno eq_refl). reflexivity.
  - unfold run, ready. rewrite (Hok eq_refl eq_refl). reflexivity.
  - unfold run, ready. rewrite Hself. exact Hpw.
  - unfold run, ready. rewrite Hsecond. reflexivity.
Defined.

(** ** Hex strings as numbers *)

Lemma hex_to_long_acc_app s1 : forall s2 acc,
  hex_to_long_acc (s1 ++ s2) acc =
  match hex_to_long_acc s1 acc with
  | Some n => hex_to_long_acc s2 n
  | None => None
  end.
Proof.
  induction s1 as [|c s1 IH]; intros s2 acc; [reflexivity|].
  rewrite append_cons. cbn [hex_to_long_acc].
  destruct (hex_val c); [apply IH | reflexivity].
Qed.

Lemma hex_to_long_acc_hex_of_byte b acc :
  hex_to_long_acc (hex_of_byte b) acc = Some (256 * acc + byte_val b).
Proof.
  unfold hex_of_byte. fold (byte_val b). pose proof (byte_val_range b) as Hb.
  cbn [hex_to_long_acc].
  rewrite !hex_val_hex_digit.
  - f_equal. pose proof (Z.div_mod (byte_val b) 16). lia.
  - apply Z.mod_pos_bound. lia.
  - split; [apply Z.div_pos; lia | apply Z.div_lt_upper_bound; lia].
Qed.

Lemma hex_to_long_acc_hexlify data : forall acc,
  hex_to_long_acc (hexlify data) acc =
  Some (fold_left (fun a b => 256 * a + byte_val b) data acc).
Proof.
  induction data as [|b data IH]; intros acc; [reflexivity|].
  cbn [hexlify fold_left]. rewrite hex_to_long_acc_app, hex_to_long_acc_hex_of_byte.
  apply IH.
Qed.

Lemma fold_be_bound data : forall acc,
  0 <= acc ->
  0 <= fold_left (fun a b => 256 * a + byte_val b) data acc
    < (acc + 1) * 256 ^ Z.of_nat (List.length data).
Proof.
  induction data as [|b data IH]; intros acc Hacc.
  - cbn. lia.
  - cbn [fold_left List.length]. pose proof (byte_val_range b) as Hb.
    destruct (IH (256 * acc + byte_val b)) as [H1 H2]; [lia|].
    split; [exact H1|].
    rewrite Nat2Z.inj_succ, Z.pow_succ_r by lia.
    assert (0 < 256 ^ Z.of_nat (List.length data)) by (apply Z.pow_pos_nonneg; lia).
    nia.
Qed.

Lemma be_value_bound data : 0 <= be_value data < 256 ^ Z.of_nat (List.length data).
Proof.
  unfold be_value. pose proof (fold_be_bound data 0 ltac:(lia)). lia.
Qed.

Lemma hex_to_long_acc_zeros k s :
  hex_to_long_acc (string_of_list_ascii (repeat "0"%char k) ++ s) 0 = hex_to_long_acc s 0.
Proof.
  induction k as [|k IH]; [reflexivity|].
  cbn [repeat string_of_list_ascii]. rewrite append_cons. exact IH.
Qed.

Lemma get_random_be urandom :
  urandom <> []%list -> get_random urandom = Ok (be_value urandom).
Proof.
  intros Hne. unfold get_random, hex_to_long.
  rewrite hex_to_long_acc_hexlify. fold (be_value urandom).
  destruct (hexlify urandom) eqn:E; [|reflexivity].
  exfalso. apply (len_nonempty (hexlify urandom)); [|exact E].
  rewrite hexlify_len. destruct urandom; [contradiction|]. cbn. lia.
Qed.

Example get_random_empty_draw : is_ok (get_random []%list) = false.
Proof. reflexivity. Qed.

(** X1: [get_random] reads the drawn bytes as one big-endian number, and
    the random secret [a] is that number for 128 bytes, below [2^1024],
    reduced modulo [N]; the draw never fails. *)
Theorem generate_random_small_a_value (urandom : list byte) :
  List.length urandom = 128%nat ->
  get_random urandom = Ok (be_value urandom) /\
  AWSSRP.generate_random_small_a N urandom = Ok (be_value urandom mod N) /\
  0 <= be_value urandom < 2 ^ 1024 /\
  0 <= be_value urandom mod N < N.
Proof.
  intros Hl.
  assert (Hne : urandom <> []%list) by (intros ->; discriminate Hl).
  pose proof (get_random_be urandom Hne) as E.
  pose proof (be_value_bound urandom) as Hb.
  unfold AWSSRP.generate_random_small_a. rewrite E.
  split; [reflexivity|]. split; [reflexivity|].
  split; [|apply Z.mod_pos_bound, N_positive].
  rewrite Hl in Hb. change (256 ^ Z.of_nat 128) with (2 ^ 1024) in Hb. exact Hb.
Qed.

Lemma generate_random_small_a_value_witness :
  AWSSRP.generate_random_small_a N (repeat x00 127 ++ [x05])%list = Ok 5.
Proof.
  destruct (generate_random_small_a_value (repeat x00 127 ++ [x05])%list eq_refl)
    as (_ & E & _ & _).
  rewrite E. vm_compute. reflexivity.
Defined.

(** ** What padding keeps *)

Lemma hex_to_long_leading_zero s :
  s <> EmptyString -> hex_to_long (String "0" s) = hex_to_long s.
Proof.
  intros Hne. unfold hex_to_long. destruct s as [|c s]; [contradiction|]. reflexivity.
Qed.

Lemma pad_hex_int_value z :
  0 <= z -> exists s, pad_hex (PyInt z) = Ok s /\ hex_to_long s = Ok z.
Proof.
  intros Hz. destruct (long_to_hex_head z Hz) as (d & rest & E & _).
  pose proof (long_to_hex_value z Hz) as Hv.
  rewrite (pad_hex_int_rule z Hz). eexists. split; [reflexivity|].
  assert (Hne : long_to_hex z <> EmptyString) by (rewrite E; discriminate).
  destruct (Z.odd _); [|destruct (starts_high _)]; rewrite ?append_cons, ?append_nil.
  - rewrite hex_to_long_leading_zero; assumption.
  - rewrite !hex_to_long_leading_zero; try assumption. discriminate.
  - exact Hv.
Qed.

(** X2: padding keeps the number: for [x >= 0], [pad_hex x] read back as
    hexadecimal is [x]; so [pad_hex] is injective on the non-negative
    integers. *)
Theorem pad_hex_keeps_value (x : Z) :
  0 <= x ->
  exists s, pad_hex (PyInt x) = Ok s /\ hex_to_long s = Ok x /\
            forall y, 0 <= y -> pad_hex (PyInt y) = Ok s -> y = x.
Proof.
  intros Hx.
  destruct (pad_hex_int_value x Hx) as (s & Es & Ev). exists s.
  repeat split; try assumption.
  intros y Hy Ey. destruct (pad_hex_int_value y Hy) as (s' & Es' & Ev').
  rewrite Ey in Es'. injection Es' as <-. rewrite Ev in Ev'. congruence.
Qed.

Lemma pad_hex_keeps_value_witness :
  exists s, pad_hex (PyInt 0x8A) = Ok s /\ hex_to_long s = Ok 0x8A /\
            forall y, 0 <= y -> pad_hex (PyInt y) = Ok s -> y = 0x8A.
Proof. exact (pad_hex_keeps_value 0x8A ltac:(lia)). Defined.

(** X3: on a string, [pad_hex] raises [IndexError] only for the empty
    string; otherwise it puts at most two zeros in front, and padding an
    already padded string changes nothing. *)
Theorem pad_hex_idempotent (s : string) :
  s <> EmptyString ->
  exists t, pad_hex (PyStr s) = Ok t /\
            (t = s \/ t = "0" ++ s \/ t = "00" ++ s) /\
            pad_hex (PyStr t) = Ok t.
Proof.
  intros Hne. rewrite pad_hex_rule.
  destruct (Z.odd (len s)) eqn:Eodd.
  - exists ("0" ++ s). split; [reflexivity|]. split; [tauto|].
    rewrite pad_hex_rule, append_cons, append_nil, len_cons, Z.add_1_r, Z.odd_succ.
    rewrite <- Z.negb_odd, Eodd. reflexivity.
  - destruct s as [|c s']; [contradiction|]. cbn [starts_high].
    destruct (in_str c "89ABCDEFabcdef") eqn:Ehigh.
    + exists ("00" ++ String c s'). split; [reflexivity|]. split; [tauto|].
      rewrite pad_hex_rule, !append_cons, append_nil.
      assert (Z.odd (len (String "0" (String "0" (String c s')))) = false) as ->.
      { rewrite (len_cons "0"), (len_cons "0").
        replace (len (String c s') + 1 + 1) with (Z.succ (Z.succ (len (String c s'))))
          by lia.
        rewrite Z.odd_succ_succ. exact Eodd. }
      reflexivity.
    + exists (String c s'). split; [reflexivity|]. split; [tauto|].
      rewrite pad_hex_rule, Eodd. cbn [starts_high]. rewrite Ehigh. reflexivity.
Qed.

Lemma pad_hex_idempotent_witness :
  exists t, pad_hex (PyStr "8a") = Ok t /\
            (t = "8a" \/ t = "0" ++ "8a" \/ t = "00" ++ "8a") /\
            pad_hex (PyStr t) = Ok t.
Proof. exact (pad_hex_idempotent "8a" ltac:(discriminate)). Defined.

(** ** Digests as hex strings and as numbers *)

Lemma is_lower_hex_app s1 s2 :
  is_lower_hex (s1 ++ s2) = is_lower_hex s1 && is_lower_hex s2.
Proof.
  induction s1 as [|c s1 IH]; [reflexivity|].
  rewrite append_cons. cbn [is_lower_hex]. rewrite IH. apply andb_assoc.
Qed.

Lemma hexlify_lower data : is_lower_hex (hexlify data) = true.
Proof.
  induction data as [|b data IH]; [reflexivity|].
  cbn [hexlify]. rewrite is_lower_hex_app, IH, andb_true_r.
  unfold hex_of_byte. fold (byte_val b). pose proof (byte_val_range b) as Hb.
  cbn [is_lower_hex]. rewrite !hex_digit_lower; [reflexivity | |].
  - apply Z.mod_pos_bound. lia.
  - split; [apply Z.div_pos; lia | apply Z.div_lt_upper_bound; lia].
Qed.

Lemma zeros_lower n : is_lower_hex (zeros n) = true.
Proof.
  unfold zeros. induction (Z.to_nat n) as [|k IH]; [reflexivity|].
  cbn [repeat string_of_list_ascii is_lower_hex]. exact IH.
Qed.

Lemma fromhex_opt_prefix n : forall p s,
  String.length p = (2 * n)%nat -> is_hex_string p = true ->
  exists bs, fromhex_opt p = Some bs /\
             fromhex_opt (p ++ s) =
             match fromhex_opt s with
             | Some rest => Some (bs ++ rest)%list
             | None => None
             end.
Proof.
  induction n as [|n IH]; intros p s Hl Hp.
  - destruct p; [|discriminate]. exists []%list. split; [reflexivity|].
    rewrite append_nil. destruct (fromhex_opt s); reflexivity.
  - destruct p as [|c [|d p]]; try (cbn in Hl; lia).
    cbn [is_hex_string] in Hp. apply andb_prop in Hp as [Hc Hp].
    apply andb_prop in Hp as [Hd Hp]. unfold is_hex_char in Hc, Hd.
    destruct (hex_val c) as [hi|] eqn:Ec; [|discriminate].
    destruct (hex_val d) as [lo|] eqn:Ed; [|discriminate].
    destruct (IH p s) as (bs & Ebs & Eapp); [cbn in Hl; lia | exact Hp |].
    exists (byte_of_nibbles hi lo :: bs)%list.
    rewrite !append_cons. cbn [fromhex_opt].
    rewrite (hex_val_not_space _ _ Ec), Ec, Ed, Ebs, Eapp.
    split; [reflexivity|]. destruct (fromhex_opt s); reflexivity.
Qed.

Section digests_as_numbers.
Context {platform : Platform}.

Lemma hash_sha256_value buf : hex_to_long (hash_sha256 buf) = Ok (be_value (sha256 buf)).
Proof.
  destruct (hash_sha256_parses buf) as (n & E & _). rewrite E. f_equal.
  unfold hex_to_long in E. destruct (hash_sha256 buf) eqn:Eh; [discriminate|].
  rewrite <- Eh in E. unfold hash_sha256, zeros in E.
  rewrite hex_to_long_acc_zeros, hex_to_long_acc_hexlify in E.
  injection E as <-. reflexivity.
Qed.

(** X4: [hash_sha256] returns lowercase hex digits, at least 64 of them
    and exactly 64 for a digest of at most 32 bytes; the zeros it puts in
    front never change the number: read back, the string is the digest as
    a big-endian number. *)
Theorem hash_sha256_shape (buf : list byte) :
  is_lower_hex (hash_sha256 buf) = true /\
  len (hash_sha256 buf) = Z.max 64 (2 * Z.of_nat (List.length (sha256 buf))) /\
  ((List.length (sha256 buf) <= 32)%nat -> len (hash_sha256 buf) = 64) /\
  hex_to_long (hash_sha256 buf) = Ok (be_value (sha256 buf)).
Proof.
  split; [|split; [|split]].
  - unfold hash_sha256. now rewrite is_lower_hex_app, zeros_lower, hexlify_lower.
  - apply hash_sha256_len.
  - intros Hl. rewrite hash_sha256_len. lia.
  - apply hash_sha256_value.
Qed.

(** X5: for non-negative [A] and [B], [calculate_u] never raises: it is
    the SHA-256 digest of the bytes of [pad_hex A] followed by [pad_hex
    B], read as a big-endian number. *)
Theorem calculate_u_value (big_a big_b : Z) :
  0 <= big_a -> 0 <= big_b ->
  exists pa pb data,
    pad_hex (PyInt big_a) = Ok pa /\ pad_hex (PyInt big_b) = Ok pb /\
    fromhex (pa ++ pb) = Ok data /\
    calculate_u big_a big_b = Ok (be_value (sha256 data)) /\
    0 <= be_value (sha256 data).
Proof.
  intros Ha Hb.
  destruct (pad_hex_int_total big_a Ha) as (pa & _ & Epa & Hpa & Lpa & _).
  destruct (pad_hex_int_total big_b Hb) as (pb & _ & Epb & Hpb & Lpb & _).
  destruct (fromhex_total (pa ++ pb)) as [data Edata].
  { now rewrite is_hex_string_app, Hpa, Hpb. }
  { rewrite len_append. apply even_add; assumption. }
  exists pa, pb, data. repeat split; try assumption.
  - unfold calculate_u, hex_hash. rewrite Epa, Epb. cbn [Py.bind].
    rewrite Edata. cbn [Py.bind]. apply hash_sha256_value.
  - apply be_value_bound.
Qed.

End digests_as_numbers.

Lemma hash_sha256_shape_witness :
  len (hash_sha256 (platform := Mock.platform) []%list) = 64.
Proof.
  exact (proj1 (proj2 (proj2 (hash_sha256_shape (platform := Mock.platform) []%list)))
           ltac:(cbn; lia)).
Defined.

Lemma calculate_u_value_witness :
  calculate_u (platform := Mock.platform) 8 5 = Ok 1.
Proof.
  destruct (calculate_u_value (platform := Mock.platform) 8 5 ltac:(lia) ltac:(lia))
    as (pa & pb & data & _ & _ & _ & E & _).
  rewrite E. reflexivity.
Defined.

(** ** The client and the server agree on the secret *)

Lemma pow_pow_mod g b e n :
  0 <= b -> 0 <= e -> 0 < n -> ((g ^ b mod n) ^ e) mod n = g ^ (b * e) mod n.
Proof.
  intros Hb He Hn. rewrite <- Zpower_mod by exact Hn.
  rewrite Z.pow_mul_r by assumption. reflexivity.
Qed.

(** X6: key agreement.  When the server's value is [B = k*v + g^b mod N]
    for the verifier [v = g^x mod N] and a server secret [b], the secret
    the client computes from [B] is the one the server computes from the
    client's [A]: [(A * v^u)^b mod N]. *)
Theorem client_server_secret_agree (self : AWSSRP.t) (b u x : Z) :
  0 < AWSSRP.big_n self ->
  0 <= AWSSRP.small_a_value self -> 0 <= b -> 0 <= u -> 0 <= x ->
  AWSSRP.large_a_value self =
    Py.pow (AWSSRP.g self) (AWSSRP.small_a_value self) (AWSSRP.big_n self) ->
  let n := AWSSRP.big_n self in
  let v := Py.pow (AWSSRP.g self) x n in
  let server_b_value := (AWSSRP.k self * v + Py.pow (AWSSRP.g self) b n) mod n in
  AWSSRP.s_value self server_b_value u x =
  Py.pow (AWSSRP.large_a_value self * Py.pow v u n) b n.
Proof.
  intros Hn Ha Hb Hu Hx HA n v server_b_value.
  subst server_b_value v n. unfold AWSSRP.s_value. rewrite HA.
  set (n := AWSSRP.big_n self) in *. set (g := AWSSRP.g self) in *.
  set (k := AWSSRP.k self) in *. set (a := AWSSRP.small_a_value self) in *.
  rewrite !pow_spec by nia.
  assert (Hbase : (((k * (g ^ x mod n) + g ^ b mod n) mod n - k * (g ^ x mod n)) mod n)
                  = g ^ b mod n).
  { rewrite Zminus_mod, Zmod_mod, <- Zminus_mod.
    replace (k * (g ^ x mod n) + g ^ b mod n - k * (g ^ x mod n)) with (g ^ b mod n) by lia.
    apply Zmod_mod. }
  assert (Hserver : (g ^ a mod n * ((g ^ x mod n) ^ u mod n)) mod n = g ^ (a + u * x) mod n).
  { rewrite (pow_pow_mod g x u n) by nia. rewrite <- Zmult_mod.
    rewrite <- Z.pow_add_r by nia. f_equal. f_equal. lia. }
  transitivity (g ^ (b * (a + u * x)) mod n).
  - rewrite Zpower_mod by exact Hn. rewrite Hbase. apply pow_pow_mod; nia.
  - symmetry. rewrite Zpower_mod by exact Hn. rewrite Hserver.
    rewrite pow_pow_mod by nia. f_equal. f_equal. lia.
Qed.

Lemma client_server_secret_agree_witness :
  let self := Mock.srp "us-east-1_abc" None None Mock.silent in
  AWSSRP.s_value self ((1 * Py.pow 2 1 N + Py.pow 2 7 N) mod N) 1 1 =
  Py.pow (8 * Py.pow (Py.pow 2 1 N) 1 N) 7 N.
Proof.
  intros self.
  exact (client_server_secret_agree self 7 1 1 N_positive
           ltac:(cbn; lia) ltac:(lia) ltac:(lia) ltac:(lia) eq_refl).
Defined.

(** ** The key material of the two derivations *)

(** Decoded pairs of digits and the digits read as one number agree. *)
Lemma fromhex_opt_value n : forall s acc,
  String.length s = (2 * n)%nat -> is_hex_string s = true ->
  exists bs, fromhex_opt s = Some bs /\
             hex_to_long_acc s acc =
             Some (fold_left (fun a b => 256 * a + byte_val b) bs acc).
Proof.
  induction n as [|n IH]; intros s acc Hl Hs.
  - destruct s; [|discriminate]. exists []%list. split; reflexivity.
  - destruct s as [|c [|d s]]; try (cbn in Hl; lia).
    cbn [is_hex_string] in Hs. apply andb_prop in Hs as [Hc Hs].
    apply andb_prop in Hs as [Hd Hs]. unfold is_hex_char in Hc, Hd.
    destruct (hex_val c) as [hi|] eqn:Ec; [|discriminate].
    destruct (hex_val d) as [lo|] eqn:Ed; [|discriminate].
    destruct (IH s (16 * (16 * acc + hi) + lo)) as (bs & Ebs & Ev);
      [cbn in Hl; lia | exact Hs |].
    exists (byte_of_nibbles hi lo :: bs)%list.
    cbn [fromhex_opt hex_to_long_acc fold_left].
    rewrite (hex_val_not_space _ _ Ec), Ec, Ed, Ebs, Ev.
    split; [reflexivity|].
    rewrite byte_of_nibbles_val by (eapply hex_val_range; eassumption).
    do 2 f_equal. lia.
Qed.

Lemma fromhex_value s n :
  is_hex_string s = true -> Z.even (len s) = true -> hex_to_long s = Ok n ->
  exists bs, fromhex s = Ok bs /\ be_value bs = n.
Proof.
  intros Hs He Hn. destruct (len_even_half s He) as [m Hm].
  destruct (fromhex_opt_value m s 0 Hm Hs) as (bs & Ebs & Ev).
  exists bs. unfold fromhex. rewrite Ebs. split; [reflexivity|].
  unfold hex_to_long in Hn. destruct s; [discriminate|].
  rewrite Ev in Hn. injection Hn as <-. reflexivity.
Qed.

(** The bytes of a padded non-negative number denote that number. *)
Lemma pad_hex_int_bytes r :
  0 <= r ->
  exists s bs, pad_hex (PyInt r) = Ok s /\ fromhex s = Ok bs /\ be_value bs = r.
Proof.
  intros Hr.
  destruct (pad_hex_int_total r Hr) as (s & _ & Es & Hs & He & _).
  destruct (pad_hex_int_value r Hr) as (s' & Es' & Ev).
  rewrite Es in Es'. injection Es' as <-.
  destruct (fromhex_value s r Hs He Ev) as (bs & Ebs & Hv).
  now exists s, bs.
Qed.

Lemma pad_hex_str_total salt :
  salt <> EmptyString -> is_hex_string salt = true ->
  exists t, pad_hex (PyStr salt) = Ok t /\ is_hex_string t = true /\
            Z.even (len t) = true.
Proof.
  intros Hne Hs. rewrite pad_hex_rule.
  destruct (Z.odd (len salt)) eqn:Eodd.
  - eexists. split; [reflexivity|]. rewrite append_cons, append_nil. split.
    + cbn [is_hex_string]. rewrite Hs. reflexivity.
    + rewrite len_cons, Z.even_add, <- Z.negb_odd, Eodd. reflexivity.
  - destruct salt as [|c salt]; [contradiction|].
    assert (Hev : Z.even (len (String c salt)) = true)
      by (rewrite <- Z.negb_odd, Eodd; reflexivity).
    eexists. split; [reflexivity|].
    destruct (starts_high _).
    + rewrite !append_cons, append_nil. split.
      * cbn [is_hex_string] in Hs |- *. rewrite Hs. reflexivity.
      * rewrite len_cons, len_cons, Z.even_add, Z.even_add.
        rewrite Hev. reflexivity.
    + split; assumption.
Qed.

Section key_material.
Context {platform : Platform}.

Lemma x_value_of_total salt up :
  salt <> EmptyString -> is_hex_string salt = true ->
  exists x, AWSSRP.x_value_of salt up = Ok x /\ 0 <= x.
Proof.
  intros Hne Hs. destruct (pad_hex_str_total salt Hne Hs) as (t & Et & Ht & He).
  unfold AWSSRP.x_value_of. rewrite Et. cbn [Py.bind]. unfold hex_hash.
  match goal with
  | |- context [fromhex (t ++ ?h)] =>
      destruct (fromhex_total (t ++ h)) as [xb ->];
        [rewrite is_hex_string_app, Ht, hash_sha256_hex; reflexivity
        |rewrite len_append; apply even_add; [exact He | apply hash_sha256_even] |]
  end.
  cbn [Py.bind]. rewrite hash_sha256_value. eexists. split; [reflexivity|].
  apply be_value_bound.
Qed.

Lemma hkdf_of_total s u :
  0 <= s -> 0 <= u ->
  exists ikm salt,
    AWSSRP.hkdf_of s u = Ok (compute_hkdf ikm salt) /\
    be_value ikm = s /\ be_value salt = u.
Proof.
  intros Hs Hu.
  destruct (pad_hex_int_bytes s Hs) as (hs & ikm & Ehs & Eikm & Vikm).
  destruct (pad_hex_int_bytes u Hu) as (hu & salt & Ehu & Esalt & Vsalt).
  exists ikm, salt. unfold AWSSRP.hkdf_of. rewrite Ehs. cbn [Py.bind].
  rewrite Eikm. cbn [Py.bind].
  change (pad_hex (PyStr (long_to_hex u))) with (pad_hex (PyInt u)).
  rewrite Ehu. cbn [Py.bind]. rewrite Esalt. cbn [Py.bind]. auto.
Qed.

Lemma compute_hkdf_length ikm salt : (List.length (compute_hkdf ikm salt) <= 16)%nat.
Proof. unfold compute_hkdf. rewrite length_take. lia. Qed.

(** X7: the password key.  For a pool id with an underscore, a non-empty
    hexadecimal salt and non-negative [A] and [B], the derivation raises
    only the error of a zero [U]; otherwise it returns the HKDF of two
    byte strings that denote the shared secret [S] and [U], at most 16
    bytes long. *)
Theorem password_key_derivation (self : AWSSRP.t) (username password salt rest : string)
    (B : Z) :
  0 < AWSSRP.big_n self -> 0 <= AWSSRP.small_a_value self ->
  0 <= AWSSRP.large_a_value self -> 0 <= B ->
  after_first "_" (AWSSRP.pool_id self) = Some rest ->
  salt <> EmptyString -> is_hex_string salt = true ->
  exists u,
    calculate_u (AWSSRP.large_a_value self) B = Ok u /\ 0 <= u /\
    (u = 0 ->
     AWSSRP.get_password_authentication_key self username password B salt =
     Raise (ValueError "U cannot be zero.")) /\
    (u <> 0 ->
     exists x ikm u_bytes,
       AWSSRP.x_value_of salt (up_to "_" rest ++ username ++ ":" ++ password) = Ok x /\
       be_value ikm = AWSSRP.s_value self B u x /\
       be_value u_bytes = u /\
       AWSSRP.get_password_authentication_key self username password B salt =
       Ok (compute_hkdf ikm u_bytes) /\
       (List.length (compute_hkdf ikm u_bytes) <= 16)%nat).
Proof.
  intros Hn Ha HA HB Hpool Hne Hsalt.
  assert (Hu : exists u, calculate_u (AWSSRP.large_a_value self) B = Ok u /\ 0 <= u).
  { destruct (pad_hex_int_total _ HA) as (pa & _ & Epa & Hpa & Lpa & _).
    destruct (pad_hex_int_total _ HB) as (pb & _ & Epb & Hpb & Lpb & _).
    destruct (fromhex_total (pa ++ pb)) as [data Edata].
    { now rewrite is_hex_string_app, Hpa, Hpb. }
    { rewrite len_append. apply even_add; assumption. }
    exists (be_value (sha256 data)). split; [|apply be_value_bound].
    unfold calculate_u, hex_hash. rewrite Epa, Epb. cbn [Py.bind].
    rewrite Edata. cbn [Py.bind]. apply hash_sha256_value. }
  destruct Hu as (u & Eu & Hu). exists u. split; [exact Eu|]. split; [exact Hu|].
  unfold AWSSRP.get_password_authentication_key. rewrite Eu. cbn [Py.bind]. split.
  - intros ->. reflexivity.
  - intros Hnz. apply Z.eqb_neq in Hnz. rewrite Hnz.
    unfold AWSSRP.username_password. rewrite split_second, Hpool. cbn [Py.bind].
    destruct (x_value_of_total salt (up_to "_" rest ++ username ++ ":" ++ password)
                Hne Hsalt) as (x & Ex & Hx).
    rewrite Ex. cbn [Py.bind].
    destruct (hkdf_of_total (AWSSRP.s_value self B u x) u) as (ikm & ub & Ek & Vi & Vu).
    { unfold AWSSRP.s_value. apply pow_range; [nia | exact Hn]. }
    { exact Hu. }
    exists x, ikm, ub. repeat split; try assumption. apply compute_hkdf_length.
Qed.

(** X8: the device key needs no pool id and no device data: for a
    non-empty hexadecimal salt, non-negative [A] and [B] and a non-zero
    [U] it always returns, a missing group key, device key or password
    being hashed as the text [None]. *)
Theorem device_key_derivation (self : AWSSRP.t)
    (device_group_key device_key device_password : option string)
    (salt : string) (B u : Z) :
  0 < AWSSRP.big_n self -> 0 <= AWSSRP.small_a_value self ->
  calculate_u (AWSSRP.large_a_value self) B = Ok u -> u <> 0 ->
  salt <> EmptyString -> is_hex_string salt = true ->
  exists x ikm u_bytes,
    AWSSRP.x_value_of salt
      (fmt_s device_group_key ++ fmt_s device_key ++ ":" ++ fmt_s device_password) = Ok x /\
    be_value ikm = AWSSRP.s_value self B u x /\
    be_value u_bytes = u /\
    AWSSRP.get_device_authentication_key self device_group_key device_key
      device_password B salt = Ok (compute_hkdf ikm u_bytes) /\
    (device_group_key = None -> device_key = None -> device_password = None ->
     AWSSRP.x_value_of salt "NoneNone:None" = Ok x).
Proof.
  intros Hn Ha Eu Hnz Hne Hsalt.
  pose proof (calculate_u_nonneg _ _ _ Eu) as Hu.
  destruct (x_value_of_total salt
              (fmt_s device_group_key ++ fmt_s device_key ++ ":" ++ fmt_s device_password)
              Hne Hsalt) as (x & Ex & Hx).
  destruct (hkdf_of_total (AWSSRP.s_value self B u x) u) as (ikm & ub & Ek & Vi & Vu).
  { unfold AWSSRP.s_value. apply pow_range; [nia | exact Hn]. }
  { exact Hu. }
  exists x, ikm, ub. repeat split; try assumption.
  - unfold AWSSRP.get_device_authentication_key. rewrite Eu. cbn [Py.bind].
    apply Z.eqb_neq in Hnz. rewrite Hnz, Ex. cbn [Py.bind]. exact Ek.
  - intros -> -> ->. exact Ex.
Qed.

End key_material.

Lemma password_key_derivation_witness :
  exists key,
    AWSSRP.get_password_authentication_key (platform := Mock.platform)
      (Mock.srp "us-east-1_abc" None None Mock.silent) "u-123" "pw" 5 "ab" = Ok key /\
    (List.length key <= 16)%nat.
Proof.
  destruct (password_key_derivation (platform := Mock.platform)
              (Mock.srp "us-east-1_abc" None None Mock.silent) "u-123" "pw" "ab" "abc" 5
              N_positive ltac:(cbn; lia) ltac:(cbn; lia) ltac:(lia) eq_refl
              ltac:(discriminate) eq_refl)
    as (u & Eu & _ & _ & Hgo).
  assert (Hnz : u <> 0).
  { intros ->. vm_compute in Eu. discriminate Eu. }
  destruct (Hgo Hnz) as (x & ikm & ub & _ & _ & _ & E & Hl).
  exists (compute_hkdf (platform := Mock.platform) ikm ub). split; assumption.
Defined.

Lemma device_key_derivation_witness :
  exists key,
    AWSSRP.get_device_authentication_key (platform := Mock.platform)
      (Mock.srp "us-east-1_abc" None None Mock.silent) None None None 5 "ab" = Ok key.
Proof.
  destruct (device_key_derivation (platform := Mock.platform)
              (Mock.srp "us-east-1_abc" None None Mock.silent) None None None "ab" 5 1
              N_positive ltac:(cbn; lia) ltac:(vm_compute; reflexivity) ltac:(lia)
              ltac:(discriminate) eq_refl)
    as (x & ikm & ub & _ & _ & _ & E & _).
  exists (compute_hkdf (platform := Mock.platform) ikm ub). exact E.
Defined.

(** ** The rest of the exchange *)

Section exchange.
Context {platform : Platform}.

(** X9: the parameters every exchange opens with: the session's user
    name, [A] in hexadecimal without padding (it reads back as [A]), a
    secret hash exactly when a client secret is configured, a device key
    exactly when the session has one, and nothing else. *)
Theorem auth_params_fields (self : AWSSRP.t) :
  0 <= AWSSRP.large_a_value self ->
  let auth_params := AWSSRP.get_auth_params self in
  auth_params !! "USERNAME" = Some (AWSSRP.username self) /\
  auth_params !! "SRP_A" = Some (long_to_hex (AWSSRP.large_a_value self)) /\
  hex_to_long (long_to_hex (AWSSRP.large_a_value self)) = Ok (AWSSRP.large_a_value self) /\
  auth_params !! "SECRET_HASH" =
    (AWSSRP.get_secret_hash (AWSSRP.username self) (AWSSRP.client_id self))
      <$> AWSSRP.client_secret self /\
  auth_params !! "DEVICE_KEY" = AWSSRP.device_key self /\
  forall key, is_Some (auth_params !! key) ->
              key ∈ ["USERNAME"; "SRP_A"; "SECRET_HASH"; "DEVICE_KEY"].
Proof.
  intros HA auth_params. subst auth_params. unfold AWSSRP.get_auth_params.
  split; [|split; [|split; [|split; [|split]]]].
  - destruct (AWSSRP.client_secret self), (AWSSRP.device_key self);
      repeat (rewrite lookup_insert_ne by discriminate); apply lookup_insert_eq.
  - destruct (AWSSRP.client_secret self), (AWSSRP.device_key self);
      repeat (rewrite lookup_insert_ne by discriminate); apply lookup_insert_eq.
  - apply long_to_hex_value, HA.
  - destruct (AWSSRP.client_secret self), (AWSSRP.device_key self); cbn [fmap option_fmap option_map];
      repeat (rewrite lookup_insert_ne by discriminate);
      rewrite ?lookup_insert_eq; try reflexivity.
  - destruct (AWSSRP.client_secret self), (AWSSRP.device_key self);
      repeat (rewrite lookup_insert_ne by discriminate);
      rewrite ?lookup_insert_eq; try reflexivity.
  - intros key [v Hv].
    destruct (decide (key = "USERNAME")) as [->|H1]; [set_solver|].
    destruct (decide (key = "SRP_A")) as [->|H2]; [set_solver|].
    destruct (decide (key = "SECRET_HASH")) as [->|H3]; [set_solver|].
    destruct (decide (key = "DEVICE_KEY")) as [->|H4]; [set_solver|].
    exfalso.
    destruct (AWSSRP.client_secret self), (AWSSRP.device_key self);
      repeat (rewrite lookup_insert_ne in Hv by congruence);
      rewrite lookup_empty in Hv; discriminate.
Qed.


(** The two calls every entry point starts with, when the first challenge
    is [PASSWORD_VERIFIER] and its parameters can be answered. *)
Lemma first_step {B} (self : AWSSRP.t) log response
    (k : boto_response -> io B) :
  AWSSRP.client self log (first_request self) = Ok response ->
  st_bind (call (AWSSRP.client self) (first_request self)) k log =
  k response (log ++ [first_request self])%list.
Proof. intros H. rewrite bind_call, H. reflexivity. Qed.

Lemma verifier_step {B} (self : AWSSRP.t) params log cr tokens
    (k : boto_response -> io B) :
  AWSSRP.process_challenge self params log = (Ok cr, log) ->
  AWSSRP.client self log (verifier_request self cr) = Ok tokens ->
  st_bind (AWSSRP.process_challenge self params)
    (fun challenge_response =>
       st_bind (call (AWSSRP.client self)
                  (respond_to_auth_challenge (AWSSRP.client_id self)
                     AWSSRP.PASSWORD_VERIFIER_CHALLENGE None challenge_response)) k) log =
  k tokens (log ++ [verifier_request self cr])%list.
Proof.
  intros Hcr Htokens. rewrite (bind_run _ _ _ _ _ Hcr).
  change (respond_to_auth_challenge (AWSSRP.client_id self)
            AWSSRP.PASSWORD_VERIFIER_CHALLENGE None cr) with (verifier_request self cr).
  rewrite bind_call, Htokens. reflexivity.
Qed.

Lemma get_is_other (name : option string) (c : string) :
  name <> Some c -> get_is name c = false.
Proof.
  destruct name as [x|]; [|reflexivity]. intros H. cbn.
  apply String.eqb_neq. congruence.
Qed.

(** X10: a [PASSWORD_VERIFIER] challenge that lacks one of the four
    parameters makes [process_challenge] raise [KeyError] for the first
    missing one, in the order the code reads them; the exchange stops
    there, after the single opening call. *)
Theorem missing_challenge_parameter (self : AWSSRP.t) log response params key :
  AWSSRP.client self log (first_request self) = Ok response ->
  ChallengeName response = Some "PASSWORD_VERIFIER" ->
  ChallengeParameters response = Some params ->
  first_missing ["USER_ID_FOR_SRP"; "SALT"; "SRP_B"; "SECRET_BLOCK"] params = Some key ->
  (forall log', AWSSRP.process_challenge self params log' = (Raise (KeyError key), log')) /\
  AWSSRP.authenticate_user self log =
    (Raise (KeyError key), (log ++ [first_request self])%list) /\
  forall new_password,
    AWSSRP.set_new_password_challenge self new_password log =
    (Raise (KeyError key), (log ++ [first_request self])%list).
Proof.
  intros Hfirst Hname Hparams Hmiss.
  assert (Hpc : forall log',
            AWSSRP.process_challenge self params log' = (Raise (KeyError key), log')).
  { intros log'. unfold AWSSRP.process_challenge, getitem.
    cbn [first_missing] in Hmiss.
    rewrite bind_lift.
    destruct (params !! "USER_ID_FOR_SRP"); [|injection Hmiss as <-; reflexivity].
    rewrite bind_lift.
    destruct (params !! "SALT"); [|injection Hmiss as <-; reflexivity].
    rewrite bind_lift.
    destruct (params !! "SRP_B"); [|injection Hmiss as <-; reflexivity].
    rewrite bind_lift.
    destruct (params !! "SECRET_BLOCK"); [discriminate|injection Hmiss as <-; reflexivity]. }
  split; [exact Hpc|]. split.
  - unfold AWSSRP.authenticate_user. fold (first_request self).
    rewrite (first_step _ _ _ _ Hfirst), bind_lift, Hname. cbn [item].
    unfold AWSSRP.PASSWORD_VERIFIER_CHALLENGE. rewrite String.eqb_refl.
    rewrite bind_lift, Hparams. cbn [item]. unfold st_bind at 1. rewrite Hpc. reflexivity.
  - intros new_password.
    unfold AWSSRP.set_new_password_challenge. fold (first_request self).
    rewrite (first_step _ _ _ _ Hfirst), bind_lift, Hname. cbn [item].
    unfold AWSSRP.PASSWORD_VERIFIER_CHALLENGE. rewrite String.eqb_refl.
    rewrite bind_lift, Hparams. cbn [item]. unfold st_bind at 1. rewrite Hpc. reflexivity.
Qed.

(** X11: the device exchange.  When the verifier step answers
    [DEVICE_SRP_AUTH], [authenticate_user] sends the opening parameters
    again under that challenge name, answers the parameters it gets back
    as a device challenge under [DEVICE_PASSWORD_VERIFIER], and returns
    whatever that last call gives, without looking at it: four calls in
    all, none with a [Session]. *)
Theorem device_exchange (self : AWSSRP.t) log response params cr tokens
    response_auth device_params device_cr :
  AWSSRP.client self log (first_request self) = Ok response ->
  ChallengeName response = Some "PASSWORD_VERIFIER" ->
  ChallengeParameters response = Some params ->
  let log1 := (log ++ [first_request self])%list in
  AWSSRP.process_challenge self params log1 = (Ok cr, log1) ->
  AWSSRP.client self log1 (verifier_request self cr) = Ok tokens ->
  ChallengeName tokens = Some "DEVICE_SRP_AUTH" ->
  let log2 := (log1 ++ [verifier_request self cr])%list in
  AWSSRP.client self log2 (device_srp_request self) = Ok response_auth ->
  ChallengeParameters response_auth = Some device_params ->
  let log3 := (log2 ++ [device_srp_request self])%list in
  AWSSRP.process_device_challenge self device_params log3 = (Ok device_cr, log3) ->
  AWSSRP.authenticate_user self log =
  (AWSSRP.client self log3 (device_verifier_request self device_cr),
   (log3 ++ [device_verifier_request self device_cr])%list).
Proof.
  intros Hfirst Hname Hparams log1 Hcr Htokens Hdev log2 Hauth Hdparams log3 Hdcr.
  unfold AWSSRP.authenticate_user. fold (first_request self).
  rewrite (first_step _ _ _ _ Hfirst), bind_lift, Hname. cbn [item].
  unfold AWSSRP.PASSWORD_VERIFIER_CHALLENGE at 1. rewrite String.eqb_refl.
  rewrite bind_lift, Hparams. cbn [item]. fold log1.
  rewrite (verifier_step _ _ _ _ _ _ Hcr Htokens). fold log2.
  rewrite Hdev. cbn [get_is]. unfold AWSSRP.DEVICE_SRP_AUTH. rewrite String.eqb_refl.
  unfold AWSSRP._authenticate_device. fold (device_srp_request self).
  rewrite bind_call, Hauth. fold log3. rewrite bind_lift, Hdparams. cbn [item].
  rewrite (bind_run _ _ _ _ _ Hdcr).
  fold (device_verifier_request self device_cr). rewrite bind_call.
  destruct (AWSSRP.client self log3 _); reflexivity.
Qed.

(** X12: the device challenge needs the device data.  Even when the
    device key derivation goes through (it hashes a missing value as the
    text [None]), building the signed message raises [TypeError] for a
    session without a device group key or without a device key, and no
    call is made. *)
Theorem device_challenge_needs_device (self : AWSSRP.t) params log
    username salt_hex srp_b_hex secret_block_b64 srp_b hkdf secret_block_bytes :
  params !! "USERNAME" = Some username ->
  params !! "SALT" = Some salt_hex ->
  params !! "SRP_B" = Some srp_b_hex ->
  params !! "SECRET_BLOCK" = Some secret_block_b64 ->
  hex_to_long srp_b_hex = Ok srp_b ->
  AWSSRP.get_device_authentication_key self (AWSSRP.device_group_key self)
    (AWSSRP.device_key self) (AWSSRP.device_password self) srp_b salt_hex = Ok hkdf ->
  standard_b64decode secret_block_b64 = Ok secret_block_bytes ->
  AWSSRP.device_group_key self = None \/ AWSSRP.device_key self = None ->
  AWSSRP.process_device_challenge self params log = (Raise TypeError, log).
Proof.
  intros Huser Hsalt Hb Hblk HB Hkey Hdec Hnone.
  unfold AWSSRP.process_device_challenge, getitem.
  rewrite bind_lift, Huser, bind_lift, Hsalt, bind_lift, Hb, bind_lift, Hblk.
  rewrite bind_timestamp, bind_lift, HB, bind_lift, Hkey, bind_lift, Hdec.
  rewrite bind_lift.
  destruct (AWSSRP.device_group_key self) as [g|]; [|reflexivity].
  destruct Hnone as [Hg | Hd]; [discriminate|]. cbn [bytearray_of]. rewrite Hd.
  reflexivity.
Qed.

(** X13: any other challenge passes through.  A verifier-step response
    whose challenge is none of [DEVICE_SRP_AUTH], [NEW_PASSWORD_REQUIRED]
    and [SOFTWARE_TOKEN_MFA] (an [SMS_MFA] challenge, say) is returned by
    [authenticate_user] as if it held the tokens; no exception is
    raised. *)
Theorem other_challenge_returned (self : AWSSRP.t) log response params cr tokens
    (challenge : string) :
  AWSSRP.client self log (first_request self) = Ok response ->
  ChallengeName response = Some "PASSWORD_VERIFIER" ->
  ChallengeParameters response = Some params ->
  let log1 := (log ++ [first_request self])%list in
  AWSSRP.process_challenge self params log1 = (Ok cr, log1) ->
  AWSSRP.client self log1 (verifier_request self cr) = Ok tokens ->
  ChallengeName tokens = Some challenge ->
  handled_after_verifier challenge = false ->
  AWSSRP.authenticate_user self log =
  (Ok tokens, (log1 ++ [verifier_request self cr])%list).
Proof.
  intros Hfirst Hname Hparams log1 Hcr Htokens Hch Hother.
  unfold AWSSRP.authenticate_user. fold (first_request self).
  rewrite (first_step _ _ _ _ Hfirst), bind_lift, Hname. cbn [item].
  unfold AWSSRP.PASSWORD_VERIFIER_CHALLENGE at 1. rewrite String.eqb_refl.
  rewrite bind_lift, Hparams. cbn [item]. fold log1.
  rewrite (verifier_step _ _ _ _ _ _ Hcr Htokens).
  unfold handled_after_verifier in Hother. cbn [existsb] in Hother.
  apply orb_false_elim in Hother as [H1 Hother].
  apply orb_false_elim in Hother as [H2 Hother].
  apply orb_false_elim in Hother as [H3 _].
  rewrite Hch. cbn [get_is].
  unfold AWSSRP.DEVICE_SRP_AUTH, AWSSRP.NEW_PASSWORD_REQUIRED_CHALLENGE,
    AWSSRP.SOFTWARE_TOKEN_MFA_CHALLENGE.
  rewrite H1, H2, H3. reflexivity.
Qed.

(** X14: the MFA entry point reads the [USERNAME] of the first challenge
    before it looks at the challenge name: a first response without that
    parameter raises [KeyError] after the opening call, also for a
    challenge that [authenticate_user] would report as unsupported. *)
Theorem mfa_entry_needs_user_name (self : AWSSRP.t) (mfaToken : string) log
    response params :
  AWSSRP.client self log (first_request self) = Ok response ->
  ChallengeParameters response = Some params ->
  params !! "USERNAME" = None ->
  AWSSRP.authenticate_user_with_mfa_token self mfaToken log =
  (Raise (KeyError "USERNAME"), (log ++ [first_request self])%list).
Proof.
  intros Hfirst Hparams Huser.
  unfold AWSSRP.authenticate_user_with_mfa_token. fold (first_request self).
  rewrite (first_step _ _ _ _ Hfirst), bind_lift, Hparams. cbn [item].
  rewrite bind_lift. unfold getitem. rewrite Huser. reflexivity.
Qed.

(** X15: the MFA entry point acts on [SOFTWARE_TOKEN_MFA] only.  Any
    other answer to the verifier step is returned after two calls: a
    [NEW_PASSWORD_REQUIRED] or [DEVICE_SRP_AUTH] challenge, which
    [authenticate_user] would act on, is handed back untouched. *)
Theorem mfa_entry_returns_other_answers (self : AWSSRP.t) (mfaToken : string) log
    response params userSub cr tokens :
  AWSSRP.client self log (first_request self) = Ok response ->
  ChallengeName response = Some "PASSWORD_VERIFIER" ->
  ChallengeParameters response = Some params ->
  params !! "USERNAME" = Some userSub ->
  let log1 := (log ++ [first_request self])%list in
  AWSSRP.process_challenge self params log1 = (Ok cr, log1) ->
  AWSSRP.client self log1 (verifier_request self cr) = Ok tokens ->
  ChallengeName tokens <> Some "SOFTWARE_TOKEN_MFA" ->
  AWSSRP.authenticate_user_with_mfa_token self mfaToken log =
  (Ok tokens, (log1 ++ [verifier_request self cr])%list).
Proof.
  intros Hfirst Hname Hparams Huser log1 Hcr Htokens Hother.
  unfold AWSSRP.authenticate_user_with_mfa_token. fold (first_request self).
  rewrite (first_step _ _ _ _ Hfirst), bind_lift, Hparams. cbn [item].
  rewrite bind_lift. unfold getitem. rewrite Huser.
  rewrite bind_lift, Hname. cbn [item].
  unfold AWSSRP.PASSWORD_VERIFIER_CHALLENGE at 1. rewrite String.eqb_refl. fold log1.
  rewrite (verifier_step _ _ _ _ _ _ Hcr Htokens).
  rewrite get_is_other by exact Hother. reflexivity.
Qed.

(** X16: answering [NEW_PASSWORD_REQUIRED].  The third call of
    [set_new_password_challenge] carries the session's own user name (not
    the [USER_ID_FOR_SRP] of the challenge), the new password and the
    [Session] of the verifier step's response; its outcome is the outcome
    of the method.  A response without a [Session] raises [KeyError]. *)
Theorem new_password_answer (self : AWSSRP.t) (new_password : string) log
    response params cr tokens :
  AWSSRP.client self log (first_request self) = Ok response ->
  ChallengeName response = Some "PASSWORD_VERIFIER" ->
  ChallengeParameters response = Some params ->
  let log1 := (log ++ [first_request self])%list in
  AWSSRP.process_challenge self params log1 = (Ok cr, log1) ->
  AWSSRP.client self log1 (verifier_request self cr) = Ok tokens ->
  ChallengeName tokens = Some "NEW_PASSWORD_REQUIRED" ->
  let log2 := (log1 ++ [verifier_request self cr])%list in
  AWSSRP.set_new_password_challenge self new_password log =
  match Session tokens with
  | Some session =>
      let answer := new_password_request self session new_password in
      (AWSSRP.client self log2 answer, (log2 ++ [answer])%list)
  | None => (Raise (KeyError "Session"), log2)
  end.
Proof.
  intros Hfirst Hname Hparams log1 Hcr Htokens Hnew log2.
  assert (Huser : getitem (AWSSRP.get_auth_params self) "USERNAME" =
                  Ok (AWSSRP.username self)).
  { unfold getitem, AWSSRP.get_auth_params.
    destruct (AWSSRP.client_secret self), (AWSSRP.device_key self);
      repeat (rewrite lookup_insert_ne by discriminate);
      rewrite lookup_insert_eq; reflexivity. }
  unfold AWSSRP.set_new_password_challenge. fold (first_request self).
  rewrite (first_step _ _ _ _ Hfirst), bind_lift, Hname. cbn [item].
  unfold AWSSRP.PASSWORD_VERIFIER_CHALLENGE at 1. rewrite String.eqb_refl.
  rewrite bind_lift, Hparams. cbn [item]. fold log1.
  rewrite (verifier_step _ _ _ _ _ _ Hcr Htokens). fold log2.
  rewrite bind_lift, Hnew. cbn [item].
  unfold AWSSRP.NEW_PASSWORD_REQUIRED_CHALLENGE. rewrite String.eqb_refl.
  rewrite bind_lift, Huser, bind_lift.
  destruct (Session tokens) as [session|]; [|reflexivity]. cbn [item].
  fold (new_password_request self session new_password).
  rewrite bind_call. destruct (AWSSRP.client self log2 _); reflexivity.
Qed.

(** X17: [set_new_password_challenge] reads the challenge name of the
    verifier step's response with a subscript: when that response holds
    the tokens and no challenge (the password needed no change), the
    method raises [KeyError] instead of returning them; a response with
    any other challenge is returned. *)
Theorem new_password_not_required (self : AWSSRP.t) (new_password : string) log
    response params cr tokens :
  AWSSRP.client self log (first_request self) = Ok response ->
  ChallengeName response = Some "PASSWORD_VERIFIER" ->
  ChallengeParameters response = Some params ->
  let log1 := (log ++ [first_request self])%list in
  AWSSRP.process_challenge self params log1 = (Ok cr, log1) ->
  AWSSRP.client self log1 (verifier_request self cr) = Ok tokens ->
  ChallengeName tokens <> Some "NEW_PASSWORD_REQUIRED" ->
  let log2 := (log1 ++ [verifier_request self cr])%list in
  AWSSRP.set_new_password_challenge self new_password log =
  match ChallengeName tokens with
  | None => (Raise (KeyError "ChallengeName"), log2)
  | Some _ => (Ok tokens, log2)
  end.
Proof.
  intros Hfirst Hname Hparams log1 Hcr Htokens Hother log2.
  unfold AWSSRP.set_new_password_challenge. fold (first_request self).
  rewrite (first_step _ _ _ _ Hfirst), bind_lift, Hname. cbn [item].
  unfold AWSSRP.PASSWORD_VERIFIER_CHALLENGE at 1. rewrite String.eqb_refl.
  rewrite bind_lift, Hparams. cbn [item]. fold log1.
  rewrite (verifier_step _ _ _ _ _ _ Hcr Htokens). fold log2.
  rewrite bind_lift.
  destruct (ChallengeName tokens) as [c|]; [|reflexivity]. cbn [item].
  assert (String.eqb c AWSSRP.NEW_PASSWORD_REQUIRED_CHALLENGE = false) as ->.
  { apply String.eqb_neq. intros ->. apply Hother. reflexivity. }
  reflexivity.
Qed.

End exchange.

(** The device session answers both mock challenges, whatever its client. *)
Lemma device_session_answers client_secret client log :
  (exists cr,
     AWSSRP.process_challenge (platform := Mock.platform)
       (Mock.device_srp client_secret client) Mock.challenge_parameters log = (Ok cr, log)) /\
  (exists cr,
     AWSSRP.process_device_challenge (platform := Mock.platform)
       (Mock.device_srp client_secret client) Mock.challenge_parameters log = (Ok cr, log)).
Proof.
  split.
  - apply (process_challenge_returns (platform := Mock.platform) _ _ _
             "u-123" "ab" "5" "block" 5 (x01 :: encode "QCaldera Derive")
             (encode "block") "abc");
      vm_compute; reflexivity.
  - apply (process_device_challenge_returns (platform := Mock.platform) _ _ _
             "u-123" "ab" "5" "block" 5 (x01 :: encode "QCaldera Derive")
             (encode "block") "grp-1" "dev-1");
      vm_compute; reflexivity.
Qed.

Lemma auth_params_fields_witness :
  AWSSRP.get_auth_params (platform := Mock.platform) Scenario.with_secret !! "SRP_A" =
  Some "8".
Proof.
  exact (proj1 (proj2 (auth_params_fields (platform := Mock.platform)
                         Scenario.with_secret ltac:(cbn; lia)))).
Defined.

Lemma missing_challenge_parameter_witness :
  let self :=
    Mock.srp "us-east-1_abc" None None
      (Mock.service
         (Mock.challenge "PASSWORD_VERIFIER" (<["USER_ID_FOR_SRP" := "u-123"]> ∅))
         Mock.no_result Mock.no_result) in
  AWSSRP.authenticate_user (platform := Mock.platform) self []%list =
  (Raise (KeyError "SALT"), [first_request (platform := Mock.platform) self]%list).
Proof.
  intros self.
  exact (proj1 (proj2 (missing_challenge_parameter (platform := Mock.platform)
                         self []%list _ _ "SALT" eq_refl eq_refl eq_refl
                         ltac:(vm_compute; reflexivity)))).
Defined.

Lemma device_exchange_witness :
  exists first second third fourth,
    AWSSRP.authenticate_user (platform := Mock.platform) Services.with_device []%list =
    (Ok (Mock.challenge "DEVICE_PASSWORD_VERIFIER" Mock.challenge_parameters),
     [first; second; third; fourth]%list).
Proof.
  destruct (device_session_answers None Services.device_service
              [first_request (platform := Mock.platform) Services.with_device]%list)
    as [[cr Hcr] _].
  destruct (device_session_answers None Services.device_service
              [first_request (platform := Mock.platform) Services.with_device;
               verifier_request Services.with_device cr;
               device_srp_request (platform := Mock.platform) Services.with_device]%list)
    as [_ [dcr Hdcr]].
  do 4 eexists.
  exact (device_exchange (platform := Mock.platform) Services.with_device []%list
           _ Mock.challenge_parameters cr _ _ Mock.challenge_parameters dcr
           eq_refl eq_refl eq_refl Hcr eq_refl eq_refl eq_refl eq_refl Hdcr).
Defined.

Lemma device_challenge_needs_device_witness :
  AWSSRP.process_device_challenge (platform := Mock.platform)
    (Mock.srp "us-east-1_abc" None (Some "dev-1") Mock.silent)
    Mock.challenge_parameters []%list = (Raise TypeError, []%list).
Proof.
  apply (device_challenge_needs_device (platform := Mock.platform) _ _ _
           "u-123" "ab" "5" "block" 5 (x01 :: encode "QCaldera Derive") (encode "block"));
    try (vm_compute; reflexivity).
  left. reflexivity.
Defined.

Lemma other_challenge_returned_witness :
  fst (AWSSRP.authenticate_user (platform := Mock.platform)
         (Scenario.after_verifier (Mock.challenge "SMS_MFA" ∅)) []%list) =
  Ok (Mock.challenge "SMS_MFA" ∅).
Proof.
  destruct (scenario_verifier_response (Mock.challenge "SMS_MFA" ∅)) as [cr Hcr].
  rewrite (other_challenge_returned (platform := Mock.platform)
             (Scenario.after_verifier (Mock.challenge "SMS_MFA" ∅)) []%list
             _ Mock.challenge_parameters cr _ "SMS_MFA"
             eq_refl eq_refl eq_refl Hcr eq_refl eq_refl eq_refl).
  reflexivity.
Defined.

Lemma mfa_entry_needs_user_name_witness :
  AWSSRP.authenticate_user_with_mfa_token (platform := Mock.platform)
    Scenario.custom_first "654321" []%list =
  (Raise (KeyError "USERNAME"),
   [first_request (platform := Mock.platform) Scenario.custom_first]%list).
Proof.
  exact (mfa_entry_needs_user_name (platform := Mock.platform) Scenario.custom_first
           "654321" []%list _ ∅ eq_refl eq_refl eq_refl).
Defined.

Lemma mfa_entry_returns_other_answers_witness :
  fst (AWSSRP.authenticate_user_with_mfa_token (platform := Mock.platform)
         (Scenario.after_verifier (Mock.challenge "NEW_PASSWORD_REQUIRED" ∅))
         "654321" []%list) =
  Ok (Mock.challenge "NEW_PASSWORD_REQUIRED" ∅).
Proof.
  destruct (scenario_verifier_response (Mock.challenge "NEW_PASSWORD_REQUIRED" ∅))
    as [cr Hcr].
  rewrite (mfa_entry_returns_other_answers (platform := Mock.platform)
             (Scenario.after_verifier (Mock.challenge "NEW_PASSWORD_REQUIRED" ∅))
             "654321" []%list _ Mock.challenge_parameters "u-123" cr _
             eq_refl eq_refl eq_refl ltac:(vm_compute; reflexivity) Hcr eq_refl
             ltac:(discriminate)).
  reflexivity.
Defined.

Lemma new_password_answer_witness :
  let self := Scenario.after_verifier (Mock.challenge "NEW_PASSWORD_REQUIRED" ∅) in
  exists first second,
    AWSSRP.set_new_password_challenge (platform := Mock.platform) self "n3w" []%list =
    (Ok (Mock.tokens "id" "access"),
     [first; second; new_password_request self "S1" "n3w"]%list).
Proof.
  intros self.
  destruct (scenario_verifier_response (Mock.challenge "NEW_PASSWORD_REQUIRED" ∅))
    as [cr Hcr].
  do 2 eexists.
  exact (new_password_answer (platform := Mock.platform) self "n3w" []%list
           _ Mock.challenge_parameters cr _ eq_refl eq_refl eq_refl Hcr eq_refl eq_refl).
Defined.

Lemma new_password_not_required_witness :
  fst (AWSSRP.set_new_password_challenge (platform := Mock.platform)
         (Scenario.after_verifier (Mock.tokens "id" "access")) "n3w" []%list) =
  Raise (KeyError "ChallengeName").
Proof.
  destruct (scenario_verifier_response (Mock.tokens "id" "access")) as [cr Hcr].
  rewrite (new_password_not_required (platform := Mock.platform)
             (Scenario.after_verifier (Mock.tokens "id" "access")) "n3w" []%list
             _ Mock.challenge_parameters cr _
             eq_refl eq_refl eq_refl Hcr eq_refl ltac:(discriminate)).
  reflexivity.
Defined.

(** ** Keys and tokens *)

Lemma opt_eqb_eq a b : Cognito.opt_eqb a b = true <-> a = b.
Proof.
  destruct a as [x|], b as [y|]; cbn; try (split; [discriminate | congruence]).
  - rewrite String.eqb_eq. split; congruence.
  - split; reflexivity.
Qed.


Lemma filter_skip {A} (P : A -> bool) (before : list A) x after :
  Forall (fun y => P y = false) before -> P x = true ->
  exists rest, List.filter P (before ++ x :: after)%list = (x :: rest)%list.
Proof.
  intros Hb Hx. induction Hb as [|a before Ha Hb IH]; cbn [List.filter app].
  - rewrite Hx. eexists. reflexivity.
  - rewrite Ha. exact IH.
Qed.

Lemma getattr_setattr_other self id_name value name :
  name <> id_name ->
  Cognito.getattr (Cognito.setattr id_name value self) name = Cognito.getattr self name.
Proof.
  intros Hne. unfold Cognito.setattr.
  repeat match goal with
         | |- context [String.eqb id_name ?attr] =>
             destruct (String.eqb_spec id_name attr) as [->|?];
               [unfold Cognito.getattr;
                repeat match goal with
                       | |- context [String.eqb name ?a] =>
                           destruct (String.eqb_spec name a) as [->|?];
                             [first [contradiction | reflexivity]|]
                       end; reflexivity|]
         end.
  unfold Cognito.getattr.
  repeat match goal with
         | |- context [String.eqb name ?a] =>
             destruct (String.eqb_spec name a) as [->|?]; [reflexivity|]
         end.
  cbn. apply lookup_insert_ne. congruence.
Qed.

Section keys_and_tokens.
Context {platform : Platform} {token_platform : TokenPlatform}.

Lemma get_keys_stored s j s' :
  Cognito.get_keys s = (Ok j, s') -> Cognito.pool_jwk (fst s') = Some j.
Proof.
  unfold Cognito.get_keys. rewrite bind_get_self.
  destruct (Cognito.pool_jwk (fst s)) as [c|] eqn:Ec.
  - destruct (bool_decide (c = ∅)).
    + destruct (bool_decide (env_COGNITO_JWKS = ∅)).
      * rewrite bind_lift. destruct (requests_get_json _); [|discriminate].
        rewrite bind_update. unfold st_ret. intros [= <- <-]. reflexivity.
      * rewrite bind_update. unfold st_ret. intros [= <- <-]. reflexivity.
    + unfold st_ret. intros [= <- <-]. exact Ec.
  - destruct (bool_decide (env_COGNITO_JWKS = ∅)).
    + rewrite bind_lift. destruct (requests_get_json _); [|discriminate].
      rewrite bind_update. unfold st_ret. intros [= <- <-]. reflexivity.
    + rewrite bind_update. unfold st_ret. intros [= <- <-]. reflexivity.
Qed.

Lemma get_keys_reuse s j :
  Cognito.pool_jwk (fst s) = Some j -> j <> ∅ -> Cognito.get_keys s = (Ok j, s).
Proof.
  intros Hc Hne. unfold Cognito.get_keys. rewrite bind_get_self, Hc.
  rewrite bool_decide_eq_false_2 by exact Hne. reflexivity.
Qed.

Lemma get_keys_env s :
  Cognito.pool_jwk (fst s) = None -> env_COGNITO_JWKS <> ∅ ->
  Cognito.get_keys s =
  (Ok env_COGNITO_JWKS, (Cognito.set_pool_jwk (Some env_COGNITO_JWKS) (fst s), snd s)).
Proof.
  intros Hc Hne. unfold Cognito.get_keys. rewrite bind_get_self, Hc.
  rewrite bool_decide_eq_false_2 by exact Hne. reflexivity.
Qed.

(** X18: the key set is fetched once.  A non-empty key set that
    [get_keys] returns is kept on the session, and every later call
    returns that same set without changing anything, whatever the
    environment or the network would give by then. *)
Theorem get_keys_cached s j s' :
  Cognito.get_keys s = (Ok j, s') -> j <> ∅ ->
  Cognito.pool_jwk (fst s') = Some j /\
  Cognito.get_keys s' = (Ok j, s') /\
  snd s' = snd s /\
  forall name, Cognito.getattr (fst s') name = Cognito.getattr (fst s) name.
Proof.
  intros Hrun Hne. pose proof (get_keys_stored _ _ _ Hrun) as Hst.
  split; [exact Hst|]. split; [apply get_keys_reuse; assumption|].
  eapply get_keys_frame, Hrun.
Qed.

Lemma get_key_found kid s all keys s' before key after :
  Cognito.get_keys s = (Ok all, s') -> all !! "keys" = Some keys ->
  keys = (before ++ key :: after)%list ->
  key !! "kid" = kid -> Forall (fun x : gmap string string => x !! "kid" <> kid) before ->
  Cognito.get_key kid s = (Ok key, s').
Proof.
  intros Hrun Hkeys -> Hkid Hbefore.
  unfold Cognito.get_key. rewrite (bind_run _ _ _ _ _ Hrun), Hkeys.
  destruct (filter_skip (fun x : gmap string string => Cognito.opt_eqb (x !! "kid") kid)
              before key after) as [rest ->].
  - eapply Forall_impl; [exact Hbefore|]. intros x Hx. cbn beta in Hx |- *.
    destruct (Cognito.opt_eqb (x !! "kid") kid) eqn:E; [|reflexivity].
    apply opt_eqb_eq in E. contradiction.
  - apply opt_eqb_eq, Hkid.
  - reflexivity.
Qed.


(** X19: [get_key] picks the first key of the set whose [kid] is the one
    asked for (a key without [kid] when none is asked for); it raises
    [IndexError] when no key matches and [TypeError] when the document
    has no ['keys'] entry. *)
Theorem get_key_outcomes kid s all s' :
  Cognito.get_keys s = (Ok all, s') ->
  (all !! "keys" = None -> Cognito.get_key kid s = (Raise TypeError, s')) /\
  (forall keys, all !! "keys" = Some keys ->
     (Forall (fun x : gmap string string => x !! "kid" <> kid) keys ->
      Cognito.get_key kid s = (Raise IndexError, s')) /\
     (forall before key after,
        keys = (before ++ key :: after)%list -> key !! "kid" = kid ->
        Forall (fun x : gmap string string => x !! "kid" <> kid) before ->
        Cognito.get_key kid s = (Ok key, s'))).
Proof.
  intros Hrun. split.
  - intros Hkeys. unfold Cognito.get_key.
    rewrite (bind_run _ _ _ _ _ Hrun), Hkeys. reflexivity.
  - intros keys Hkeys. split.
    + intros Hnone. unfold Cognito.get_key. rewrite (bind_run _ _ _ _ _ Hrun), Hkeys.
      replace (List.filter _ keys) with (@nil (gmap string string)); [reflexivity|].
      symmetry. clear Hkeys. induction Hnone as [|x l Hx Hl IH]; [reflexivity|].
      cbn [List.filter].
      destruct (Cognito.opt_eqb (x !! "kid") kid) eqn:E; [|exact IH].
      apply opt_eqb_eq in E. contradiction.
    + intros before key after Hsplit Hkid Hb.
      eapply get_key_found; eassumption.
Qed.

Lemma verify_token_inv token id_name token_use s verified s' :
  Cognito.verify_token token id_name token_use s = (Ok verified, s') ->
  exists header claims key s1,
    get_unverified_header token = Ok header /\
    get_unverified_claims token = Ok claims /\
    claims !! "token_use" = Some token_use /\
    Cognito.get_key (header !! "kid") s = (Ok key, s1) /\
    jwt_decode token key (claims !! "aud") (claims !! "iss") = Ok verified /\
    s' = (Cognito.setattr id_name token (fst s1), snd s1).
Proof.
  unfold Cognito.verify_token. rewrite bind_lift.
  destruct (get_unverified_header token) as [header|]; [|discriminate].
  rewrite bind_lift. destruct (get_unverified_claims token) as [claims|]; [|discriminate].
  destruct (Cognito.opt_eqb (claims !! "token_use") (Some token_use)) eqn:Euse;
    [|discriminate].
  cbn [negb]. unfold st_bind at 1.
  destruct (Cognito.get_key (header !! "kid") s) as [[key|e] s1] eqn:Ekey; [|discriminate].
  destruct (jwt_decode token key _ _) as [v|e] eqn:Edec.
  - rewrite bind_update. unfold st_ret. intros [= <- <-].
    exists header, claims, key, s1. repeat split; try assumption.
    apply opt_eqb_eq, Euse.
  - destruct e; discriminate.
Qed.

Lemma verify_token_raise_frame token id_name token_use s e s' :
  Cognito.verify_token token id_name token_use s = (Raise e, s') ->
  snd s' = snd s /\
  forall name, Cognito.getattr (fst s') name = Cognito.getattr (fst s) name.
Proof.
  unfold Cognito.verify_token. rewrite bind_lift.
  destruct (get_unverified_header token) as [header|]; [|intros [= <- <-]; auto].
  rewrite bind_lift.
  destruct (get_unverified_claims token) as [claims|]; [|intros [= <- <-]; auto].
  destruct (negb _); [intros [= <- <-]; auto|].
  unfold st_bind at 1.
  destruct (Cognito.get_key (header !! "kid") s) as [[key|e'] s1] eqn:Ekey.
  - apply get_key_frame in Ekey.
    destruct (jwt_decode token key _ _) as [v|e''] eqn:Edec.
    + rewrite bind_update. discriminate.
    + destruct e''; intros [= <- <-]; exact Ekey.
  - apply get_key_frame in Ekey. intros [= <- <-]. exact Ekey.
Qed.

Lemma verify_token_ok_frame token id_name token_use s verified s' :
  Cognito.verify_token token id_name token_use s = (Ok verified, s') ->
  snd s' = snd s /\
  Cognito.getattr (fst s') id_name = Some token /\
  forall name, name <> id_name ->
               Cognito.getattr (fst s') name = Cognito.getattr (fst s) name.
Proof.
  intros H. apply verify_token_inv in H
    as (header & claims & key & s1 & _ & _ & _ & Hkey & _ & ->).
  apply get_key_frame in Hkey as [Hlog Hattr]. cbn [fst snd].
  split; [exact Hlog|]. split; [apply getattr_setattr|].
  intros name Hne. rewrite getattr_setattr_other by exact Hne. apply Hattr.
Qed.




(** *** Signing in *)

Lemma retrieve_login_tokens_inv result s s' :
  Cognito.retrieve_login_tokens result s = (Ok tt, s') ->
  exists id access refresh type,
    IdToken result = Some id /\ AccessToken result = Some access /\
    RefreshToken result = Some refresh /\ TokenType result = Some type /\
    Cognito.id_token (fst s') = Some id /\
    Cognito.access_token (fst s') = Some access /\
    Cognito.refresh_token (fst s') = Some refresh /\
    Cognito.token_type (fst s') = Some type /\
    Cognito.device_key (fst s') = Cognito.device_key (fst s) /\
    Cognito.device_group_key (fst s') = Cognito.device_group_key (fst s) /\
    snd s' = snd s.
Proof.
  unfold Cognito.retrieve_login_tokens. rewrite bind_lift.
  destruct (IdToken result) as [id|]; [|discriminate]. cbn [item].
  unfold st_bind at 1.
  destruct (Cognito.verify_token id "id_token" "id" s) as [[v1|e1] s1] eqn:E1;
    [|discriminate].
  apply verify_token_ok_frame in E1 as (Hlog1 & Hid & Hframe1).
  rewrite bind_lift.
  destruct (RefreshToken result) as [refresh|]; [|discriminate]. cbn [item].
  rewrite bind_update, bind_lift.
  destruct (AccessToken result) as [access|]; [|discriminate]. cbn [item].
  unfold st_bind at 1.
  destruct (Cognito.verify_token access "access_token" "access" _)
    as [[v2|e2] s2] eqn:E2; [|discriminate].
  apply verify_token_ok_frame in E2 as (Hlog2 & Hacc & Hframe2).
  rewrite bind_lift.
  destruct (TokenType result) as [type|]; [|discriminate]. cbn [item].
  unfold Cognito.update. intros [= <-]. cbn [fst snd] in *.
  exists id, access, refresh, type.
  pose proof (Hframe2 "id_token" ltac:(discriminate)) as F1.
  pose proof (Hframe2 "refresh_token" ltac:(discriminate)) as F2.
  pose proof (Hframe2 "device_key" ltac:(discriminate)) as F3.
  pose proof (Hframe2 "device_group_key" ltac:(discriminate)) as F4.
  pose proof (Hframe1 "device_key" ltac:(discriminate)) as F5.
  pose proof (Hframe1 "device_group_key" ltac:(discriminate)) as F6.
  change (Cognito.id_token (fst s2) = Cognito.id_token (fst s1)) in F1.
  change (Cognito.refresh_token (fst s2) = Some refresh) in F2.
  change (Cognito.device_key (fst s2) = Cognito.device_key (fst s1)) in F3.
  change (Cognito.device_group_key (fst s2) = Cognito.device_group_key (fst s1)) in F4.
  change (Cognito.device_key (fst s1) = Cognito.device_key (fst s)) in F5.
  change (Cognito.device_group_key (fst s1) = Cognito.device_group_key (fst s)) in F6.
  change (Cognito.id_token (fst s1) = Some id) in Hid.
  change (Cognito.access_token (fst s2) = Some access) in Hacc.
  cbn. repeat split; try reflexivity; try assumption; try congruence.
Qed.

Lemma save_device_information_inv result s s' :
  Cognito.save_device_information result s = (Ok tt, s') ->
  snd s' = snd s /\
  Cognito.id_token (fst s') = Cognito.id_token (fst s) /\
  Cognito.access_token (fst s') = Cognito.access_token (fst s) /\
  Cognito.refresh_token (fst s') = Cognito.refresh_token (fst s) /\
  Cognito.token_type (fst s') = Cognito.token_type (fst s) /\
  match NewDeviceMetadata result with
  | Some meta =>
      is_Some (DeviceKey meta) /\ is_Some (DeviceGroupKey meta) /\
      Cognito.device_key (fst s') = DeviceKey meta /\
      Cognito.device_group_key (fst s') = DeviceGroupKey meta
  | None =>
      Cognito.device_key (fst s') = Cognito.device_key (fst s) /\
      Cognito.device_group_key (fst s') = Cognito.device_group_key (fst s)
  end.
Proof.
  unfold Cognito.save_device_information.
  destruct (NewDeviceMetadata result) as [meta|].
  - rewrite bind_lift. destruct (DeviceKey meta) as [dk|]; [|discriminate]. cbn [item].
    rewrite bind_update, bind_lift.
    destruct (DeviceGroupKey meta) as [dgk|]; [|discriminate]. cbn [item].
    unfold Cognito.update. intros [= <-]. cbn. repeat split; eauto.
  - unfold st_ret. intros [= <-]. repeat split; reflexivity.
Qed.

(** X22: what a successful sign-in leaves on the session.  When
    [authenticate] returns, the exchange has returned an
    [AuthenticationResult] with all four token fields; the session holds
    exactly these as [id_token], [access_token], [refresh_token] and
    [token_type]; the device key and group key are those of
    [NewDeviceMetadata] when the result has one and are unchanged
    otherwise; and the calls made are those of the exchange. *)
Theorem authenticate_binds (password : string) (urandom : list byte) s :
  fst (Cognito.authenticate password urandom s) = Ok tt ->
  let s' := snd (Cognito.authenticate password urandom s) in
  exists aws user_tokens result id access refresh type,
    Cognito.new_AWSSRP (fst s) password (Cognito.device_key (fst s))
      (Cognito.device_group_key (fst s)) (Cognito.device_password (fst s)) urandom =
      Ok aws /\
    AWSSRP.authenticate_user aws (snd s) = (Ok user_tokens, snd s') /\
    AuthenticationResult user_tokens = Some result /\
    IdToken result = Some id /\ AccessToken result = Some access /\
    RefreshToken result = Some refresh /\ TokenType result = Some type /\
    Cognito.id_token (fst s') = Some id /\
    Cognito.access_token (fst s') = Some access /\
    Cognito.refresh_token (fst s') = Some refresh /\
    Cognito.token_type (fst s') = Some type /\
    match NewDeviceMetadata result with
    | Some meta =>
        is_Some (DeviceKey meta) /\ is_Some (DeviceGroupKey meta) /\
        Cognito.device_key (fst s') = DeviceKey meta /\
        Cognito.device_group_key (fst s') = DeviceGroupKey meta
    | None =>
        Cognito.device_key (fst s') = Cognito.device_key (fst s) /\
        Cognito.device_group_key (fst s') = Cognito.device_group_key (fst s)
    end.
Proof.
  intros Hok s'. subst s'.
  destruct (Cognito.authenticate password urandom s) as [r s'] eqn:E.
  cbn [fst snd] in *. subst r. revert E.
  unfold Cognito.authenticate. rewrite bind_get_self, bind_lift.
  destruct (Cognito.new_AWSSRP _ _ _ _ _ _) as [aws|] eqn:Eaws; [|discriminate].
  rewrite bind_run_io.
  destruct (AWSSRP.authenticate_user aws (snd s)) as [[user_tokens|e] log'] eqn:Erun;
    [|discriminate].
  rewrite bind_lift.
  destruct (AuthenticationResult user_tokens) as [result|] eqn:Eres; [|discriminate].
  cbn [item]. unfold st_bind at 1.
  destruct (Cognito.retrieve_login_tokens result (fst s, log')) as [[[]|e] s1] eqn:E1;
    [|discriminate].
  intros E2.
  apply retrieve_login_tokens_inv in E1
    as (id & access & refresh & type & Hid & Hacc & Href & Htype &
        Sid & Sacc & Sref & Stype & Dk & Dgk & Hlog1).
  apply save_device_information_inv in E2 as (Hlog2 & Tid & Tacc & Tref & Ttype & Hdev).
  cbn [fst snd] in *.
  exists aws, user_tokens, result, id, access, refresh, type.
  repeat split; try assumption; try congruence.
  destruct (NewDeviceMetadata result) as [meta|].
  - exact Hdev.
  - destruct Hdev as [H1 H2]. split; congruence.
Qed.

(** X23: a sign-in that fails half way keeps what it stored.  When the
    id token of the result verifies and the access token is refused,
    [authenticate] raises the error of the access token, but the session
    already holds the new [id_token] and [refresh_token]; [access_token]
    and [token_type] keep their old values. *)
Theorem refused_access_token_keeps_id_token (password : string) (urandom : list byte) s
    aws user_tokens result id refresh access e :
  Cognito.new_AWSSRP (fst s) password (Cognito.device_key (fst s))
    (Cognito.device_group_key (fst s)) (Cognito.device_password (fst s)) urandom = Ok aws ->
  fst (AWSSRP.authenticate_user aws (snd s)) = Ok user_tokens ->
  AuthenticationResult user_tokens = Some result ->
  IdToken result = Some id -> RefreshToken result = Some refresh ->
  AccessToken result = Some access ->
  let after_exchange := (fst s, snd (AWSSRP.authenticate_user aws (snd s))) in
  is_ok (fst (Cognito.verify_token id "id_token" "id" after_exchange)) = true ->
  let s1 := snd (Cognito.verify_token id "id_token" "id" after_exchange) in
  fst (Cognito.verify_token access "access_token" "access"
         (Cognito.set_refresh_token (Some refresh) (fst s1), snd s1)) = Raise e ->
  let s' := snd (Cognito.authenticate password urandom s) in
  fst (Cognito.authenticate password urandom s) = Raise e /\
  Cognito.id_token (fst s') = Some id /\
  Cognito.refresh_token (fst s') = Some refresh /\
  Cognito.access_token (fst s') = Cognito.access_token (fst s) /\
  Cognito.token_type (fst s') = Cognito.token_type (fst s).
Proof.
  intros Haws Hrun Hres Hid Href Hacc after_exchange Hv1 s1 Hv2 s'.
  subst s' s1 after_exchange.
  destruct (AWSSRP.authenticate_user aws (snd s)) as [r log'] eqn:Erun.
  cbn [fst snd] in *. subst r.
  destruct (Cognito.verify_token id "id_token" "id" (fst s, log'))
    as [[verified|e1] s1] eqn:E1; [|discriminate].
  cbn [fst snd] in *.
  destruct (Cognito.verify_token access "access_token" "access" _) as [r2 s2] eqn:E2.
  cbn [fst snd] in *. subst r2.
  assert (Hall : Cognito.authenticate password urandom s = (Raise e, s2)).
  { unfold Cognito.authenticate. rewrite bind_get_self, bind_lift, Haws.
    rewrite bind_run_io, Erun, bind_lift, Hres. cbn [item].
    unfold st_bind at 1. unfold Cognito.retrieve_login_tokens.
    rewrite bind_lift, Hid. cbn [item]. rewrite (bind_run _ _ _ _ _ E1).
    rewrite bind_lift, Href. cbn [item]. rewrite bind_update.
    rewrite bind_lift, Hacc. cbn [item]. unfold st_bind at 1. rewrite E2. reflexivity. }
  rewrite Hall. cbn [fst snd]. split; [reflexivity|].
  apply verify_token_ok_frame in E1 as (_ & Sid & Hframe1).
  apply verify_token_raise_frame in E2 as (_ & Hframe2).
  pose proof (Hframe2 "id_token") as F1. pose proof (Hframe2 "refresh_token") as F2.
  pose proof (Hframe2 "access_token") as F3. pose proof (Hframe2 "token_type") as F4.
  pose proof (Hframe1 "access_token" ltac:(discriminate)) as F5.
  pose proof (Hframe1 "token_type" ltac:(discriminate)) as F6.
  change (Cognito.id_token (fst s2) = Cognito.id_token (fst s1)) in F1.
  change (Cognito.refresh_token (fst s2) = Some refresh) in F2.
  change (Cognito.access_token (fst s2) = Cognito.access_token (fst s1)) in F3.
  change (Cognito.token_type (fst s2) = Cognito.token_type (fst s1)) in F4.
  change (Cognito.access_token (fst s1) = Cognito.access_token (fst s)) in F5.
  change (Cognito.token_type (fst s1) = Cognito.token_type (fst s)) in F6.
  change (Cognito.id_token (fst s1) = Some id) in Sid.
  repeat split; congruence.
Qed.

(** X24: a sign-in without tokens changes nothing.  When the exchange
    raises, [authenticate] raises the same error; when it returns a
    response without an [AuthenticationResult] (a challenge handed back
    by [authenticate_user], such as [SMS_MFA]), [authenticate] raises
    [KeyError].  In both cases the session is as it was. *)
Theorem sign_in_without_tokens (password : string) (urandom : list byte) s aws :
  Cognito.new_AWSSRP (fst s) password (Cognito.device_key (fst s))
    (Cognito.device_group_key (fst s)) (Cognito.device_password (fst s)) urandom = Ok aws ->
  let exchange := AWSSRP.authenticate_user aws (snd s) in
  (forall e, fst exchange = Raise e ->
             Cognito.authenticate password urandom s = (Raise e, (fst s, snd exchange))) /\
  (forall user_tokens,
     fst exchange = Ok user_tokens -> AuthenticationResult user_tokens = None ->
     Cognito.authenticate password urandom s =
     (Raise (KeyError "AuthenticationResult"), (fst s, snd exchange))).
Proof.
  intros Haws exchange. subst exchange.
  unfold Cognito.authenticate. rewrite bind_get_self, bind_lift, Haws.
  rewrite bind_run_io.
  destruct (AWSSRP.authenticate_user aws (snd s)) as [r log']. cbn [fst snd]. split.
  - intros e ->. reflexivity.
  - intros user_tokens -> Hnone. rewrite bind_lift, Hnone. reflexivity.
Qed.

(** X25: the administrator sign-in makes one call, whatever its outcome:
    [admin_initiate_auth] with the flow [ADMIN_NO_SRP_AUTH], the user
    name and the password in clear, and a [SECRET_HASH] of the user name
    exactly when a client secret is configured.  An error of the service
    is raised as it is and leaves the session unchanged. *)
Theorem admin_sign_in_request (password user : string) s :
  Cognito.username (fst s) = Some user ->
  let self := fst s in
  let base : gmap string string := <["PASSWORD" := password]> (<["USERNAME" := user]> ∅) in
  let auth_params :=
    match Cognito.client_secret self with
    | Some secret =>
        <["SECRET_HASH" :=
            AWSSRP.get_secret_hash user (Cognito.client_id self) secret]> base
    | None => base
    end in
  let req :=
    admin_initiate_auth (Cognito.user_pool_id self) (Cognito.client_id self)
      "ADMIN_NO_SRP_AUTH" auth_params in
  let after := snd (Cognito.admin_authenticate password s) in
  snd after = (snd s ++ [req])%list /\
  forall e, Cognito.client self (snd s) req = Raise e ->
            Cognito.admin_authenticate password s =
            (Raise e, (self, (snd s ++ [req])%list)).
Proof.
  intros Huser self base auth_params req after. subst after.
  change (Cognito.username self = Some user) in Huser.
  assert (Hstart : forall k : boto_response -> Cognito.method unit,
            (let! self0 := Cognito.get_self in
             let! user0 := st_lift (str_operand (Cognito.username self0)) in
             let auth_params0 : gmap string string :=
               <["PASSWORD" := password]> (<["USERNAME" := user0]> ∅) in
             let! auth_params1 := Cognito._add_secret_hash auth_params0 "SECRET_HASH" in
             let! tokens :=
               Cognito.run_io
                 (call (Cognito.client self0)
                    (admin_initiate_auth (Cognito.user_pool_id self0)
                       (Cognito.client_id self0) "ADMIN_NO_SRP_AUTH" auth_params1)) in
             k tokens) s =
            match Cognito.client self (snd s) req with
            | Ok tokens => k tokens (self, (snd s ++ [req])%list)
            | Raise e => (Raise e, (self, (snd s ++ [req])%list))
            end).
  { intros k. rewrite bind_get_self, bind_lift. fold self. rewrite Huser.
    cbn [str_operand]. unfold Cognito._add_secret_hash at 1.
    unfold st_bind at 1. rewrite bind_get_self. fold self.
    subst req auth_params base.
    destruct (Cognito.client_secret self) as [secret|].
    - rewrite bind_lift, Huser. cbn [str_operand]. unfold st_ret.
      rewrite bind_run_io. unfold call. cbn [fst snd].
      destruct (Cognito.client self (snd s) _); reflexivity.
    - unfold st_ret. rewrite bind_run_io. unfold call. cbn [fst snd].
      destruct (Cognito.client self (snd s) _); reflexivity. }
  split.
  - unfold Cognito.admin_authenticate. rewrite Hstart.
    destruct (Cognito.client self (snd s) req) as [tokens|e]; [|reflexivity].
    rewrite bind_lift.
    destruct (AuthenticationResult tokens) as [result|]; [|reflexivity]. cbn [item].
    unfold Cognito.retrieve_login_tokens. rewrite bind_lift.
    destruct (IdToken result) as [id|]; [|reflexivity]. cbn [item].
    unfold st_bind at 1.
    destruct (Cognito.verify_token id "id_token" "id" _) as [[v1|e1] s1] eqn:E1.
    + apply verify_token_ok_frame in E1 as (Hlog1 & _).
      rewrite bind_lift. destruct (RefreshToken result); [|exact Hlog1]. cbn [item].
      rewrite bind_update, bind_lift.
      destruct (AccessToken result) as [access|]; [|exact Hlog1]. cbn [item].
      unfold st_bind at 1.
      destruct (Cognito.verify_token access "access_token" "access" _)
        as [[v2|e2] s2] eqn:E2.
      * apply verify_token_ok_frame in E2 as (Hlog2 & _).
        cbn [fst snd] in *. rewrite bind_lift.
        destruct (TokenType result); cbn [item Cognito.update fst snd]; congruence.
      * apply verify_token_raise_frame in E2 as (Hlog2 & _). cbn [fst snd] in *. congruence.
    + apply verify_token_raise_frame in E1 as (Hlog1 & _). exact Hlog1.
  - intros e He. unfold Cognito.admin_authenticate. rewrite Hstart, He. reflexivity.
Qed.

End keys_and_tokens.

Lemma rejecting_keys_nonempty : env_COGNITO_JWKS (TokenPlatform := MockTokens.rejecting) <> ∅.
Proof. apply insert_non_empty. Qed.

Lemma get_keys_cached_witness :
  let s' :=
    (Cognito.set_pool_jwk
       (Some (env_COGNITO_JWKS (TokenPlatform := MockTokens.rejecting)))
       (fst (Services.fresh Mock.silent)), []%list) in
  Cognito.get_keys (token_platform := MockTokens.rejecting) s' =
  (Ok (env_COGNITO_JWKS (TokenPlatform := MockTokens.rejecting)), s').
Proof.
  intros s'.
  exact (proj1 (proj2 (get_keys_cached (token_platform := MockTokens.rejecting)
                         (Services.fresh Mock.silent) _ s'
                         (get_keys_env (token_platform := MockTokens.rejecting)
                            (Services.fresh Mock.silent) eq_refl rejecting_keys_nonempty)
                         rejecting_keys_nonempty))).
Defined.

Lemma get_key_outcomes_witness :
  fst (Cognito.get_key (token_platform := MockTokens.rejecting) (Some "k1")
         (Services.fresh Mock.silent)) = Ok (<["kid" := "k1"]> ∅).
Proof.
  pose proof (get_key_outcomes (token_platform := MockTokens.rejecting) (Some "k1")
                (Services.fresh Mock.silent) _ _
                (get_keys_env (token_platform := MockTokens.rejecting)
                   (Services.fresh Mock.silent) eq_refl rejecting_keys_nonempty)) as H.
  rewrite (proj2 (proj2 H _ eq_refl) []%list _ []%list eq_refl eq_refl
             ltac:(constructor)).
  reflexivity.
Defined.



Lemma authenticate_binds_witness :
  let after :=
    Cognito.authenticate (platform := Mock.platform)
      (token_platform := MockTokens.accepting) "pw" [x03]%list
      (Services.fresh (Services.sign_in "id" "access")) in
  exists id access,
    Cognito.id_token (fst (snd after)) = Some id /\
    Cognito.access_token (fst (snd after)) = Some access.
Proof.
  intros after.
  destruct (authenticate_binds (platform := Mock.platform)
              (token_platform := MockTokens.accepting) "pw" [x03]%list
              (Services.fresh (Services.sign_in "id" "access"))
              ltac:(vm_compute; reflexivity))
    as (aws & ut & result & id & access & refresh & type & _ & _ & _ & _ & _ & _ & _ &
        Hid & Hacc & _).
  exists id, access. split; assumption.
Defined.

Lemma refused_access_token_keeps_id_token_witness :
  let after :=
    Cognito.authenticate (platform := Mock.platform)
      (token_platform := MockTokens.accepting) "pw" [x03]%list
      (Services.fresh (Services.sign_in "id" "forged")) in
  fst after =
    Raise (TokenVerificationException "Your {} token use could not be verified.") /\
  Cognito.id_token (fst (snd after)) = Some "id" /\
  Cognito.access_token (fst (snd after)) = None.
Proof.
  intros after.
  destruct (refused_access_token_keeps_id_token (platform := Mock.platform)
              (token_platform := MockTokens.accepting) "pw" [x03]%list
              (Services.fresh (Services.sign_in "id" "forged"))
              (Mock.srp "us-east-1_abc" None (Some "dev-1") (Services.sign_in "id" "forged"))
              (Mock.tokens "id" "forged") _ "id" "refresh" "forged"
              (TokenVerificationException "Your {} token use could not be verified.")
              ltac:(vm_compute; reflexivity) ltac:(vm_compute; reflexivity)
              eq_refl eq_refl eq_refl eq_refl
              ltac:(vm_compute; reflexivity) ltac:(vm_compute; reflexivity))
    as (H1 & H2 & _ & H3 & _).
  repeat split; assumption.
Defined.

Lemma sign_in_without_tokens_witness :
  fst (Cognito.authenticate (platform := Mock.platform)
         (token_platform := MockTokens.accepting) "pw" [x03]%list
         (Services.fresh Services.sms_mfa)) =
  Raise (KeyError "AuthenticationResult").
Proof.
  rewrite (proj2 (sign_in_without_tokens (platform := Mock.platform)
                    (token_platform := MockTokens.accepting) "pw" [x03]%list
                    (Services.fresh Services.sms_mfa)
                    (Mock.srp "us-east-1_abc" None (Some "dev-1") Services.sms_mfa)
                    ltac:(vm_compute; reflexivity))
             (Mock.challenge "SMS_MFA" ∅) ltac:(vm_compute; reflexivity) eq_refl).
  reflexivity.
Defined.

Lemma admin_sign_in_request_witness :
  Cognito.admin_authenticate (platform := Mock.platform)
    (token_platform := MockTokens.accepting) "pw" (Services.fresh Services.failing) =
  (Raise (ClientError "throttled"),
   (fst (Services.fresh Services.failing),
    [admin_initiate_auth "us-east-1_abc" "abc" "ADMIN_NO_SRP_AUTH"
       (<["PASSWORD" := "pw"]> (<["USERNAME" := "alice"]> ∅))]%list)).
Proof.
  exact (proj2 (admin_sign_in_request (platform := Mock.platform)
                  (token_platform := MockTokens.accepting) "pw" "alice"
                  (Services.fresh Services.failing) eq_refl)
           (ClientError "throttled") eq_refl).
Defined.

(** ** The device verifier *)

(** A padded number is left alone when padded again as a string. *)
Lemma pad_hex_int_fixed r :
  0 <= r -> exists s, pad_hex (PyInt r) = Ok s /\ pad_hex (PyStr s) = Ok s.
Proof.
  intros Hr. rewrite (pad_hex_int_rule r Hr). cbv zeta.
  destruct (long_to_hex_head r Hr) as (d & rest & E & _).
  destruct (Z.odd (len (long_to_hex r))) eqn:Eodd.
  - eexists. split; [reflexivity|]. rewrite append_cons, append_nil, pad_hex_rule.
    rewrite len_cons, Z.odd_add, Eodd. reflexivity.
  - destruct (starts_high (long_to_hex r)) eqn:Ehigh.
    + eexists. split; [reflexivity|]. rewrite !append_cons, append_nil, pad_hex_rule.
      rewrite !len_cons, !Z.odd_add, Eodd. reflexivity.
    + eexists. split; [reflexivity|]. rewrite pad_hex_rule, Eodd, Ehigh.
      rewrite E. reflexivity.
Qed.

Section device_verifier.
Context {platform : Platform}.

(** X26: what [generate_hash_device] enrols.  For a non-empty draw the
    call returns: the device password is the base-64 text of the 40 random
    bytes; [Salt] encodes bytes whose value is the 16-byte random number;
    and [PasswordVerifier] encodes bytes whose value is [g^x mod N],
    where [x] is the number the device key derivation computes from that
    salt and the text group key, device key, colon, device password. *)
Theorem device_verifier_value (device_group_key device_key : option string)
    (urandom40 urandom16 : list byte) :
  urandom16 <> []%list ->
  let device_password := decode (standard_b64encode urandom40) in
  exists salt salt_bytes verifier_bytes x,
    pad_hex (PyInt (be_value urandom16)) = Ok salt /\
    fromhex salt = Ok salt_bytes /\
    be_value salt_bytes = be_value urandom16 /\
    AWSSRP.x_value_of salt
      (fmt_s device_group_key ++ fmt_s device_key ++ ":" ++ device_password) = Ok x /\
    be_value verifier_bytes = 2 ^ x mod N /\
    AWSSRP.generate_hash_device device_group_key device_key urandom40 urandom16 =
    Ok (device_password,
        <["Salt" := decode (standard_b64encode salt_bytes)]>
          (<["PasswordVerifier" := decode (standard_b64encode verifier_bytes)]> ∅)).
Proof.
  intros Hne device_password.
  pose proof (be_value_bound urandom16) as [Hr _].
  destruct (pad_hex_int_bytes _ Hr) as (salt & salt_bytes & Esalt & Ebytes & Vsalt).
  destruct (pad_hex_int_total _ Hr) as (salt' & _ & Esalt' & Hsalt & Lsalt & _).
  rewrite Esalt in Esalt'. injection Esalt' as <-.
  destruct (pad_hex_int_fixed _ Hr) as (salt' & Esalt' & Efixed).
  rewrite Esalt in Esalt'. injection Esalt' as <-.
  set (text := fmt_s device_group_key ++ fmt_s device_key ++ ":" ++ device_password).
  destruct (fromhex_total (salt ++ hash_sha256 (encode text))) as [xb Exb].
  { rewrite is_hex_string_app, Hsalt, hash_sha256_hex. reflexivity. }
  { rewrite len_append. apply even_add; [exact Lsalt | apply hash_sha256_even]. }
  set (x := be_value (sha256 xb)).
  assert (Hx : 0 <= x) by apply be_value_bound.
  destruct (pad_hex_int_bytes (Py.pow 2 x N)) as (v & verifier_bytes & Ev & Evb & Vv).
  { apply pow_range; [exact Hx | exact N_positive]. }
  exists salt, salt_bytes, verifier_bytes, x.
  split; [exact Esalt|]. split; [exact Ebytes|]. split; [exact Vsalt|]. split; [|split].
  - unfold AWSSRP.x_value_of. rewrite Efixed. cbn [Py.bind]. unfold hex_hash.
    fold text. rewrite Exb. cbn [Py.bind]. apply hash_sha256_value.
  - rewrite Vv. apply pow_spec, Hx.
  - unfold AWSSRP.generate_hash_device. rewrite (get_random_be _ Hne). cbn [Py.bind].
    rewrite Esalt. cbn [Py.bind]. unfold hex_hash. fold device_password. fold text.
    rewrite Exb. cbn [Py.bind]. rewrite hash_sha256_value. cbn [Py.bind]. fold x.
    rewrite g_hex_value, n_hex_value. cbn [Py.bind].
    rewrite Ev. cbn [Py.bind]. rewrite Evb. cbn [Py.bind]. rewrite Ebytes.
    reflexivity.
Qed.

End device_verifier.

Lemma device_verifier_value_witness :
  exists config,
    AWSSRP.generate_hash_device (platform := Mock.platform) (Some "grp-1") (Some "dev-1")
      (encode "forty random bytes") [x01; x00]%list =
    Ok ("forty random bytes", config).
Proof.
  destruct (device_verifier_value (platform := Mock.platform) (Some "grp-1") (Some "dev-1")
              (encode "forty random bytes") [x01; x00]%list ltac:(discriminate))
    as (salt & salt_bytes & verifier_bytes & x & _ & _ & _ & _ & _ & E).
  eexists. exact E.
Defined.

(** ** The day of the month in the time stamp *)

Lemma strip_step c s :
  Ascii.eqb c " " = false -> strip_day_zero (String c s) = String c (strip_day_zero s).
Proof.
  intros H. cbn [strip_day_zero]. destruct s as [|z [|d [|sp r]]]; try reflexivity.
  rewrite H. reflexivity.
Qed.

Lemma strip_no_space s t :
  no_space s = true -> strip_day_zero (s ++ t) = s ++ strip_day_zero t.
Proof.
  induction s as [|c s IH]; [reflexivity|].
  unfold no_space. cbn [list_ascii_of_string forallb]. intros H.
  apply andb_prop in H as [Hc Hs]. apply negb_true_iff in Hc.
  rewrite !append_cons, strip_step by exact Hc. rewrite IH by exact Hs. reflexivity.
Qed.

Lemma strip_space_other z s :
  Ascii.eqb z "0" = false ->
  strip_day_zero (String " " (String z s)) = String " " (strip_day_zero (String z s)).
Proof.
  intros H. cbn [strip_day_zero]. destruct s as [|d [|sp r]]; try reflexivity.
  rewrite H. reflexivity.
Qed.

Lemma strip_space_long z d sp s :
  Ascii.eqb sp " " = false ->
  strip_day_zero (String " " (String z (String d (String sp s)))) =
  String " " (strip_day_zero (String z (String d (String sp s)))).
Proof.
  intros H. cbn [strip_day_zero]. rewrite H, !andb_false_r. reflexivity.
Qed.

Lemma strip_match d s :
  is_digit d = true ->
  strip_day_zero (String " " (String "0" (String d (String " " s)))) =
  String " " (String d (String " " (strip_day_zero s))).
Proof. intros H. cbn [strip_day_zero]. rewrite H. reflexivity. Qed.

Lemma digit_not_space c : is_digit c = true -> Ascii.eqb c " " = false.
Proof.
  destruct c as [[] [] [] [] [] [] [] []]; cbn; intros H; try discriminate H; reflexivity.
Qed.

Lemma strip_field s : no_space s = true -> strip_day_zero s = s.
Proof.
  induction s as [|c s IH]; [reflexivity|].
  unfold no_space. cbn [list_ascii_of_string forallb]. intros H.
  apply andb_prop in H as [Hc Hs]. apply negb_true_iff in Hc.
  rewrite strip_step by exact Hc. rewrite IH by exact Hs. reflexivity.
Qed.

Lemma strip_space_field s :
  no_space s = true -> strip_day_zero (String " " s) = String " " s.
Proof.
  intros H. destruct s as [|z [|d [|sp r]]]; try reflexivity.
  assert (Hsp : Ascii.eqb sp " " = false).
  { unfold no_space in H. cbn [list_ascii_of_string forallb] in H.
    apply andb_prop in H as [_ H]. apply andb_prop in H as [_ H].
    apply andb_prop in H as [H _]. apply negb_true_iff, H. }
  rewrite strip_space_long by exact Hsp. rewrite strip_field by exact H. reflexivity.
Qed.

Lemma strip_time_and_year time year :
  no_space time = true -> no_space year = true ->
  strip_day_zero (time ++ " UTC " ++ year) = time ++ " UTC " ++ year.
Proof.
  intros Ht Hy. rewrite strip_no_space by exact Ht. f_equal.
  change (" UTC " ++ year) with (String " " (String "U" (String "T" (String "C" (String " " year))))).
  rewrite strip_space_other by reflexivity.
  rewrite !strip_step by reflexivity. rewrite strip_space_field by exact Hy. reflexivity.
Qed.

Lemma strip_space_time time rest :
  no_space time = true -> String.length time = 8%nat ->
  strip_day_zero (String " " (time ++ rest)) = String " " (strip_day_zero (time ++ rest)).
Proof.
  intros Ht Hlen. destruct time as [|h1 [|h2 [|h3 time']]]; try discriminate Hlen.
  assert (H3 : Ascii.eqb h3 " " = false).
  { unfold no_space in Ht. cbn [list_ascii_of_string forallb] in Ht.
    apply andb_prop in Ht as [_ Ht]. apply andb_prop in Ht as [_ Ht].
    apply andb_prop in Ht as [Ht _]. apply negb_true_iff, Ht. }
  rewrite !append_cons. apply strip_space_long, H3.
Qed.

Lemma space_app (s : string) : " " ++ s = String " " s.
Proof. reflexivity. Qed.

Lemma one_char_app c (s : string) : String c EmptyString ++ s = String c s.
Proof. reflexivity. Qed.

Lemma two_chars_app c1 c2 (s : string) :
  String c1 (String c2 EmptyString) ++ s = String c1 (String c2 s).
Proof. reflexivity. Qed.

(** X27: the time stamp that is signed.  On the text [strftime] gives
    (weekday, month, two-digit day, time of eight characters, [UTC],
    year) the substitution removes the zero in front of a one-digit day
    and changes nothing else; a day of two significant digits leaves the
    text as it is. *)
Theorem day_without_leading_zero (weekday month time year : string) (d1 d2 : ascii) :
  no_space weekday = true -> no_space month = true -> leading_zero month = false ->
  is_digit d1 = true -> is_digit d2 = true ->
  no_space time = true -> String.length time = 8%nat -> no_space year = true ->
  strip_day_zero (strftime_text weekday month d1 d2 time year) =
  weekday ++ " " ++ month ++ " " ++
    (if Ascii.eqb d1 "0" then String d2 EmptyString
     else String d1 (String d2 EmptyString)) ++ " " ++ time ++ " UTC " ++ year.
Proof.
  intros Hw Hm Hz Hd1 Hd2 Ht Hlen Hy. unfold strftime_text.
  rewrite strip_no_space by exact Hw. f_equal.
  rewrite !space_app.
  assert (Hmonth : forall s,
            strip_day_zero (String " " (month ++ String " " s)) =
            String " " (month ++ strip_day_zero (String " " s))).
  { intros s. destruct month as [|c month'].
    - rewrite !append_nil. apply strip_space_other. reflexivity.
    - rewrite append_cons. rewrite strip_space_other by exact Hz.
      rewrite <- append_cons. rewrite strip_no_space by exact Hm. reflexivity. }
  rewrite Hmonth. do 2 f_equal.
  destruct (Ascii.eqb d1 "0") eqn:E1.
  - apply Ascii.eqb_eq in E1. subst d1.
    rewrite strip_match by exact Hd2.
    rewrite strip_time_and_year by assumption.
    rewrite one_char_app. reflexivity.
  - rewrite strip_space_other by exact E1.
    rewrite !strip_step by (apply digit_not_space; assumption).
    rewrite two_chars_app. do 3 f_equal.
    rewrite strip_space_time by assumption.
    rewrite strip_time_and_year by assumption. reflexivity.
Qed.

Lemma day_without_leading_zero_witness :
  strip_day_zero "Fri Jan 05 09:07:02 UTC 2024" = "Fri Jan 5 09:07:02 UTC 2024".
Proof.
  exact (day_without_leading_zero "Fri" "Jan" "09:07:02" "2024" "0" "5"
           eq_refl eq_refl eq_refl eq_refl eq_refl eq_refl eq_refl eq_refl).
Defined.

(** ** Attribute dictionaries *)

Import converters.

Section pydict_facts.
Context {K V : Type} `{EqDecision K}.
Implicit Types (d : pydict K V) (k : K) (v : V).

Lemma get_none k d : get k d = None <-> k ∉ keys d.
Proof.
  induction d as [|[k' v'] d IH]; cbn [get keys List.map fst].
  - split; [intros _; apply not_elem_of_nil | reflexivity].
  - destruct (decide (k = k')) as [->|Hne].
    + split; [discriminate|]. intros H. exfalso. apply H. left.
    + rewrite IH. unfold keys. rewrite not_elem_of_cons. tauto.
Qed.

Lemma get_some_in k v d : get k d = Some v -> k ∈ keys d.
Proof.
  intros H. destruct (decide (k ∈ keys d)) as [Hin|Hout]; [exact Hin|].
  apply get_none in Hout. congruence.
Qed.

Lemma get_set_eq k v d : get k (set k v d) = Some v.
Proof.
  induction d as [|[k' v'] d IH]; cbn [get set].
  - rewrite decide_True by reflexivity. reflexivity.
  - destruct (decide (k = k')) as [->|Hne]; cbn [get].
    + rewrite decide_True by reflexivity. reflexivity.
    + rewrite decide_False by exact Hne. exact IH.
Qed.

Lemma get_set_ne k k' v d : k' <> k -> get k' (set k v d) = get k' d.
Proof.
  intros Hne. induction d as [|[k0 v0] d IH]; cbn [get set].
  - rewrite decide_False by exact Hne. reflexivity.
  - destruct (decide (k = k0)) as [->|Hne0]; cbn [get].
    + rewrite !decide_False by exact Hne. reflexivity.
    + rewrite IH. reflexivity.
Qed.

Lemma keys_set k v d : keys (set k v d) = if decide (k ∈ keys d) then keys d else (keys d ++ [k])%list.
Proof.
  induction d as [|[k0 v0] d IH]; cbn [set keys List.map fst app].
  - rewrite decide_False by apply not_elem_of_nil. reflexivity.
  - destruct (decide (k = k0)) as [->|Hne]; cbn [List.map fst].
    + rewrite decide_True by left. reflexivity.
    + fold (keys (set k v d)). rewrite IH. fold (keys d).
      destruct (decide (k ∈ keys d)) as [Hin|Hout].
      * rewrite decide_True by (right; exact Hin). reflexivity.
      * rewrite decide_False; [reflexivity|].
        rewrite not_elem_of_cons. tauto.
Qed.

Lemma set_new k v d : k ∉ keys d -> set k v d = (d ++ [(k, v)])%list.
Proof.
  induction d as [|[k0 v0] d IH]; cbn [set keys List.map fst app]; [reflexivity|].
  fold (keys d). rewrite not_elem_of_cons. intros [Hne Hout].
  rewrite decide_False by exact Hne. rewrite IH by exact Hout. reflexivity.
Qed.

Lemma NoDup_set k v d : NoDup (keys d) -> NoDup (keys (set k v d)).
Proof.
  intros Hd. rewrite keys_set. destruct (decide (k ∈ keys d)); [exact Hd|].
  apply NoDup_app. repeat split; [exact Hd | | apply NoDup_singleton].
  intros x Hx Hx'. apply list_elem_of_singleton in Hx'. congruence.
Qed.

Lemma keys_remove k d : keys (remove k d) ⊆ keys d.
Proof.
  induction d as [|[k0 v0] d IH]; cbn [remove keys List.map fst]; [reflexivity|].
  fold (keys d). destruct (decide (k = k0)).
  - intros x Hx. right. exact Hx.
  - cbn [keys List.map fst]. fold (keys (remove k d)).
    intros x Hx. apply elem_of_cons in Hx as [->|Hx]; [left | right; apply IH, Hx].
Qed.

Lemma NoDup_remove k d : NoDup (keys d) -> NoDup (keys (remove k d)).
Proof.
  induction d as [|[k0 v0] d IH]; cbn [remove keys List.map fst]; [trivial|].
  fold (keys d). rewrite NoDup_cons. intros [Hout Hd].
  destruct (decide (k = k0)); [exact Hd|].
  cbn [keys List.map fst]. fold (keys (remove k d)). apply NoDup_cons. split.
  - intros Hin. apply Hout, (keys_remove k d), Hin.
  - apply IH, Hd.
Qed.

Lemma get_remove_eq k d : NoDup (keys d) -> get k (remove k d) = None.
Proof.
  induction d as [|[k0 v0] d IH]; cbn [remove keys List.map fst get]; [reflexivity|].
  fold (keys d). rewrite NoDup_cons. intros [Hout Hd].
  destruct (decide (k = k0)) as [->|Hne].
  - apply get_none, Hout.
  - cbn [get]. rewrite decide_False by exact Hne. apply IH, Hd.
Qed.

Lemma get_remove_ne k k' d : k' <> k -> get k' (remove k d) = get k' d.
Proof.
  intros Hne. induction d as [|[k0 v0] d IH]; cbn [remove get]; [reflexivity|].
  destruct (decide (k = k0)) as [->|Hne0].
  - rewrite decide_False by exact Hne. reflexivity.
  - cbn [get]. rewrite IH. reflexivity.
Qed.

Lemma get_app k d1 d2 :
  get k (d1 ++ d2)%list = match get k d1 with Some v => Some v | None => get k d2 end.
Proof.
  induction d1 as [|[k0 v0] d1 IH]; cbn [get app]; [reflexivity|].
  destruct (decide (k = k0)); [reflexivity | exact IH].
Qed.

End pydict_facts.

Lemma mapped_empty name : mapped [] name = name.
Proof. destruct name; reflexivity. Qed.

Lemma to_dict_loop_cons attr_map a attr_list attr_dict :
  to_dict_loop attr_map (a :: attr_list) attr_dict =
  to_dict_loop attr_map attr_list
    (set (mapped attr_map (Name a)) (literal (Value a)) attr_dict).
Proof. reflexivity. Qed.

Lemma to_dict_loop_lookup attr_map attr_list : forall attr_dict name,
  get name (to_dict_loop attr_map attr_list attr_dict) =
  match last (List.filter (fun a => bool_decide (mapped attr_map (Name a) = name))
                attr_list) with
  | Some a => Some (literal (Value a))
  | None => get name attr_dict
  end.
Proof.
  induction attr_list as [|a l IH]; intros attr_dict name; [reflexivity|].
  rewrite to_dict_loop_cons. cbn [List.filter].
  rewrite IH. destruct (bool_decide_reflect (mapped attr_map (Name a) = name)) as [E|E].
  - destruct (List.filter _ l) as [|b rest] eqn:Ef.
    + cbn [last]. rewrite <- E. apply get_set_eq.
    + change (last (a :: b :: rest)) with (last (b :: rest)).
      destruct (last (b :: rest)) eqn:El; [reflexivity|].
      apply last_None in El. discriminate.
  - destruct (last _); [reflexivity|]. apply get_set_ne. congruence.
Qed.

Lemma to_dict_loop_NoDup attr_map attr_list : forall attr_dict,
  NoDup (keys attr_dict) -> NoDup (keys (to_dict_loop attr_map attr_list attr_dict)).
Proof.
  induction attr_list as [|a l IH]; intros attr_dict Hd; [exact Hd|].
  rewrite to_dict_loop_cons. apply IH, NoDup_set, Hd.
Qed.

(** X28: what [cognito_to_dict] builds.  The value under a name is that
    of the last attribute of the list whose mapped name it is, with the
    texts ['true'] and ['false'] turned into booleans; a name no
    attribute maps to is absent; and no name occurs twice. *)
Theorem cognito_to_dict_lookup (attr_list : list attribute)
    (attr_map : option (pydict string string)) (name : option string) :
  let m := match attr_map with Some m => m | None => [] end in
  get name (cognito_to_dict attr_list attr_map) =
    (fun a => literal (Value a))
      <$> last (List.filter (fun a => bool_decide (mapped m (Name a) = name)) attr_list) /\
  NoDup (keys (cognito_to_dict attr_list attr_map)).
Proof.
  intros m. split.
  - unfold cognito_to_dict. fold m. fold (to_dict_loop m attr_list []).
    rewrite to_dict_loop_lookup. destruct (last _); reflexivity.
  - unfold cognito_to_dict. fold m. fold (to_dict_loop m attr_list []).
    apply to_dict_loop_NoDup. constructor.
Qed.

Lemma to_dict_loop_fresh (d : pydict (option string) value) : forall acc,
  NoDup (keys acc ++ keys d) ->
  to_dict_loop [] (as_attributes d) acc =
  (acc ++ List.map (fun item => (fst item, literal (snd item))) d)%list.
Proof.
  induction d as [|[k v] d IH]; intros acc Hnd.
  - cbn. rewrite app_nil_r. reflexivity.
  - change (as_attributes ((k, v) :: d))
      with ({| Name := k; Value := v |} :: as_attributes d).
    rewrite to_dict_loop_cons. cbn [Name Value List.map fst snd].
    rewrite mapped_empty. cbn [keys List.map fst] in Hnd. fold (keys d) in Hnd.
    assert (Hk : k ∉ keys acc).
    { apply NoDup_app in Hnd as (_ & Hdis & _). intros Hin.
      apply (Hdis k Hin). left. }
    rewrite (set_new k (literal v) acc Hk). rewrite IH.
    + rewrite <- app_assoc. reflexivity.
    + unfold keys at 1. rewrite map_app. cbn [List.map fst]. fold (keys acc).
      rewrite <- app_assoc. exact Hnd.
Qed.

(** X29: without a map the two converters undo each other.  Turned into
    an attribute list and back, a dictionary comes out with the same
    names in the same order, its values unchanged but for the texts
    ['true'] and ['false'], which become booleans; and [dict_to_cognito]
    leaves the dictionary it was given as it was. *)
Theorem round_trip_without_map (attributes : pydict (option string) value) :
  NoDup (keys attributes) ->
  dict_to_cognito attributes None = (as_attributes attributes, attributes) /\
  cognito_to_dict (fst (dict_to_cognito attributes None)) None =
    List.map (fun item => (fst item, literal (snd item))) attributes /\
  ((forall item, item ∈ attributes -> literal (snd item) = snd item) ->
   cognito_to_dict (fst (dict_to_cognito attributes None)) None = attributes).
Proof.
  intros Hnd.
  assert (E : cognito_to_dict (as_attributes attributes) None =
              List.map (fun item => (fst item, literal (snd item))) attributes).
  { unfold cognito_to_dict. fold (to_dict_loop [] (as_attributes attributes) []).
    rewrite to_dict_loop_fresh by exact Hnd. reflexivity. }
  split; [reflexivity|]. split; [exact E|].
  intros Hplain. cbn [dict_to_cognito fst]. cbn [fold_left].
  fold (as_attributes attributes). rewrite E.
  clear E Hnd. induction attributes as [|[k v] d IH]; [reflexivity|].
  cbn [List.map fst snd]. pose proof (Hplain (k, v) ltac:(left)) as Hv.
  cbn [snd] in Hv. rewrite Hv.
  f_equal. apply IH. intros item Hin. apply Hplain. right. exact Hin.
Qed.

Lemma round_trip_without_map_witness :
  cognito_to_dict
    (fst (dict_to_cognito [(Some "email", VStr "a@b.c"); (Some "email_verified", VStr "true")]
            None)) None =
  [(Some "email", VStr "a@b.c"); (Some "email_verified", VBool true)].
Proof.
  exact (proj1 (proj2 (round_trip_without_map
                         [(Some "email", VStr "a@b.c"); (Some "email_verified", VStr "true")]
                         ltac:(apply (bool_decide_unpack _); vm_compute; exact I)))).
Defined.

(** *** Renaming with a map, and back *)

Section pydict_items.
Context {K V : Type} `{EqDecision K}.
Implicit Types (d : pydict K V) (k : K) (v : V).

Lemma get_in k v d : get k d = Some v -> (k, v) ∈ d.
Proof.
  induction d as [|[k0 v0] d IH]; cbn [get]; [discriminate|].
  destruct (decide (k = k0)) as [->|Hne].
  - intros [= ->]. left.
  - intros H. right. apply IH, H.
Qed.

Lemma key_of_item k v d : (k, v) ∈ d -> k ∈ keys d.
Proof.
  induction d as [|[k0 v0] d IH]; [intros H; inversion H|].
  intros H. apply elem_of_cons in H as [[= -> ->]|H]; [left | right; apply IH, H].
Qed.

Lemma value_of_item k v d : (k, v) ∈ d -> v ∈ List.map snd d.
Proof.
  induction d as [|[k0 v0] d IH]; [intros H; inversion H|].
  intros H. apply elem_of_cons in H as [[= -> ->]|H]; [left | right; apply IH, H].
Qed.

Lemma item_of_value v d : v ∈ List.map snd d -> exists k, (k, v) ∈ d.
Proof.
  induction d as [|[k0 v0] d IH]; [intros H; inversion H|].
  cbn [List.map snd]. intros H. apply elem_of_cons in H as [->|H].
  - exists k0. left.
  - destruct (IH H) as [k Hk]. exists k. right. exact Hk.
Qed.

Lemma get_of_item k v d : NoDup (keys d) -> (k, v) ∈ d -> get k d = Some v.
Proof.
  induction d as [|[k0 v0] d IH]; [intros _ H; inversion H|].
  cbn [keys List.map fst get]. fold (keys d). rewrite NoDup_cons. intros [Hout Hd] H.
  apply elem_of_cons in H as [[= -> ->]|H].
  - rewrite decide_True by reflexivity. reflexivity.
  - destruct (decide (k = k0)) as [->|Hne]; [|apply IH; assumption].
    exfalso. apply Hout. eapply key_of_item, H.
Qed.

Lemma get_inj k1 k2 v d :
  NoDup (List.map snd d) -> get k1 d = Some v -> get k2 d = Some v -> k1 = k2.
Proof.
  induction d as [|[k0 v0] d IH]; cbn [get List.map snd]; [discriminate|].
  rewrite NoDup_cons. intros [Hout Hd].
  destruct (decide (k1 = k0)) as [->|H1], (decide (k2 = k0)) as [->|H2].
  - reflexivity.
  - intros [= ->] H. exfalso. apply Hout. eapply value_of_item, get_in, H.
  - intros H [= ->]. exfalso. apply Hout. eapply value_of_item, get_in, H.
  - apply IH, Hd.
Qed.

Lemma get_snoc k k' v' d :
  get k (d ++ [(k', v')])%list =
  match get k d with
  | Some v => Some v
  | None => if decide (k = k') then Some v' else None
  end.
Proof. rewrite get_app. reflexivity. Qed.

End pydict_items.

Lemma in_snoc_ne {A} (y v : A) (l : list A) :
  y <> v -> y ∈ (l ++ [v])%list <-> y ∈ l.
Proof.
  intros Hne. rewrite elem_of_app, list_elem_of_singleton. tauto.
Qed.

Lemma dict_to_cognito_loop attributes attr_map :
  dict_to_cognito attributes (Some attr_map) =
  (as_attributes (fold_left rename_step attr_map attributes),
   fold_left rename_step attr_map attributes).
Proof. reflexivity. Qed.

Lemma rename_step_NoDup attributes kv :
  NoDup (keys attributes) -> NoDup (keys (rename_step attributes kv)).
Proof.
  intros Hd. destruct kv as [k v]. cbn [rename_step].
  destruct (get (Some v) attributes); [|exact Hd].
  apply NoDup_set, NoDup_remove, Hd.
Qed.

Lemma rename_inv : forall mr mp D d,
  undoable (mp ++ mr)%list d -> NoDup (keys D) ->
  (forall x, get x D = after_renaming mp d x) ->
  NoDup (keys (fold_left rename_step mr D)) /\
  forall x, get x (fold_left rename_step mr D) = after_renaming (mp ++ mr)%list d x.
Proof.
  induction mr as [|[k v] mr IH]; intros mp D d Hun HD Hinv.
  - rewrite app_nil_r. split; assumption.
  - cbn [fold_left].
    replace (mp ++ (k, v) :: mr)%list with ((mp ++ [(k, v)]) ++ mr)%list in *
      by (rewrite <- app_assoc; reflexivity).
    apply IH; [exact Hun | apply rename_step_NoDup, HD |].
    destruct Hun as (Hk & Hv & Hfresh & Hdisj).
    assert (Ekeys : keys ((mp ++ [(k, v)]) ++ mr)%list =
                    ((keys mp ++ [k]) ++ keys mr)%list)
      by (unfold keys; rewrite !map_app; reflexivity).
    assert (Evals : List.map snd ((mp ++ [(k, v)]) ++ mr)%list =
                    ((List.map snd mp ++ [v]) ++ List.map snd mr)%list)
      by (rewrite !map_app; reflexivity).
    rewrite Ekeys in Hk, Hfresh, Hdisj. rewrite Evals in Hv, Hdisj.
    assert (Hk_in : k ∈ ((keys mp ++ [k]) ++ keys mr)%list)
      by (apply elem_of_app; left; apply elem_of_app; right; left).
    assert (Hv_in : v ∈ ((List.map snd mp ++ [v]) ++ List.map snd mr)%list)
      by (apply elem_of_app; left; apply elem_of_app; right; left).
    assert (Hk_mp : k ∉ keys mp).
    { apply NoDup_app in Hk as (Hk & _ & _). apply NoDup_app in Hk as (_ & Hk & _).
      intros Hin. apply (Hk k Hin). left. }
    assert (Hv_mp : v ∉ List.map snd mp).
    { apply NoDup_app in Hv as (Hv & _ & _). apply NoDup_app in Hv as (_ & Hv & _).
      intros Hin. apply (Hv v Hin). left. }
    assert (Hkv : k <> v).
    { intros ->. apply (Hdisj v Hk_in), Hv_in. }
    assert (Hk_vals : k ∉ List.map snd mp).
    { intros Hin. apply (Hdisj k Hk_in).
      apply elem_of_app; left; apply elem_of_app; left; exact Hin. }
    assert (Hv_keys : v ∉ keys mp).
    { intros Hin. apply (Hdisj v); [|exact Hv_in].
      apply elem_of_app; left; apply elem_of_app; left; exact Hin. }
    assert (Hk_d : get (Some k) d = None).
    { apply get_none. fold (@keys (option string) value d). apply Hfresh, Hk_in. }
    assert (HvD : get (Some v) D = get (Some v) d).
    { rewrite Hinv. cbn [after_renaming].
      rewrite (proj2 (get_none v mp) Hv_keys).
      rewrite bool_decide_eq_false_2 by exact Hv_mp. reflexivity. }
    assert (HkD : get (Some k) D = None).
    { rewrite Hinv. cbn [after_renaming].
      rewrite (proj2 (get_none k mp) Hk_mp).
      rewrite bool_decide_eq_false_2 by exact Hk_vals. exact Hk_d. }
    assert (Hother : forall x, x <> Some k -> x <> Some v ->
                               get x (rename_step D (k, v)) = get x D).
    { intros x Hxk Hxv. cbn [rename_step]. destruct (get (Some v) D); [|reflexivity].
      rewrite get_set_ne by exact Hxk. apply get_remove_ne, Hxv. }
    intros [y|].
    + cbn [after_renaming]. rewrite get_snoc, map_app. cbn [List.map snd].
      destruct (get y mp) as [v'|] eqn:Ey.
      * assert (Hy : y ∈ keys mp) by (eapply get_some_in, Ey).
        rewrite Hother by (intros [= ->]; contradiction).
        rewrite Hinv. cbn [after_renaming]. rewrite Ey. reflexivity.
      * destruct (decide (y = k)) as [->|Hyk].
        -- cbn [rename_step]. rewrite <- HvD.
           destruct (get (Some v) D) as [p|]; [apply get_set_eq | exact HkD].
        -- destruct (decide (y = v)) as [->|Hyv].
           ++ rewrite bool_decide_eq_true_2 by (apply elem_of_app; right; left).
              cbn [rename_step]. destruct (get (Some v) D) as [p|] eqn:Ep; [|exact Ep].
              rewrite get_set_ne by congruence. apply get_remove_eq, HD.
           ++ rewrite Hother by congruence. rewrite Hinv. cbn [after_renaming].
              rewrite Ey.
              rewrite (bool_decide_ext _ _ (in_snoc_ne y v (List.map snd mp) Hyv)).
              reflexivity.
    + rewrite Hother by discriminate. rewrite Hinv. reflexivity.
Qed.

Lemma to_dict_loop_skip attr_map attr_list : forall attr_dict name,
  (forall a, a ∈ attr_list -> mapped attr_map (Name a) <> name) ->
  get name (to_dict_loop attr_map attr_list attr_dict) = get name attr_dict.
Proof.
  induction attr_list as [|a l IH]; intros attr_dict name Hno; [reflexivity|].
  rewrite to_dict_loop_cons, IH.
  - apply get_set_ne. intros E. apply (Hno a); [left | congruence].
  - intros b Hb. apply Hno. right. exact Hb.
Qed.

Lemma as_attributes_in a D : a ∈ as_attributes D -> (Name a, Value a) ∈ D.
Proof.
  induction D as [|[k v] D IH]; [intros H; inversion H|].
  change (as_attributes ((k, v) :: D))
    with ({| Name := k; Value := v |} :: as_attributes D).
  intros H. apply elem_of_cons in H as [->|H]; [left | right; apply IH, H].
Qed.

Lemma to_dict_loop_hit attr_map D : forall acc x val,
  NoDup (keys D) ->
  (forall x1 x2, x1 ∈ keys D -> x2 ∈ keys D ->
                 mapped attr_map x1 = mapped attr_map x2 -> x1 = x2) ->
  get x D = Some val ->
  get (mapped attr_map x) (to_dict_loop attr_map (as_attributes D) acc) =
  Some (literal val).
Proof.
  induction D as [|[k v] D IH]; intros acc x val Hnd Hinj Hx; [discriminate|].
  change (as_attributes ((k, v) :: D))
    with ({| Name := k; Value := v |} :: as_attributes D).
  rewrite to_dict_loop_cons. cbn [Name Value].
  cbn [keys List.map fst] in Hnd, Hinj. fold (keys D) in Hnd, Hinj.
  apply NoDup_cons in Hnd as [Hout Hnd].
  cbn [get] in Hx. destruct (decide (x = k)) as [->|Hne].
  - injection Hx as <-. rewrite to_dict_loop_skip; [apply get_set_eq|].
    intros a Ha E. apply as_attributes_in, key_of_item in Ha.
    apply Hout. rewrite <- (Hinj (Name a) k); [exact Ha | right; exact Ha | left | exact E].
  - apply IH; [exact Hnd | | exact Hx].
    intros x1 x2 H1 H2. apply Hinj; right; assumption.
Qed.

Lemma mapped_some attr_map x y :
  mapped attr_map x = Some y ->
  exists n, x = Some n /\
            (get n attr_map = Some y \/ (get n attr_map = None /\ n = y)).
Proof.
  destruct x as [n|]; [|discriminate]. cbn [mapped].
  destruct (get n attr_map) as [v|] eqn:E; intros [= <-]; exists n; auto.
Qed.

(** X30: with a map the two converters undo each other too.  For a map
    with distinct names and distinct display names, whose names are new
    to the dictionary and are not display names, [dict_to_cognito] moves
    what each display name holds under the name the map gives it (and
    changes the caller's dictionary so), returning one attribute per
    name; [cognito_to_dict] with the same map then gives back, under
    every name, what the dictionary held, the texts ['true'] and
    ['false'] become booleans. *)
Theorem round_trip_with_map (attributes : pydict (option string) value)
    (attr_map : pydict string string) :
  NoDup (keys attributes) -> undoable attr_map attributes ->
  let sent := dict_to_cognito attributes (Some attr_map) in
  fst sent = as_attributes (snd sent) /\
  NoDup (keys (snd sent)) /\
  (forall name, get name (snd sent) = after_renaming attr_map attributes name) /\
  forall name,
    get name (cognito_to_dict (fst sent) (Some attr_map)) = literal <$> get name attributes.
Proof.
  intros Hnd Hun sent. subst sent. rewrite dict_to_cognito_loop. cbn [fst snd].
  destruct (rename_inv attr_map [] attributes attributes Hun Hnd) as [HD Hinv].
  { intros [y|]; reflexivity. }
  cbn [app] in Hinv. set (D := fold_left rename_step attr_map attributes) in *.
  split; [reflexivity|]. split; [exact HD|]. split; [exact Hinv|].
  destruct Hun as (Hk & Hv & Hfresh & Hdisj).
  assert (Hinj : forall x1 x2, x1 ∈ keys D -> x2 ∈ keys D ->
                   mapped attr_map x1 = mapped attr_map x2 -> x1 = x2).
  { assert (Hcross : forall n1 n2 v,
              Some n2 ∈ keys D -> get n1 attr_map = Some v -> get n2 attr_map = None ->
              v <> n2).
    { intros n1 n2 v Hin E1 E2 ->. revert Hin. apply get_none. rewrite Hinv.
      cbn [after_renaming]. rewrite E2.
      rewrite bool_decide_eq_true_2; [reflexivity|].
      eapply value_of_item, get_in, E1. }
    intros [n1|] [n2|] H1 H2; cbn [mapped];
      [|destruct (get n1 attr_map); discriminate
       |destruct (get n2 attr_map); discriminate
       |reflexivity].
    destruct (get n1 attr_map) as [v1|] eqn:E1, (get n2 attr_map) as [v2|] eqn:E2;
      intros [= E].
    - subst v2. f_equal. eapply get_inj; eassumption.
    - exfalso. eapply (Hcross n1 n2 v1); eassumption.
    - exfalso. eapply (Hcross n2 n1 v2); [eassumption..|congruence].
    - congruence. }
  assert (Hhit : forall x val, get x D = Some val ->
            get (mapped attr_map x) (cognito_to_dict (as_attributes D) (Some attr_map)) =
            Some (literal val)).
  { intros x val Hx. apply to_dict_loop_hit; assumption. }
  assert (Hskip : forall name, (forall x, x ∈ keys D -> mapped attr_map x <> name) ->
            get name (cognito_to_dict (as_attributes D) (Some attr_map)) = None).
  { intros name Hno. unfold cognito_to_dict.
    fold (to_dict_loop attr_map (as_attributes D) []).
    rewrite to_dict_loop_skip; [reflexivity|].
    intros a Ha. apply Hno. eapply key_of_item, as_attributes_in, Ha. }
  assert (Hpresent : forall x, x ∈ keys D -> get x D <> None).
  { intros x Hx E. apply get_none in E. contradiction. }
  intros [y|].
  - destruct (decide (y ∈ List.map snd attr_map)) as [Hval|Hval].
    + destruct (item_of_value _ _ Hval) as [k Hitem].
      pose proof (get_of_item _ _ _ Hk Hitem) as Ek.
      assert (EkD : get (Some k) D = get (Some y) attributes).
      { rewrite Hinv. cbn [after_renaming]. rewrite Ek. reflexivity. }
      destruct (get (Some y) attributes) as [val|] eqn:Ey.
      * cbn [fmap option_fmap option_map]. rewrite <- (Hhit (Some k) val EkD). cbn [mapped]. rewrite Ek. reflexivity.
      * cbn [fmap option_fmap option_map]. apply Hskip. intros x Hx E.
        apply mapped_some in E as (n & -> & [E | [E ->]]).
        -- assert (n = k) by (eapply get_inj; eassumption). subst n.
           apply (Hpresent _ Hx). exact EkD.
        -- apply (Hpresent _ Hx). rewrite Hinv. cbn [after_renaming]. rewrite E.
           rewrite bool_decide_eq_true_2 by exact Hval. reflexivity.
    + destruct (get y attr_map) as [v|] eqn:Em.
      * assert (Ey : get (Some y) attributes = None).
        { apply get_none, Hfresh. eapply get_some_in, Em. }
        rewrite Ey. cbn [fmap option_fmap option_map]. apply Hskip. intros x Hx E.
        apply mapped_some in E as (n & -> & [E | [E ->]]).
        -- apply Hval. eapply value_of_item, get_in, E.
        -- congruence.
      * assert (EyD : get (Some y) D = get (Some y) attributes).
        { rewrite Hinv. cbn [after_renaming]. rewrite Em.
          rewrite bool_decide_eq_false_2 by exact Hval. reflexivity. }
        destruct (get (Some y) attributes) as [val|] eqn:Ey.
        -- cbn [fmap option_fmap option_map]. rewrite <- (Hhit (Some y) val EyD). cbn [mapped]. rewrite Em. reflexivity.
        -- cbn [fmap option_fmap option_map]. apply Hskip. intros x Hx E.
           apply mapped_some in E as (n & -> & [E | [E ->]]).
           ++ apply Hval. eapply value_of_item, get_in, E.
           ++ apply (Hpresent _ Hx). exact EyD.
  - assert (ED : get None D = get None attributes) by (rewrite Hinv; reflexivity).
    destruct (get None attributes) as [val|] eqn:Ey.
    + cbn [fmap option_fmap option_map]. rewrite <- (Hhit None val ED). reflexivity.
    + cbn [fmap option_fmap option_map]. apply Hskip. intros x Hx E.
      destruct x as [n|]; [cbn [mapped] in E; destruct (get n attr_map); discriminate|].
      apply (Hpresent _ Hx). exact ED.
Qed.

Lemma round_trip_with_map_witness :
  let attributes := [(Some "mail", VStr "a@b.c"); (Some "nick", VStr "al")] in
  let attr_map := [("email", "mail")] in
  fst (dict_to_cognito attributes (Some attr_map)) =
    [{| Name := Some "nick"; Value := VStr "al" |};
     {| Name := Some "email"; Value := VStr "a@b.c" |}] /\
  get (Some "mail")
      (cognito_to_dict (fst (dict_to_cognito attributes (Some attr_map))) (Some attr_map)) =
    Some (VStr "a@b.c").
Proof.
  intros attributes attr_map.
  destruct (round_trip_with_map attributes attr_map
              ltac:(apply (bool_decide_unpack _); vm_compute; exact I)
              ltac:(repeat split;
                    [apply (bool_decide_unpack _); vm_compute; exact I
                    |apply (bool_decide_unpack _); vm_compute; exact I
                    |intros k Hk; apply list_elem_of_singleton in Hk as ->;
                     apply (bool_decide_unpack _); vm_compute; exact I
                    |intros k Hk; apply list_elem_of_singleton in Hk as ->;
                     apply (bool_decide_unpack _); vm_compute; exact I]))
    as (_ & _ & _ & H).
  split; [reflexivity|]. exact (H (Some "mail")).
Defined.
